(* ===== verification/_CoqProject ===== *)
-Q . S2P
Prelude.v
GoStrings.v
Json.v
JsonLaws.v
JsonReader.v
GoJson.v
Transport.v
DebugEcho.v
Endpoint.v
Envelopes.v
Results.v
Csv.v
Operations.v
EndToEnd.v
