(* ===== verification/Prelude.v ===== *)
(** * A verification development of the HarperDB Go client (src/api.go)

    ** The program

    [src/api.go] (package [harper]) is a client for HarperDB's single
    HTTP endpoint.  Every operation is a JSON document POSTed to the
    package variable [URL]; the document's ["operation"] field says what
    it does.  Its parts, leaves first:

    - the transport executor, method [Run] of [*Harper] (lines
      39-76): marshals the payload with [encoding/json], builds a POST request, adds the
      [Content-Type] and (when [AuthToken] is set) [Authorization]
      headers, calls [Client.Do], checks the status, reads the body, and
      in [Debug] mode echoes request and response to standard output;
    - the command envelopes [AdminReq], [UpdtReq], [ReadReq] (struct
      tags with [omitempty]) and the untyped [map[string]interface{}]
      payload of [CsvDataLoad];
    - the result decoders: [UpdtResult] (filled by [json.Unmarshal]) and
      [bulkResponse.getJobId], which cuts a job id out of a free-text
      message;
    - the operations: the three [Process] methods (schema defaulting,
      the ["skipped_hashes"] partial-failure error) and the helpers
      [Update], [UpdateOne], [UpdateSql], [Insert], [InsertOne], [Get],
      [Select], [CsvDataLoad].

    ** The files

    - [Prelude] (this file): the error values of the Go program
      ([goerror]), Go panics ([outcome]) and the small writer monad [Go]
      in which stateful code is written: a computation returns an
      outcome and the list of observable events it produced, in order
      (lines written to stdout, log lines, requests sent, bodies
      closed).  [with_defer] models a Go [defer].
    - [GoStrings]: [strings.Index] and the slice expression [s[i:]] on
      Go strings (byte strings, modelled by [String.string]).
    - [Json]: JSON documents, the serializer capability as the class
      [JsonCodec] (the spec's "JSON capability": [encode]/[decode]), its
      contract [JsonCodecLaws] (decoding what was encoded gives it back)
      and a concrete printer/parser instance [GoCodec].
    - [JsonLaws]: [GoCodec] meets the contract: the reader inverts the
      printer on well-formed documents, with the fuel [decode] gives.
    - [JsonReader]: the reader only returns well-formed documents,
      whatever the layout of its input.
    - [GoJson]: what [encoding/json] does with Go values: [Marshal]
      (struct fields in order, [omitempty], maps with sorted keys,
      unsupported types) and the decoding of a JSON document into a
      struct of string, []string and *bool fields (exact then
      case-folded key match, with Go's [foldName] on ASCII tags, type
      errors saved while decoding goes on).
    - [Csv]: [CreateCSVLine] (not under src/, modelled from the spec)
      and a CSV reader, with the round trip.
    - [Transport]: [Harper], requests, responses, the [HttpClient]
      capability and [Run].
    - [DebugEcho]: the debug echo of [Run] ([FmtJSON], the indented
      re-print [print_indent]) read back by the reader of [Json].
    - [Endpoint]: the package variable [URL] shared by concurrent
      goroutines: an interleaving semantics ([step], [reachable]) and
      an executable scheduler ([run_sched]) that implements it.
    - [Envelopes]: [AdminReq], [UpdtReq], [ReadReq] as Go values and
      their wire form; the [AdminReq] tags also as [json.Unmarshal]
      reads them, the view of the receiving side.
    - [Results]: [UpdtResult], [bulkResponse] and [getJobId], and the
      contract of the [UpdtResult] decoding ([UpdtResult.spec]).
    - [Operations]: the [Process] methods and the convenience functions.
    - [EndToEnd]: the parts composed, for any lawful codec (and so for
      [GoCodec], whose [JsonCodecLaws] instance it declares): what the
      server receives, and what the caller gets back from a reply.

    ** What is modelled and how

    Go strings and []byte are [String.string] (a list of 8-bit
    characters, as Go strings are byte sequences).  A Go function that
    can panic returns [outcome]; a function with effects returns a [Go]
    computation.  Go's [(T, error)] pairs are pairs with an
    [option goerror].  The [Harper] struct is a record; the
    [*http.Client] it holds is an [HttpClient] capability (a function
    from a request to an optional response and an optional error) or
    [None] for a nil pointer.  [URL] is a parameter of [Run], and so is
    [url_ok], the URL check of [http.NewRequest]; [Endpoint] puts the
    package variable back as state shared by the caller's goroutines,
    each call of [Run] reading it once, at line 51.  The caller-visible
    mutation of [req.Schema] by [Process] (a pointer receiver) is
    returned with the result, and a later call takes that envelope.
    [ReadReq.Process] is generic in the caller's target type and its
    decoder.

    ** What the theorems show

    - [Transport]: the outcome of [Run] on every branch: a marshalling
      error is returned with nothing sent; an unparsable URL and a
      failed send with no response panic (nil dereference, lines 52
      and 62); a non-200 status gives an empty body and a nil error;
      status 200 gives the body and the read error.  Every request sent
      is a POST to [URL] with the marshalled body and the headers of
      lines 52-55; at most one request is sent; the body is closed
      exactly when [Do] returned a response and no error; [Debug]
      changes nothing but the stdout echo.  Progress (liveness): a
      payload that marshals, a URL that parses and a non-nil client
      make [Run] hand its request to [Do], and [Run] returns whenever
      [Do] answers with a response.  On a rejected call the trace is
      exactly the request echo, the send, two log lines about the
      request and the close: the response body is surfaced nowhere.
    - [DebugEcho]: in debug mode the first events of [Run] are the
      title and an indented text that reads back as the marshalled
      document, the same document every request sent carries; and
      for every body, JSON or not, the text [FmtJSON] prints decodes
      exactly as the body does (with [JsonReader]: every number the
      reader returns is a literal of the grammar).
    - [Endpoint]: sessions that all write the same endpoint send every
      request there in every reachable state (an invariant, by
      induction on the steps); sessions that write different endpoints
      can send a request to the other's endpoint, silently: the call
      runs as a correct call to that endpoint would, with no log line,
      a nil error and no crash.
    - [Envelopes]: the wire document of each envelope ([omitempty]
      fields present exactly when not empty, in field order), and the
      [AdminReq] read back from its wire document, [Active = &false]
      included.
    - [Results]: [getJobId] on every branch (no ["id"]: ["not found"];
      otherwise the rest of the message three bytes after the first
      ["id"]; a panic when the message ends with that ["id"]), the
      spec's example, and the decoding of the mutation result: it meets
      its contract (unknown members skipped, tags matched as Go's
      [foldName] matches them, U+017F and U+212A included,
      the last of repeated members wins, text ids kept, by induction
      from the end of the member list), and a numeric id is a type
      error.
    - [Operations]: schema defaulting before the send, the
      ["skipped_hashes"] error, the dropped [json.Unmarshal] errors,
      rejected mutations and reads end to end, the wire documents of
      the five mutation helpers ([Update], [UpdateOne], [UpdateSql],
      [Insert], [InsertOne]), [Get], [Select] and [CsvDataLoad]; a body
      read that fails after status 200 reaches the caller of
      [UpdtReq.Process] as that read error, never replaced by
      ["skipped_hashes"]; an envelope submitted twice carries the first
      session's schema the second time.
    - [Csv]: the blob of rows reads back as the rows (every row having
      a field), the spec's quoting example, and an empty row.
    - [JsonLaws], [GoJson], [GoStrings]: the printer/reader round trip
      of the concrete codec, the sufficiency of the reader's fuel, that
      [json.Marshal] only writes well-formed documents (integers as
      JSON number literals), the folded member match (ASCII case, long s, Kelvin sign) of
      [json.Unmarshal], and [strings.Index] equal to the Standard
      Library's [String.index].
    - [EndToEnd]: the body of every request decodes to the marshalled
      payload; the [AdminReq] the server reads is the caller's; a
      mutation reply, in any layout and with repeated or unknown
      members, comes back as the result the decoding contract gives
      (with the ["skipped_hashes"] rule on the last such member); a read
      answered with a document gives the caller of [Get] the target
      decoded from it; a bulk-load reply comes back as the job id of
      its message.  These are proved against the [JsonCodec] and
      [JsonCodecLaws] interfaces only.

    Several theorems record where the code and the spec part: a failed
    send panics instead of returning a transport error; a non-2xx
    status and an undecodable body reach the caller of
    [UpdtReq.Process] and [CsvDataLoad] as success; [getJobId] returns
    the whole rest of the message and can panic; [Select] sends the
    session's schema though the spec gives it no schema framing; on a
    rejected call the response body is neither echoed, logged nor
    returned; a shared [URL] set to different endpoints by concurrent
    sessions misroutes requests silently, where the spec asks for it
    to be called out as a precondition violation.  Where the spec is
    silent, the theorems say what the code does: a reply that repeats
    ["skipped_hashes"] is judged by its last copy, and [Process]
    changes the caller's envelope.

    ** Bounds and fuel

    All definitions are structural except the JSON reader of [Json],
    which runs on fuel [2 * length + 2].  [JsonLaws] proves that fuel
    enough on every printed document: the reader needs [jsize j] (one
    per value, element and member, one more per array or object), and
    [jsize j <= 2 * length (print j)] because every value prints at
    least one byte and every element or member one separator.  The
    indented text of the debug echo is never shorter than the compact
    one, so the same fuel reads it back ([DebugEcho]).  [StatusCode] is a [Z], compared with 200 as Go
    compares ints; no arithmetic in the source can overflow.

    ** Not modelled

    TLS, connection pooling and the HTTP wire format (the [HttpClient]
    capability stands for them); [log] and [fmt] formatting (log and
    stdout events carry the values printed, not their text); floating
    point decoding of JSON numbers (numbers are kept as literal text,
    and decoding one into a string field is a type error); UTF-8
    validation in [encoding/json] (invalid bytes are kept, where Go
    reads U+FFFD), the joining of [\u] surrogate pairs, and the
    escapes of Go 1.22 and later (the printer writes [\b] and [\f] as
    [\u0008] and [\u000c], as earlier Go does); the case folding of
    names that are not ASCII ([fold_name] is Go's [foldName] as far as
    matching the program's ASCII tags goes); concurrency beyond the shared
    [URL] variable (a call touches no other shared state, and the
    [HttpClient] is assumed safe for concurrent use, as the spec
    requires of the caller).
    [tokens.go] ([GetOpToken]) and [FmtJSON] are not part of the
    sources; [FmtJSON] and [CreateCSVLine] are modelled from the spec.

    ** Coverage

    Every function, method and type of [src/api.go] has a definition
    here; what is left are the library capabilities above and the
    two functions the sources call but do not define.
*)

From stdpp Require Export base list strings decidable.
From Stdlib Require Export String Ascii ZArith Lia.

(** ** Errors *)

(** The Go [error] values the program produces or passes on.  Each
    constructor names the function that creates such an error. *)
Inductive goerror : Type :=
| ErrUnsupportedType (what : string)   (** [json.UnsupportedTypeError] from [json.Marshal] *)
| ErrTransport (msg : string)          (** error returned by [http.Client.Do] *)
| ErrRead (msg : string)               (** error returned by [ioutil.ReadAll] *)
| ErrSyntax                            (** [json.SyntaxError] from [json.Unmarshal] *)
| ErrUnmarshalType (value field : string)  (** [json.UnmarshalTypeError] *)
| ErrNew (msg : string).               (** [errors.New(msg)] *)

#[export] Instance goerror_eq_dec : EqDecision goerror.
Proof. solve_decision. Defined.

(** Go panics the program can raise. *)
Inductive panic_reason : Type :=
| NilDeref      (** nil pointer dereference *)
| SliceBounds.  (** slice bounds out of range *)

#[export] Instance panic_reason_eq_dec : EqDecision panic_reason.
Proof. solve_decision. Defined.

(** The result of Go code that may panic. *)
Inductive outcome (A : Type) : Type :=
| Done (a : A)
| Panic (p : panic_reason).
Arguments Done {A} a.
Arguments Panic {A} p.

(** ** The writer monad of Go computations *)

(** A computation produces an outcome and the events it emitted, in
    order.  A panic keeps the events emitted before it. *)
Definition Go (W A : Type) : Type := (outcome A * list W)%type.

Definition go_ret {W A} (a : A) : Go W A := (Done a, []).
Definition go_panic {W A} (p : panic_reason) : Go W A := (Panic p, []).
Definition go_emit {W} (w : W) : Go W unit := (Done tt, [w]).

Definition go_bind {W A B} (m : Go W A) (k : A -> Go W B) : Go W B :=
  match m with
  | (Done a, t1) => let '(r, t2) := k a in (r, t1 ++ t2)
  | (Panic p, t1) => (Panic p, t1)
  end.

(** [go_lift] runs pure code that may panic. *)
Definition go_lift {W A} (o : outcome A) : Go W A := (o, []).

(** [with_defer body d] runs [body], then the deferred [d] whatever
    [body] did; a panic of [d] replaces the outcome of [body], as a
    deferred call that panics does in Go. *)
Definition with_defer {W A} (body : Go W A) (d : Go W unit) : Go W A :=
  let '(r, t1) := body in
  let '(r2, t2) := d in
  (match r2 with Done _ => r | Panic p => Panic p end, t1 ++ t2).

Definition go_when {W} (b : bool) (m : Go W unit) : Go W unit :=
  if b then m else go_ret tt.

Declare Scope go_scope.
Delimit Scope go_scope with go.
Notation "x <- m ;; k" := (go_bind m (fun x => k))
  (at level 100, m at next level, right associativity) : go_scope.
Notation "m ;;; k" := (go_bind m (fun _ => k))
  (at level 100, right associativity) : go_scope.

(** Projections: the outcome and the events of a run. *)
Definition go_result {W A} (m : Go W A) : outcome A := fst m.
Definition go_trace {W A} (m : Go W A) : list W := snd m.

(** ** Shared helpers *)

(** Go's [x != ""] on strings, as a boolean. *)
Definition nonempty (s : string) : bool := negb (String.eqb s "").

(** [first_error e1 e2]: Go's "keep the first saved error". *)
Definition first_error (e1 e2 : option goerror) : option goerror :=
  match e1 with Some _ => e1 | None => e2 end.

(** ** Shared lemmas *)

Create HintDb harper discriminated.
Create Rewrite HintDb harper.

Section Monad.
Context {W : Type}.

Lemma go_bind_ret {A B} (a : A) (k : A -> Go W B) : go_bind (go_ret a) k = k a.
Proof. unfold go_bind, go_ret. destruct (k a). by rewrite app_nil_l. Qed.

Lemma go_bind_emit {B} (w : W) (k : unit -> Go W B) :
  go_bind (go_emit w) k = (fst (k tt), w :: snd (k tt)).
Proof. unfold go_bind, go_emit. by destruct (k tt). Qed.

Lemma go_bind_panic {A B} p (k : A -> Go W B) : go_bind (go_panic p) k = go_panic p.
Proof. reflexivity. Qed.

Lemma go_bind_lift_done {A B} (a : A) (k : A -> Go W B) : go_bind (go_lift (Done a)) k = k a.
Proof. apply go_bind_ret. Qed.

Lemma go_bind_assoc {A B C} (m : Go W A) (k : A -> Go W B) (k' : B -> Go W C) :
  go_bind (go_bind m k) k' = go_bind m (fun a => go_bind (k a) k').
Proof.
  destruct m as [[a|p] t1]; simpl; [|reflexivity].
  destruct (k a) as [[b|p] t2]; simpl; [|reflexivity].
  destruct (k' b) as [r t3]. by rewrite app_assoc.
Qed.

Lemma go_bind_pair {A B} (m : Go W A) (k : A -> Go W B) :
  go_bind m k =
  match fst m with
  | Done a => (fst (k a), snd m ++ snd (k a))
  | Panic p => (Panic p, snd m)
  end.
Proof. destruct m as [[a|p] t]; simpl; [by destruct (k a)|reflexivity]. Qed.

Lemma go_bind_Done {A B} (m : Go W A) a (k : A -> Go W B) :
  fst m = Done a -> go_bind m k = (fst (k a), snd m ++ snd (k a)).
Proof. intros H. rewrite go_bind_pair, H. done. Qed.

Lemma go_result_bind {A B} (m : Go W A) (k : A -> Go W B) :
  go_result (go_bind m k) = match go_result m with Done a => go_result (k a) | Panic p => Panic p end.
Proof. unfold go_result. rewrite go_bind_pair. by destruct (fst m). Qed.

(** A continuation that emits nothing adds nothing to the trace. *)
Lemma go_trace_bind_silent {A B} (m : Go W A) (k : A -> Go W B) :
  (forall a, snd (k a) = []) -> go_trace (go_bind m k) = go_trace m.
Proof.
  intros Hk. unfold go_trace. rewrite go_bind_pair.
  destruct (fst m); simpl; [by rewrite Hk, app_nil_r|done].
Qed.

Lemma with_defer_pair {A} (body : Go W A) (d : Go W unit) :
  with_defer body d =
  (match fst d with Done _ => fst body | Panic p => Panic p end, snd body ++ snd d).
Proof. by destruct body, d. Qed.
End Monad.

#[export] Hint Rewrite @go_bind_ret @go_bind_emit @go_bind_panic @go_bind_lift_done : harper.

(** String concatenation ([+:+], which stdpp keeps from [simpl]). *)
Lemma sapp_nil_l s : ("" +:+ s)%string = s.
Proof. reflexivity. Qed.

Lemma sapp_cons a s1 s2 : (String a s1 +:+ s2)%string = String a (s1 +:+ s2).
Proof. reflexivity. Qed.

Lemma sapp_nil_r s : (s +:+ "")%string = s.
Proof. induction s as [|a s IH]; [done|]. by rewrite sapp_cons, IH. Qed.

Lemma sapp_assoc s1 s2 s3 : (s1 +:+ (s2 +:+ s3))%string = ((s1 +:+ s2) +:+ s3)%string.
Proof. induction s1 as [|a s1 IH]; [done|]. by rewrite !sapp_cons, IH. Qed.

Lemma sapp_length s1 s2 : String.length (s1 +:+ s2) = String.length s1 + String.length s2.
Proof. induction s1 as [|a s1 IH]; [done|]. rewrite sapp_cons. simpl. by rewrite IH. Qed.

#[export] Hint Rewrite sapp_nil_l sapp_cons sapp_nil_r sapp_length : harper.


Lemma nonempty_empty : nonempty "" = false.
Proof. reflexivity. Qed.

Lemma nonempty_false s : nonempty s = false <-> s = "".
Proof. unfold nonempty. rewrite negb_false_iff. apply String.eqb_eq. Qed.

Lemma nonempty_true s : nonempty s = true <-> s <> "".
Proof.
  unfold nonempty. rewrite negb_true_iff, <- not_true_iff_false, String.eqb_eq.
  reflexivity.
Qed.

#[export] Hint Resolve -> nonempty_false : harper.
#[export] Hint Resolve <- nonempty_false : harper.


Lemma first_error_None_l e : first_error None e = e.
Proof. reflexivity. Qed.

Lemma first_error_None_r e : first_error e None = e.
Proof. by destruct e. Qed.

#[export] Hint Rewrite first_error_None_l first_error_None_r : harper.

(** A tactic for the case analysis on a Go computation's branches. *)
Ltac go_simpl :=
  repeat first
    [ progress autorewrite with harper in *
    | progress cbn [fst snd go_result go_trace go_when go_lift app] in * ].
