(* ===== verification/GoStrings.v ===== *)
(** * Go strings: [strings.Index] and the slice expression [s[lo:]]

    A Go string is a byte sequence; here it is a [String.string].  Go's
    [strings.Index(s, substr)] returns the byte offset of the first
    occurrence of [substr] in [s], or -1; [s[lo:]] panics unless
    [0 <= lo <= len(s)].  [Index] is proved to meet the specification
    "first occurrence" and to agree with the Standard Library's
    [String.index]. *)

From S2P Require Import Prelude.

Open Scope string_scope.

Module GoStrings.

(** [sdrop n s]: [s] without its first [n] bytes ([""] past the end). *)
Fixpoint sdrop (n : nat) (s : string) : string :=
  match n, s with
  | 0, _ => s
  | S n', String _ s' => sdrop n' s'
  | S _, EmptyString => EmptyString
  end.

(** [occurs_at sub s j]: [sub] starts at byte [j] of [s]. *)
Definition occurs_at (sub s : string) (j : nat) : bool :=
  String.prefix sub (sdrop j s).

(** The first offset at which [sub] occurs in [s]. *)
Fixpoint Index_nat (s sub : string) : option nat :=
  if String.prefix sub s then Some 0
  else match s with
       | EmptyString => None
       | String _ s' => option_map S (Index_nat s' sub)
       end.

(** [strings.Index(s, substr)]: an [int], -1 when [substr] is absent. *)
Definition Index (s sub : string) : Z :=
  match Index_nat s sub with
  | Some n => Z.of_nat n
  | None => (-1)%Z
  end.

(** [s[lo:]] *)
Definition slice_from (lo : Z) (s : string) : outcome string :=
  if (0 <=? lo)%Z && (lo <=? Z.of_nat (String.length s))%Z
  then Done (sdrop (Z.to_nat lo) s)
  else Panic SliceBounds.

(** ** Lemmas on [sdrop] and [prefix] *)

Lemma sdrop_app p s : sdrop (String.length p) (p +:+ s) = s.
Proof. induction p; [done|]. rewrite sapp_cons. simpl. done. Qed.

Lemma sdrop_app_add p s k : sdrop (String.length p + k) (p +:+ s) = sdrop k s.
Proof. induction p; [done|]. rewrite sapp_cons. simpl. done. Qed.

Lemma sdrop_S_String a s n : sdrop (S n) (String a s) = sdrop n s.
Proof. reflexivity. Qed.

Lemma sdrop_length n s : String.length (sdrop n s) = String.length s - n.
Proof. revert s; induction n; intros [|a s]; simpl; auto; lia. Qed.

Lemma prefix_app s1 s2 : String.prefix s1 (s1 +:+ s2) = true.
Proof.
  induction s1; [by destruct s2|]. rewrite sapp_cons. simpl.
  destruct (ascii_dec a a); [exact IHs1|congruence].
Qed.

Lemma prefix_empty_l s : String.prefix "" s = true.
Proof. by destruct s. Qed.

Lemma prefix_nonempty_empty sub : sub <> "" -> String.prefix sub "" = false.
Proof. by destruct sub. Qed.

Lemma prefix_length sub s : String.prefix sub s = true -> String.length sub <= String.length s.
Proof.
  revert s; induction sub as [|a sub IH]; intros [|b s]; simpl; try lia; try done.
  destruct (ascii_dec a b); [|done]. intros H. apply IH in H. lia.
Qed.

#[export] Hint Rewrite sdrop_app sdrop_length prefix_app prefix_empty_l : harper.

(** ** [Index] is "first occurrence" *)

Lemma Index_nat_Some s sub n :
  Index_nat s sub = Some n <->
  occurs_at sub s n = true /\ (forall j, j < n -> occurs_at sub s j = false).
Proof.
  unfold occurs_at. revert n. induction s as [|a s IH]; intros n; cbn [Index_nat].
  - destruct (String.prefix sub "") eqn:E.
    + split; [intros [= <-]; split; [done|lia]|].
      intros [_ Hj]. destruct n as [|n]; [done|].
      specialize (Hj 0 ltac:(lia)). cbn [sdrop] in Hj. congruence.
    + split; [done|]. intros [H _]. destruct n; cbn [sdrop] in H; congruence.
  - destruct (String.prefix sub (String a s)) eqn:E.
    + split; [intros [= <-]; split; [done|lia]|].
      intros [_ Hj]. destruct n as [|n]; [done|].
      specialize (Hj 0 ltac:(lia)). cbn [sdrop] in Hj. congruence.
    + destruct (Index_nat s sub) as [m|] eqn:Es; cbn [option_map].
      * split.
        -- intros [= <-]. destruct (proj1 (IH m) eq_refl) as [Hm Hj]. split; [done|].
           intros [|j] ?; cbn [sdrop]; [done|]. apply Hj. lia.
        -- intros [Hn Hj]. destruct n as [|n]; [cbn [sdrop] in Hn; congruence|].
           f_equal. assert (Some m = Some n) as [= ->]; [|done].
           apply IH. split; [done|].
           intros j ?. apply (Hj (S j)). lia.
      * split; [done|]. intros [Hn Hj]. destruct n as [|n]; [cbn [sdrop] in Hn; congruence|].
        assert (@None nat = Some n) as Hc; [|congruence].
        apply IH. split; [done|]. intros j ?. apply (Hj (S j)). lia.
Qed.

Lemma Index_nat_None s sub :
  Index_nat s sub = None <-> forall j, occurs_at sub s j = false.
Proof.
  unfold occurs_at. induction s as [|a s IH]; cbn [Index_nat].
  - destruct (String.prefix sub "") eqn:E; split; try done.
    + intros H. specialize (H 0). cbn [sdrop] in H. congruence.
    + intros _ [|j]; cbn [sdrop]; done.
  - destruct (String.prefix sub (String a s)) eqn:E.
    + split; [done|]. intros H. specialize (H 0). cbn [sdrop] in H. congruence.
    + destruct (Index_nat s sub) eqn:Es; cbn [option_map].
      * split; [done|]. intros H.
        assert (Some n = None) as Hc; [|congruence].
        apply IH. intros j. apply (H (S j)).
      * split; [|done]. intros _ [|j]; cbn [sdrop]; [done|]. by apply IH.
Qed.

(** The offset [Index] finds is in range: the occurrence fits in [s]. *)
Lemma Index_nat_bound s sub n :
  Index_nat s sub = Some n -> n + String.length sub <= String.length s.
Proof.
  intros H. apply Index_nat_Some in H as [H Hj]. unfold occurs_at in *.
  apply prefix_length in H. rewrite sdrop_length in H.
  destruct (decide (n <= String.length s)); [lia|].
  destruct sub; [|simpl in *; lia].
  specialize (Hj 0 ltac:(lia)). by rewrite prefix_empty_l in Hj.
Qed.

(** A pattern that does not occur in [pre] and cannot straddle the end
    of [pre] is first found right after [pre]. *)
Lemma Index_nat_after s pre sub :
  (forall j, j < String.length pre -> occurs_at sub (pre +:+ s) j = false) ->
  Index_nat (pre +:+ s) sub = option_map (Nat.add (String.length pre)) (Index_nat s sub).
Proof.
  induction pre as [|a pre IH]; intros H.
  - rewrite sapp_nil_l. by destruct (Index_nat s sub).
  - pose proof (H 0 ltac:(simpl; lia)) as H0. unfold occurs_at in H0. cbn [sdrop] in H0.
    rewrite sapp_cons in *.
    cbn [Index_nat]. rewrite H0. rewrite IH; [by destruct (Index_nat s sub)|].
    intros j ?. apply (H (S j)). simpl; lia.
Qed.

Lemma occurs_at_app_here pre sub post :
  occurs_at sub (pre +:+ sub +:+ post) (String.length pre) = true.
Proof. unfold occurs_at. by rewrite sdrop_app, prefix_app. Qed.

#[export] Hint Resolve occurs_at_app_here : harper.

(** ** Agreement with the Standard Library's reference search *)

Lemma Index_nat_stdlib s sub : Index_nat s sub = String.index 0 sub s.
Proof.
  induction s as [|a s IH]; cbn [Index_nat String.index].
  - by destruct sub.
  - destruct (String.prefix sub (String a s)); [done|]. rewrite IH.
    by destruct (String.index 0 sub s).
Qed.

(** [strings.Index] as modelled agrees with the Standard Library's
    reference search [String.index]: the same position, and [-1]
    exactly when the reference finds nothing. *)
Lemma Index_equiv_stdlib s sub :
  Index s sub = match String.index 0 sub s with Some n => Z.of_nat n | None => (-1)%Z end.
Proof. unfold Index. by rewrite Index_nat_stdlib. Qed.

(** ** The slice expression *)

Lemma slice_from_ok lo s :
  (0 <= lo <= Z.of_nat (String.length s))%Z ->
  slice_from lo s = Done (sdrop (Z.to_nat lo) s).
Proof.
  intros [H1 H2]. unfold slice_from.
  rewrite (proj2 (Z.leb_le _ _) H1), (proj2 (Z.leb_le _ _) H2). done.
Qed.

Lemma slice_from_panic lo s :
  (lo < 0 \/ Z.of_nat (String.length s) < lo)%Z -> slice_from lo s = Panic SliceBounds.
Proof.
  intros H. unfold slice_from.
  destruct (Z.leb_spec 0 lo), (Z.leb_spec lo (Z.of_nat (String.length s))); simpl; auto; lia.
Qed.

End GoStrings.
