(* ===== verification/Json.v ===== *)
(** * JSON documents and the serializer capability

    The spec treats JSON encoding and decoding as an external
    capability: [encode(value) -> bytes] and [decode(bytes) -> value or
    error].  [JsonCodec] is that interface; [JsonCodecLaws] states what
    the transport relies on (decoding what was encoded gives it back,
    and an empty body is not a document).  [GoCodec] is a concrete
    instance written after [encoding/json]: compact output, the escapes
    [json.Marshal] writes (quote, backslash, control characters, and
    the HTML characters [<], [>], [&]), and a recursive-descent reader
    (with fuel [2 * length + 2]) that accepts the JSON grammar.
    Numbers are kept as their literal text, as [json.Number] does. *)

From S2P Require Import Prelude GoStrings.

Open Scope string_scope.
Open Scope nat_scope.

Module Json.

#[local] Unset Elimination Schemes.
Inductive json : Type :=
| JNull
| JBool (b : bool)
| JNumber (lit : string)
| JString (s : string)
| JArray (l : list json)
| JObject (kvs : list (string * json)).
#[local] Set Elimination Schemes.

(** The induction principle with hypotheses for the elements of arrays
    and the members of objects. *)
Section JsonInd.
Variable P : json -> Prop.
Hypothesis HNull : P JNull.
Hypothesis HBool : forall b, P (JBool b).
Hypothesis HNumber : forall n, P (JNumber n).
Hypothesis HString : forall s, P (JString s).
Hypothesis HArray : forall l, Forall P l -> P (JArray l).
Hypothesis HObject : forall kvs, Forall (fun kv => P (snd kv)) kvs -> P (JObject kvs).

Fixpoint json_ind' (j : json) : P j :=
  match j with
  | JNull => HNull
  | JBool b => HBool b
  | JNumber n => HNumber n
  | JString s => HString s
  | JArray l =>
      HArray l ((fix go (l : list json) : Forall P l :=
                   match l with
                   | [] => @Forall_nil _ P
                   | x :: l' => @Forall_cons _ P x l' (json_ind' x) (go l')
                   end) l)
  | JObject kvs =>
      HObject kvs ((fix go (kvs : list (string * json)) : Forall (fun kv => P (snd kv)) kvs :=
                      match kvs with
                      | [] => @Forall_nil _ (fun kv => P (snd kv))
                      | kv :: kvs' => @Forall_cons _ (fun kv => P (snd kv)) kv kvs' (json_ind' (snd kv)) (go kvs')
                      end) kvs)
  end.
End JsonInd.

(** ** The capability *)

Class JsonCodec := {
  jencode : json -> string;
  jdecode : string -> option json
}.

(** A number literal of the JSON grammar:
    [-? (0 | [1-9][0-9]* ) (. [0-9]+)? ([eE] [+-]? [0-9]+)?]. *)
Definition is_digit (c : ascii) : bool :=
  let n := nat_of_ascii c in (48 <=? n) && (n <=? 57).

Fixpoint digits_prefix (s : string) : string * string :=
  match s with
  | String c s' => if is_digit c then let '(d, r) := digits_prefix s' in (String c d, r) else ("", s)
  | EmptyString => ("", "")
  end.

Definition frac_ok (s : string) : option string :=
  match s with
  | String "."%char s' =>
      let '(d, r) := digits_prefix s' in if nonempty d then Some r else None
  | _ => Some s
  end.

Definition exp_ok (s : string) : option string :=
  match s with
  | String c s' =>
      if (Ascii.eqb c "e") || (Ascii.eqb c "E") then
        let s'' := match s' with
                   | String c' s'' => if (Ascii.eqb c' "+") || (Ascii.eqb c' "-") then s'' else s'
                   | EmptyString => s'
                   end in
        let '(d, r) := digits_prefix s'' in if nonempty d then Some r else None
      else Some s
  | EmptyString => Some s
  end.

Definition int_ok (s : string) : option string :=
  let s := match s with String "-"%char s' => s' | _ => s end in
  match s with
  | String "0"%char s' => Some s'
  | String c _ => if is_digit c then Some (snd (digits_prefix s)) else None
  | EmptyString => None
  end.

Definition number_literal (lit : string) : bool :=
  match int_ok lit with
  | Some r => match frac_ok r with
              | Some r' => match exp_ok r' with Some "" => true | _ => false end
              | None => false
              end
  | None => false
  end.

(** The documents [GoCodec] round-trips: number literals are numbers. *)
Fixpoint json_wf (j : json) : bool :=
  match j with
  | JNumber lit => number_literal lit
  | JArray l => forallb json_wf l
  | JObject kvs => forallb (fun kv => json_wf (snd kv)) kvs
  | _ => true
  end.

Class JsonCodecLaws (C : JsonCodec) := {
  jdecode_jencode : forall j, json_wf j = true -> jdecode (jencode j) = Some j;
  jdecode_empty : jdecode "" = None
}.

(** ** The printer: compact output as [json.Marshal] writes it *)

Definition hexdigit (n : nat) : ascii :=
  ascii_of_nat (if n <? 10 then 48 + n else 87 + n).

Definition char_of (n : nat) : string := String (ascii_of_nat n) EmptyString.

(** [\u00XX] for a byte below 0x100. *)
Definition unicode_escape (n : nat) : string :=
  "\u00" +:+ String (hexdigit (n / 16)) (String (hexdigit (n mod 16)) EmptyString).

Definition escape_char (c : ascii) : string :=
  let n := nat_of_ascii c in
  if n =? 34 then "\" +:+ char_of 34                    (* quote *)
  else if n =? 92 then "\\"                            (* backslash *)
  else if n =? 10 then "\n"
  else if n =? 13 then "\r"
  else if n =? 9 then "\t"
  else if (n <? 32) || (n =? 60) || (n =? 62) || (n =? 38) then unicode_escape n
  else String c EmptyString.

Fixpoint escape (s : string) : string :=
  match s with
  | EmptyString => EmptyString
  | String c s' => escape_char c +:+ escape s'
  end.

Definition quote (s : string) : string := char_of 34 +:+ escape s +:+ char_of 34.

Fixpoint concat_sep (sep : string) (l : list string) : string :=
  match l with
  | [] => ""
  | [x] => x
  | x :: l' => x +:+ sep +:+ concat_sep sep l'
  end.

Fixpoint print (j : json) : string :=
  match j with
  | JNull => "null"
  | JBool true => "true"
  | JBool false => "false"
  | JNumber lit => lit
  | JString s => quote s
  | JArray l => "[" +:+ concat_sep "," (map print l) +:+ "]"
  | JObject kvs =>
      "{" +:+ concat_sep "," (map (fun kv => quote (fst kv) +:+ ":" +:+ print (snd kv)) kvs) +:+ "}"
  end.

(** Indented output, two spaces per level (what the debug echo shows). *)
Fixpoint spaces (n : nat) : string :=
  match n with 0 => "" | S n' => "  " +:+ spaces n' end.

Definition nl : string := char_of 10.

Fixpoint print_indent (lvl : nat) (j : json) : string :=
  match j with
  | JArray [] => "[]"
  | JObject [] => "{}"
  | JArray l =>
      "[" +:+ nl +:+
      concat_sep ("," +:+ nl) (map (fun x => spaces (S lvl) +:+ print_indent (S lvl) x) l)
      +:+ nl +:+ spaces lvl +:+ "]"
  | JObject kvs =>
      "{" +:+ nl +:+
      concat_sep ("," +:+ nl)
        (map (fun kv => spaces (S lvl) +:+ quote (fst kv) +:+ ": " +:+ print_indent (S lvl) (snd kv)) kvs)
      +:+ nl +:+ spaces lvl +:+ "}"
  | _ => print j
  end.

(** ** The reader *)

Definition is_ws (c : ascii) : bool :=
  let n := nat_of_ascii c in (n =? 32) || (n =? 9) || (n =? 10) || (n =? 13).

Fixpoint skip_ws (s : string) : string :=
  match s with
  | String c s' => if is_ws c then skip_ws s' else s
  | EmptyString => EmptyString
  end.

(** [chop lit s]: the rest of [s] when it starts with [lit]. *)
Definition chop (lit s : string) : option string :=
  if String.prefix lit s then Some (GoStrings.sdrop (String.length lit) s) else None.

Definition hexval (c : ascii) : option Z :=
  let n := nat_of_ascii c in
  if (48 <=? n) && (n <=? 57) then Some (Z.of_nat (n - 48))
  else if (97 <=? n) && (n <=? 102) then Some (Z.of_nat (n - 87))
  else if (65 <=? n) && (n <=? 70) then Some (Z.of_nat (n - 55))
  else None.

Definition hex4 (a b c d : ascii) : option Z :=
  match hexval a, hexval b, hexval c, hexval d with
  | Some x, Some y, Some z, Some w =>
      Some (Z.lor (Z.shiftl x 12) (Z.lor (Z.shiftl y 8) (Z.lor (Z.shiftl z 4) w)))
  | _, _, _, _ => None
  end.

Definition byte_of (z : Z) : ascii := ascii_of_nat (Z.to_nat z).

(** The UTF-8 bytes of a code point below 0x10000 (what [\uXXXX]
    stands for). *)
Definition utf8 (cp : Z) : string :=
  if (cp <? 128)%Z then String (byte_of cp) EmptyString
  else if (cp <? 2048)%Z then
    String (byte_of (Z.lor 192 (Z.shiftr cp 6)))
      (String (byte_of (Z.lor 128 (Z.land cp 63))) EmptyString)
  else
    String (byte_of (Z.lor 224 (Z.shiftr cp 12)))
      (String (byte_of (Z.lor 128 (Z.land (Z.shiftr cp 6) 63)))
         (String (byte_of (Z.lor 128 (Z.land cp 63))) EmptyString)).

(** The one-letter escapes: a backslash then a quote, a backslash, a
    slash, or one of the letters b, f, n, r, t. *)
Definition simple_unescape (e : ascii) : option ascii :=
  let n := nat_of_ascii e in
  if n =? 34 then Some e
  else if n =? 92 then Some e
  else if n =? 47 then Some e
  else if n =? 98 then Some (ascii_of_nat 8)
  else if n =? 102 then Some (ascii_of_nat 12)
  else if n =? 110 then Some (ascii_of_nat 10)
  else if n =? 114 then Some (ascii_of_nat 13)
  else if n =? 116 then Some (ascii_of_nat 9)
  else None.

Definition cons_fst (pre : string) (o : option (string * string)) : option (string * string) :=
  match o with Some (b, r) => Some (pre +:+ b, r) | None => None end.

(** The body of a string literal up to its closing quote. *)
Fixpoint parse_str (s : string) : option (string * string) :=
  match s with
  | EmptyString => None
  | String c s' =>
      let n := nat_of_ascii c in
      if n =? 34 then Some ("", s')
      else if n =? 92 then
        match s' with
        | String e s'' =>
            match simple_unescape e with
            | Some ch => cons_fst (String ch EmptyString) (parse_str s'')
            | None =>
                if nat_of_ascii e =? 117 then
                  match s'' with
                  | String h1 (String h2 (String h3 (String h4 r))) =>
                      match hex4 h1 h2 h3 h4 with
                      | Some cp => cons_fst (utf8 cp) (parse_str r)
                      | None => None
                      end
                  | _ => None
                  end
                else None
            end
        | EmptyString => None
        end
      else if n <? 32 then None
      else cons_fst (String c EmptyString) (parse_str s')
  end.

(** The longest prefix of [s] that is a number literal. *)
Definition parse_number (s : string) : option (string * string) :=
  match int_ok s with
  | Some r1 =>
      match frac_ok r1 with
      | Some r2 =>
          match exp_ok r2 with
          | Some r3 => Some (String.substring 0 (String.length s - String.length r3) s, r3)
          | None => None
          end
      | None => None
      end
  | None => None
  end.

Fixpoint parse_value (fuel : nat) (s : string) : option (json * string) :=
  match fuel with
  | 0 => None
  | S f =>
      match skip_ws s with
      | EmptyString => None
      | String c s' as s0 =>
          let n := nat_of_ascii c in
          if n =? 34 then
            match parse_str s' with Some (v, r) => Some (JString v, r) | None => None end
          else if n =? 91 then
            match skip_ws s' with
            | String "]"%char r => Some (JArray [], r)
            | s'' => parse_elems f s'' []
            end
          else if n =? 123 then
            match skip_ws s' with
            | String "}"%char r => Some (JObject [], r)
            | s'' => parse_members f s'' []
            end
          else if n =? 110 then
            match chop "ull" s' with Some r => Some (JNull, r) | None => None end
          else if n =? 116 then
            match chop "rue" s' with Some r => Some (JBool true, r) | None => None end
          else if n =? 102 then
            match chop "alse" s' with Some r => Some (JBool false, r) | None => None end
          else
            match parse_number s0 with Some (lit, r) => Some (JNumber lit, r) | None => None end
      end
  end
with parse_elems (fuel : nat) (s : string) (acc : list json) : option (json * string) :=
  match fuel with
  | 0 => None
  | S f =>
      match parse_value f s with
      | Some (v, r) =>
          match skip_ws r with
          | String ","%char r' => parse_elems f r' (v :: acc)
          | String "]"%char r' => Some (JArray (rev (v :: acc)), r')
          | _ => None
          end
      | None => None
      end
  end
with parse_members (fuel : nat) (s : string) (acc : list (string * json)) : option (json * string) :=
  match fuel with
  | 0 => None
  | S f =>
      match skip_ws s with
      | String c s' =>
          if nat_of_ascii c =? 34 then
            match parse_str s' with
            | Some (k, r) =>
                match skip_ws r with
                | String ":"%char r' =>
                    match parse_value f r' with
                    | Some (v, r'') =>
                        match skip_ws r'' with
                        | String ","%char t => parse_members f t ((k, v) :: acc)
                        | String "}"%char t => Some (JObject (rev ((k, v) :: acc)), t)
                        | _ => None
                        end
                    | None => None
                    end
                | _ => None
                end
            | None => None
            end
          else None
      | EmptyString => None
      end
  end.

(** A whole document: one value and nothing but white space after it. *)
Definition decode (s : string) : option json :=
  match parse_value (2 * String.length s + 2) s with
  | Some (j, r) => if nonempty (skip_ws r) then None else Some j
  | None => None
  end.

#[export] Instance GoCodec : JsonCodec := {| jencode := print; jdecode := decode |}.

(** ** Object members *)

(** The value of the first member named [k] of an object. *)
Definition member (k : string) (j : json) : option json :=
  match j with
  | JObject kvs => match List.find (fun kv => String.eqb (fst kv) k) kvs with
                   | Some kv => Some (snd kv)
                   | None => None
                   end
  | _ => None
  end.

(** The member names of an object, in order. *)
Definition keys (j : json) : list string :=
  match j with JObject kvs => map fst kvs | _ => [] end.

End Json.
