(* ===== verification/JsonLaws.v ===== *)
(** * [GoCodec] meets the [JsonCodecLaws] contract

    The printer and the reader of [Json] are inverse on well-formed
    documents: [decode (print j) = Some j] whenever [json_wf j].  The
    proof goes bottom up: a string literal is read back to the string
    it escapes ([parse_str_quote]); a number literal followed by a
    delimiter is read back whole ([parse_number_app]); a document
    followed by a delimiter is read back with any fuel at least its
    size [jsize] ([parse_value_print]); and [jsize] is at most twice
    the length of the printed text, so the fuel [2 * length + 2] of
    [decode] is enough ([jsize_print]).  The instance [GoCodec_laws]
    of [EndToEnd] then lets the theorems stated for any lawful codec
    apply to the concrete one. *)

From S2P Require Import Prelude GoStrings Json.

Open Scope string_scope.
Open Scope nat_scope.

Module JsonLaws.
Import Json.

(** ** Definitions *)

(** What may follow a value in printed output: nothing, white space
    (the indented printer's line breaks), or the comma, bracket or
    brace that the enclosing array or object writes. *)
Definition delim_char (c : ascii) : bool :=
  is_ws c || Ascii.eqb c "," || Ascii.eqb c "]" || Ascii.eqb c "}".

Definition delim (t : string) : bool :=
  match t with
  | EmptyString => true
  | String c _ => delim_char c
  end.

(** The part of [int_ok] after the optional minus sign. *)
Definition int_ok_body (s : string) : option string :=
  match s with
  | String "0"%char s' => Some s'
  | String c _ => if is_digit c then Some (snd (digits_prefix s)) else None
  | EmptyString => None
  end.

(** The fuel the reader needs: one per value, one per element or
    member, one more per array or object. *)
Fixpoint jsize (j : json) : nat :=
  match j with
  | JArray l => 2 + list_sum (map (fun x => S (jsize x)) l)
  | JObject kvs => 2 + list_sum (map (fun kv => S (jsize (snd kv))) kvs)
  | _ => 1
  end.

(** The round trip of one document, with any delimiter after it and
    any fuel at least its size. *)
Definition rt (x : json) : Prop :=
  json_wf x = true -> forall f t, jsize x <= f -> delim t = true -> parse_value f (print x +:+ t) = Some (x, t).

Definition print_member (kv : string * json) : string := quote (fst kv) +:+ ":" +:+ print (snd kv).

(** A document for the examples: strings to escape, a nested array and a number. *)
Definition sample_doc : json :=
  JObject [("operation", JString "insert"); ("records", JArray [JObject [("n", JNumber "-1.5e3")]]);
           ("note", JString ("a<b & quote: " +:+ String (ascii_of_nat 34) EmptyString))].

(** ** String literals *)

Lemma ascii_of_nat_of (c : ascii) n : nat_of_ascii c = n -> c = ascii_of_nat n.
Proof. intros <-. by rewrite ascii_nat_embedding. Qed.

(** The escapes [\u00XX] of the bytes below 64, one by one. *)
Lemma parse_str_unicode_escape n u :
  n < 64 ->
  parse_str (unicode_escape n +:+ u) = cons_fst (String (ascii_of_nat n) EmptyString) (parse_str u).
Proof.
  intros Hn. do 64 (destruct n as [|n]; [reflexivity|]). lia.
Qed.

(** Reading one escaped byte. *)
Lemma parse_str_escape_char c u :
  parse_str (escape_char c +:+ u) = cons_fst (String c EmptyString) (parse_str u).
Proof.
  unfold escape_char.
  destruct (Nat.eqb_spec (nat_of_ascii c) 34) as [H|H34];
    [rewrite (ascii_of_nat_of _ _ H); reflexivity|].
  destruct (Nat.eqb_spec (nat_of_ascii c) 92) as [H|H92];
    [rewrite (ascii_of_nat_of _ _ H); reflexivity|].
  destruct (Nat.eqb_spec (nat_of_ascii c) 10) as [H|_];
    [rewrite (ascii_of_nat_of _ _ H); reflexivity|].
  destruct (Nat.eqb_spec (nat_of_ascii c) 13) as [H|_];
    [rewrite (ascii_of_nat_of _ _ H); reflexivity|].
  destruct (Nat.eqb_spec (nat_of_ascii c) 9) as [H|_];
    [rewrite (ascii_of_nat_of _ _ H); reflexivity|].
  destruct (_ || _) eqn:Hu.
  - rewrite (ascii_of_nat_of c (nat_of_ascii c)) at 2 by done.
    apply parse_str_unicode_escape.
    repeat (apply orb_true_iff in Hu as [Hu|Hu]);
      first [apply Nat.ltb_lt in Hu | apply Nat.eqb_eq in Hu]; lia.
  - rewrite sapp_cons, sapp_nil_l. cbn [parse_str].
    repeat (apply orb_false_iff in Hu as [Hu ?]).
    apply Nat.ltb_ge in Hu.
    destruct (Nat.eqb_spec (nat_of_ascii c) 34); [lia|].
    destruct (Nat.eqb_spec (nat_of_ascii c) 92); [lia|].
    destruct (Nat.ltb_spec (nat_of_ascii c) 32); [lia|]. done.
Qed.

Lemma cons_fst_some pre b r : cons_fst pre (Some (b, r)) = Some (pre +:+ b, r).
Proof. reflexivity. Qed.

(** The body of a string literal is read back up to its closing quote. *)
Lemma parse_str_escape s t :
  parse_str (escape s +:+ String (ascii_of_nat 34) t) = Some (s, t).
Proof.
  induction s as [|c s IH]; [reflexivity|].
  cbn [escape]. rewrite <- sapp_assoc, parse_str_escape_char, IH, cons_fst_some.
  by rewrite sapp_cons, sapp_nil_l.
Qed.

(** A quoted string followed by anything. *)
Lemma parse_str_quote s t :
  parse_str (escape s +:+ char_of 34 +:+ t) = Some (s, t).
Proof. apply parse_str_escape. Qed.

(** ** Number literals *)

(** The literal patterns of [int_ok] and [frac_ok] as tests on the
    first byte. *)
Lemma int_ok_cons c s :
  int_ok (String c s) = if Ascii.eqb c "-" then int_ok_body s else int_ok_body (String c s).
Proof. destruct c as [[] [] [] [] [] [] [] []]; reflexivity. Qed.

Lemma int_ok_body_cons c s :
  int_ok_body (String c s) =
  if Ascii.eqb c "0" then Some s
  else if is_digit c then Some (snd (digits_prefix (String c s))) else None.
Proof. destruct c as [[] [] [] [] [] [] [] []]; reflexivity. Qed.

Lemma frac_ok_cons c s :
  frac_ok (String c s) =
  if Ascii.eqb c "." then let '(d, r) := digits_prefix s in if nonempty d then Some r else None
  else Some (String c s).
Proof. destruct c as [[] [] [] [] [] [] [] []]; reflexivity. Qed.

(** A delimiter ends a number literal: it is not a digit, a point or
    an exponent mark. *)
Lemma delim_char_facts c :
  delim_char c = true ->
  is_digit c = false /\ Ascii.eqb c "." = false /\ Ascii.eqb c "e" = false /\ Ascii.eqb c "E" = false.
Proof. destruct c as [[] [] [] [] [] [] [] []]; cbv; intros H; try discriminate; auto. Qed.

Lemma delim_cases t :
  delim t = true -> t = "" \/ exists c t', t = String c t' /\ delim_char c = true.
Proof. destruct t as [|c t]; [auto|]. intros Hc. right. eauto. Qed.

Ltac delim_cases H :=
  let c := fresh "c" in let Hc := fresh "Hc" in
  destruct (delim_cases _ H) as [->|(c & ? & -> & Hc)];
  [|destruct (delim_char_facts c Hc) as (? & ? & ? & ?)].

Lemma digits_prefix_app s t :
  delim t = true ->
  digits_prefix (s +:+ t) = (fst (digits_prefix s), snd (digits_prefix s) +:+ t).
Proof.
  intros Ht. induction s as [|c s IH].
  - rewrite sapp_nil_l. delim_cases Ht; [done|]. cbn [digits_prefix]. by rewrite H.
  - rewrite sapp_cons. cbn [digits_prefix]. destruct (is_digit c); [|done].
    rewrite IH. by destruct (digits_prefix s).
Qed.

Lemma int_ok_body_app s r t :
  int_ok_body s = Some r -> delim t = true -> int_ok_body (s +:+ t) = Some (r +:+ t).
Proof.
  intros Hs Ht. destruct s as [|c s]; [discriminate|].
  rewrite sapp_cons, int_ok_body_cons. rewrite int_ok_body_cons in Hs.
  destruct (Ascii.eqb c "0"); [by injection Hs as <-|].
  destruct (is_digit c) eqn:Hc; [|discriminate]. injection Hs as <-.
  rewrite <- sapp_cons, digits_prefix_app by done. done.
Qed.

Lemma int_ok_app lit r t :
  int_ok lit = Some r -> delim t = true -> int_ok (lit +:+ t) = Some (r +:+ t).
Proof.
  intros Hl Ht. destruct lit as [|c l]; [discriminate|].
  rewrite sapp_cons, int_ok_cons. rewrite int_ok_cons in Hl.
  destruct (Ascii.eqb c "-"); [by apply int_ok_body_app|].
  rewrite <- sapp_cons. by apply int_ok_body_app.
Qed.

Lemma frac_ok_app r r' t :
  frac_ok r = Some r' -> delim t = true -> frac_ok (r +:+ t) = Some (r' +:+ t).
Proof.
  intros Hr Ht. destruct r as [|c r].
  - injection Hr as <-. rewrite sapp_nil_l. delim_cases Ht; [done|]. by rewrite frac_ok_cons, H0.
  - rewrite sapp_cons, frac_ok_cons. rewrite frac_ok_cons in Hr.
    destruct (Ascii.eqb c "."); [|by injection Hr as <-].
    rewrite digits_prefix_app by done. destruct (digits_prefix r) as [d rr].
    cbn [fst snd]. destruct (nonempty d); [|discriminate]. by injection Hr as <-.
Qed.

Lemma exp_ok_app r t :
  exp_ok r = Some "" -> delim t = true -> exp_ok (r +:+ t) = Some t.
Proof.
  intros Hr Ht. destruct r as [|c r].
  - rewrite sapp_nil_l. delim_cases Ht; [done|]. unfold exp_ok. by rewrite H1, H2.
  - rewrite sapp_cons. unfold exp_ok in *. destruct (_ || _); [|discriminate].
    destruct r as [|c' r]; [discriminate|]. rewrite sapp_cons.
    destruct (_ || _).
    + rewrite digits_prefix_app by done. destruct (digits_prefix r) as [d rr].
      cbn [fst snd]. destruct (nonempty d); [|discriminate]. by injection Hr as ->.
    + rewrite <- sapp_cons, digits_prefix_app by done. destruct (digits_prefix (String c' r)) as [d rr].
      cbn [fst snd]. destruct (nonempty d); [|discriminate]. by injection Hr as ->.
Qed.

Lemma substring_app a b : String.substring 0 (String.length a) (a +:+ b) = a.
Proof. induction a as [|c a IH]; [by destruct b|]. rewrite sapp_cons. simpl. by rewrite IH. Qed.

(** A number literal followed by a delimiter is read back whole. *)
Lemma parse_number_app lit t :
  number_literal lit = true -> delim t = true -> parse_number (lit +:+ t) = Some (lit, t).
Proof.
  intros Hl Ht. unfold number_literal in Hl. unfold parse_number.
  destruct (int_ok lit) as [r1|] eqn:H1; [|discriminate].
  destruct (frac_ok r1) as [r2|] eqn:H2; [|discriminate].
  destruct (exp_ok r2) as [[|? ?]|] eqn:H3; try discriminate.
  rewrite (int_ok_app _ _ _ H1 Ht), (frac_ok_app _ _ _ H2 Ht), (exp_ok_app _ _ H3 Ht).
  rewrite sapp_length, Nat.add_sub, substring_app. done.
Qed.

(** A number literal starts with a minus sign or a digit. *)
Lemma number_literal_head lit :
  number_literal lit = true ->
  exists c l, lit = String c l /\ (c = "-"%char \/ 48 <= nat_of_ascii c <= 57).
Proof.
  unfold number_literal. destruct lit as [|c l]; [discriminate|]. intros Hl. exists c, l. split; [done|].
  destruct (int_ok (String c l)) eqn:H; [|discriminate]. rewrite int_ok_cons in H.
  destruct (Ascii.eqb_spec c "-"); [auto|]. right.
  rewrite int_ok_body_cons in H. destruct (Ascii.eqb_spec c "0") as [->|]; [change (nat_of_ascii "0") with 48; lia|].
  destruct (is_digit c) eqn:Hd; [|discriminate].
  unfold is_digit in Hd. apply andb_true_iff in Hd as [H1 H2].
  apply Nat.leb_le in H1, H2. lia.
Qed.

(** ** Documents *)

Lemma char_of_app n s : char_of n +:+ s = String (ascii_of_nat n) s.
Proof. reflexivity. Qed.

Lemma is_ws_digit c : 48 <= nat_of_ascii c <= 57 -> is_ws c = false.
Proof.
  intros Hc. unfold is_ws.
  destruct (Nat.eqb_spec (nat_of_ascii c) 32), (Nat.eqb_spec (nat_of_ascii c) 9),
    (Nat.eqb_spec (nat_of_ascii c) 10), (Nat.eqb_spec (nat_of_ascii c) 13); simpl; lia.
Qed.

(** The first byte of a printed document. *)
Lemma print_head j :
  json_wf j = true ->
  exists c s, print j = String c s /\ is_ws c = false /\ Ascii.eqb c "]" = false.
Proof.
  destruct j as [|[]| lit | s | l | kvs]; simpl; intros Hwf; eauto 6.
  destruct (number_literal_head _ Hwf) as (c & l & -> & [->|Hc]); [eauto|].
  exists c, l. split; [done|]. split; [by apply is_ws_digit|].
  destruct (Ascii.eqb_spec c "]") as [->|]; [change (nat_of_ascii "]") with 93 in Hc; lia|done].
Qed.

(** After an opening bracket, a byte other than a closing bracket
    starts the elements. *)
Lemma parse_value_array_open f c s :
  Ascii.eqb c "]" = false -> is_ws c = false ->
  parse_value (S f) (String "[" (String c s)) = parse_elems f (String c s) [].
Proof. destruct c as [[] [] [] [] [] [] [] []]; simpl; try discriminate; reflexivity. Qed.

(** A value whose first byte is a minus sign or a digit is read as a
    number. *)
Lemma parse_value_number f c s :
  c = "-"%char \/ 48 <= nat_of_ascii c <= 57 ->
  parse_value (S f) (String c s) =
  match parse_number (String c s) with Some (lit, r) => Some (JNumber lit, r) | None => None end.
Proof.
  intros [->|Hc]; [reflexivity|]. cbn [parse_value skip_ws]. rewrite (is_ws_digit c Hc).
  destruct (Nat.eqb_spec (nat_of_ascii c) 34); [lia|].
  destruct (Nat.eqb_spec (nat_of_ascii c) 91); [lia|].
  destruct (Nat.eqb_spec (nat_of_ascii c) 123); [lia|].
  destruct (Nat.eqb_spec (nat_of_ascii c) 110); [lia|].
  destruct (Nat.eqb_spec (nat_of_ascii c) 116); [lia|].
  destruct (Nat.eqb_spec (nat_of_ascii c) 102); [lia|]. done.
Qed.

Lemma parse_value_string f s :
  parse_value (S f) (String (ascii_of_nat 34) s) =
  match parse_str s with Some (v, r) => Some (JString v, r) | None => None end.
Proof. reflexivity. Qed.

Lemma parse_value_object_open f s :
  parse_value (S f) (String "{" (String (ascii_of_nat 34) s)) =
  parse_members f (String (ascii_of_nat 34) s) [].
Proof. reflexivity. Qed.

(** Printed text in right-nested form, single bytes as [String]. *)
Ltac snorm := repeat rewrite <- sapp_assoc; rewrite ?char_of_app.

Lemma concat_sep_cons2 sep a b l :
  concat_sep sep (a :: b :: l) = a +:+ sep +:+ concat_sep sep (b :: l).
Proof. reflexivity. Qed.

Lemma concat_sep_head sep a l c s :
  a = String c s -> exists r, concat_sep sep (a :: l) = String c r.
Proof. intros ->. destruct l; [by eexists|]. rewrite concat_sep_cons2, sapp_cons. by eexists. Qed.

(** The round trip of one document, for the elements and members. *)
Lemma lit_app (c : ascii) r : String c EmptyString +:+ r = String c r.
Proof. reflexivity. Qed.

(** One element of an array, then a comma or the closing bracket. *)
Lemma parse_elems_comma f s v r acc :
  parse_value f s = Some (v, String "," r) -> parse_elems (S f) s acc = parse_elems f r (v :: acc).
Proof. intros H. cbn [parse_elems]. by rewrite H. Qed.

Lemma parse_elems_close f s v r acc :
  parse_value f s = Some (v, String "]" r) -> parse_elems (S f) s acc = Some (JArray (rev (v :: acc)), r).
Proof. intros H. cbn [parse_elems]. by rewrite H. Qed.

Lemma parse_elems_print l :
  Forall rt l -> forallb json_wf l = true -> l <> [] ->
  forall f acc t, list_sum (map (fun x => S (jsize x)) l) <= f -> delim t = true ->
  parse_elems f (concat_sep "," (map print l) +:+ String "]" t) acc = Some (JArray (rev acc ++ l), t).
Proof.
  induction 1 as [|x l Hx Hl IH]; [done|]. intros Hwf _ f acc t Hf Ht.
  simpl in Hwf. apply andb_true_iff in Hwf as [Hwx Hwl].
  destruct f as [|f]; [simpl in Hf; lia|]. simpl in Hf.
  destruct l as [|y l].
  - cbn [map concat_sep]. rewrite (parse_elems_close f _ x t); [done|].
    apply Hx; (done || lia).
  - simpl in Hf. cbn [map]. rewrite concat_sep_cons2. snorm. rewrite lit_app.
    rewrite (parse_elems_comma f _ x (concat_sep "," (print y :: map print l) +:+ String "]" t));
      [|apply Hx; (done || lia)].
    rewrite <- (map_cons print y l), (IH Hwl) by (done || simpl; lia).
    simpl. by rewrite <- app_assoc.
Qed.
(** One member of an object, then a comma or the closing brace. *)
Lemma parse_members_comma f k v s r acc :
  parse_value f s = Some (v, String "," r) ->
  parse_members (S f) (String (ascii_of_nat 34) (escape k +:+ String (ascii_of_nat 34) (String ":" s))) acc =
  parse_members f r ((k, v) :: acc).
Proof. intros H. cbn [parse_members skip_ws]. simpl. rewrite parse_str_escape. simpl. by rewrite H. Qed.

Lemma parse_members_close f k v s r acc :
  parse_value f s = Some (v, String "}" r) ->
  parse_members (S f) (String (ascii_of_nat 34) (escape k +:+ String (ascii_of_nat 34) (String ":" s))) acc =
  Some (JObject (rev ((k, v) :: acc)), r).
Proof. intros H. cbn [parse_members skip_ws]. simpl. rewrite parse_str_escape. simpl. by rewrite H. Qed.

Lemma parse_members_print kvs :
  Forall (fun kv => rt (snd kv)) kvs -> forallb (fun kv => json_wf (snd kv)) kvs = true -> kvs <> [] ->
  forall f acc t, list_sum (map (fun kv => S (jsize (snd kv))) kvs) <= f -> delim t = true ->
  parse_members f (concat_sep "," (map print_member kvs) +:+ String "}" t) acc =
  Some (JObject (rev acc ++ kvs), t).
Proof.
  induction 1 as [|[k v] kvs Hx Hl IH]; [done|]. intros Hwf _ f acc t Hf Ht.
  simpl in Hwf. apply andb_true_iff in Hwf as [Hwx Hwl].
  destruct f as [|f]; [simpl in Hf; lia|].
  destruct kvs as [|kv' kvs]; simpl in Hf; cbn [map]; unfold print_member at 1, quote; cbn [fst snd].
  - cbn [concat_sep]. snorm. rewrite !lit_app. rewrite (parse_members_close f k v _ t); [done|].
    apply Hx; (done || simpl in *; lia).
  - rewrite concat_sep_cons2. snorm. rewrite !lit_app.
    rewrite (parse_members_comma f k v _ (concat_sep "," (print_member kv' :: map print_member kvs) +:+ String "}" t));
      [|apply Hx; (done || simpl in *; lia)].
    rewrite <- (map_cons print_member kv' kvs), (IH Hwl) by (done || simpl; lia).
    simpl. by rewrite <- app_assoc.
Qed.

Lemma print_JArray l : print (JArray l) = "[" +:+ concat_sep "," (map print l) +:+ "]".
Proof. reflexivity. Qed.

Lemma print_JObject kvs : print (JObject kvs) = "{" +:+ concat_sep "," (map print_member kvs) +:+ "}".
Proof. reflexivity. Qed.

Lemma print_member_head kv : exists r, print_member kv = String (ascii_of_nat 34) r.
Proof. unfold print_member, quote. rewrite <- sapp_assoc, char_of_app. by eexists. Qed.

(** Every well-formed document followed by a delimiter is read back,
    with any fuel at least its size. *)
Lemma parse_value_print j : rt j.
Proof.
  induction j as [| b | lit | s | l IHl | kvs IHkvs] using json_ind';
    intros Hwf f t Hf Ht; (destruct f as [|f]; [simpl in Hf; lia|]); simpl in Hwf.
  - by delim_cases Ht.
  - by destruct b; delim_cases Ht.
  - destruct (number_literal_head _ Hwf) as (c & l & Hlit & Hc). cbn [print].
    rewrite Hlit, sapp_cons, parse_value_number by done.
    by rewrite <- sapp_cons, <- Hlit, parse_number_app.
  - cbn [print]. unfold quote. snorm. by rewrite parse_value_string, parse_str_escape.
  - destruct l as [|x l]; [reflexivity|].
    apply andb_true_iff in Hwf as [Hwx Hwl].
    destruct (print_head x Hwx) as (c & s0 & Hpx & Hws & Hb).
    destruct (concat_sep_head "," (print x) (map print l) c s0 Hpx) as [r Hr].
    rewrite print_JArray. snorm. rewrite !lit_app. cbn [map]. rewrite Hr, sapp_cons.
    rewrite parse_value_array_open by done. rewrite <- sapp_cons, <- Hr, <- (map_cons print x l).
    rewrite parse_elems_print; [done|done| |done|simpl in *; lia|done].
    simpl. by apply andb_true_iff.
  - destruct kvs as [|kv kvs]; [reflexivity|].
    destruct (print_member_head kv) as [r0 Hpx].
    destruct (concat_sep_head "," (print_member kv) (map print_member kvs) _ r0 Hpx) as [r Hr].
    rewrite print_JObject. snorm. rewrite !lit_app. cbn [map]. rewrite Hr, sapp_cons.
    rewrite parse_value_object_open. rewrite <- sapp_cons, <- Hr, <- (map_cons print_member kv kvs).
    rewrite parse_members_print; [done|done|done|done|simpl in *; lia|done].
Qed.


(** ** The fuel of [decode] is enough *)

Lemma concat_sep_length sep l :
  list_sum (map (fun x => String.length x + String.length sep) l) <=
  String.length (concat_sep sep l) + String.length sep.
Proof.
  induction l as [|x l IH]; [simpl; lia|]. destruct l as [|y l]; [simpl; lia|].
  rewrite concat_sep_cons2, !sapp_length. simpl in *. lia.
Qed.

Lemma sum_bound {A} (sz len : A -> nat) l :
  Forall (fun x => S (sz x) <= 2 * (len x + 1)) l ->
  list_sum (map (fun x => S (sz x)) l) <= 2 * list_sum (map (fun x => len x + 1) l).
Proof. induction 1; simpl; lia. Qed.

(** A document's size is at most twice the length of its text. *)
Lemma jsize_print j : json_wf j = true -> jsize j <= 2 * String.length (print j).
Proof.
  induction j as [| b | lit | s | l IHl | kvs IHkvs] using json_ind'; intros Hwf.
  - simpl. lia.
  - destruct b; simpl; lia.
  - destruct (number_literal_head _ Hwf) as (c & l & -> & _). simpl. lia.
  - cbn [print jsize]. unfold quote. rewrite !sapp_length. simpl. lia.
  - rewrite print_JArray, !sapp_length. cbn [jsize]. simpl in Hwf.
    pose proof (concat_sep_length "," (map print l)) as H1. rewrite map_map in H1.
    assert (list_sum (map (fun x => S (jsize x)) l) <=
            2 * list_sum (map (fun x => String.length (print x) + 1) l)) as H2.
    { apply sum_bound. apply Forall_forall. intros x Hx.
      rewrite Forall_forall in IHl. apply forallb_forall with (x := x) in Hwf; [|done].
      specialize (IHl x Hx Hwf). lia. }
    simpl in *. lia.
  - rewrite print_JObject, !sapp_length. cbn [jsize]. simpl in Hwf.
    pose proof (concat_sep_length "," (map print_member kvs)) as H1. rewrite map_map in H1.
    assert (list_sum (map (fun kv => S (jsize (snd kv))) kvs) <=
            2 * list_sum (map (fun kv => String.length (print_member kv) + 1) kvs)) as H2.
    { apply sum_bound. apply Forall_forall. intros kv Hkv.
      rewrite Forall_forall in IHkvs. apply forallb_forall with (x := kv) in Hwf; [|done].
      specialize (IHkvs kv Hkv Hwf). unfold print_member. rewrite !sapp_length. lia. }
    simpl in *. lia.
Qed.

(** The whole text of a document, read with the fuel [decode] gives. *)
Lemma parse_value_print_doc j :
  json_wf j = true -> parse_value (2 * String.length (print j) + 2) (print j) = Some (j, "").
Proof.
  intros Hwf. rewrite <- (sapp_nil_r (print j)) at 2.
  apply parse_value_print; [done| |done]. pose proof (jsize_print j Hwf). lia.
Qed.

(** ** Properties *)

(** (C16) Round trip of the codec: the reader gives back every
    well-formed document the printer writes. *)
Theorem decode_print j : json_wf j = true -> decode (print j) = Some j.
Proof. intros Hwf. unfold decode. by rewrite parse_value_print_doc. Qed.

(** The reader terminates with the document on the printed text
    followed by a delimiter, whenever its fuel is at least twice the
    length of that text; [decode] gives it [2 * length + 2]. *)
Lemma parse_value_enough_fuel j f t :
  json_wf j = true -> delim t = true -> 2 * String.length (print j) <= f ->
  parse_value f (print j +:+ t) = Some (j, t).
Proof.
  intros Hwf Ht Hf. apply parse_value_print; [done| |done].
  pose proof (jsize_print j Hwf). lia.
Qed.

(** ** Witnesses *)

Lemma decode_print_witness : json_wf sample_doc = true /\ decode (print sample_doc) = Some sample_doc.
Proof. split; [reflexivity|]. apply decode_print. reflexivity. Defined.

End JsonLaws.
