(* ===== verification/JsonReader.v ===== *)
(** * What the reader of [GoCodec] accepts

    The reader of [Json] is more liberal than the printer: it skips
    white space, reads [\uXXXX] escapes, and stops a number literal
    wherever the grammar stops it.  This file shows that whatever it
    reads is nevertheless a well-formed document: every number it
    returns is a number literal of the grammar ([parse_number_wf]),
    so [json_wf] holds of every document [decode] returns
    ([decode_wf]).  The number parts ([int_ok], [frac_ok], [exp_ok])
    are greedy, so the part of the text they consume is read the same
    way when it stands alone ([int_ok_cut] and the like). *)

From S2P Require Import Prelude GoStrings Json JsonLaws.

Open Scope string_scope.
Open Scope nat_scope.

Module JsonReader.
Import Json JsonLaws.

(** A text laid out by hand, with white space between the tokens and
    numbers the printer of [Json] would not write this way. *)
Definition sample_text : string :=
  " { " +:+ quote "n" +:+ " : -0.5E+2 , " +:+ quote "m" +:+ " : [ 1 , 2e3 ] } ".

Definition sample_text_doc : json :=
  JObject [("n", JNumber "-0.5E+2"); ("m", JArray [JNumber "1"; JNumber "2e3"])].

(** ** Consumed text *)

Lemma digits_prefix_split s : s = fst (digits_prefix s) +:+ snd (digits_prefix s).
Proof.
  induction s as [|c s IH]; [done|]. cbn [digits_prefix].
  destruct (is_digit c); [|done]. destruct (digits_prefix s) as [d r]. cbn in *. by rewrite sapp_cons, <- IH.
Qed.

(** A suffix at least as long as the text is the text. *)
Lemma suffix_full p r t : t = p +:+ r -> String.length t <= String.length r -> p = "" /\ r = t.
Proof.
  intros -> Hl. rewrite sapp_length in Hl. destruct p as [|c p]; [done|]. simpl in Hl. lia.
Qed.

Lemma frac_ok_suffix s r : frac_ok s = Some r -> exists p, s = p +:+ r.
Proof.
  destruct s as [|c s]; [intros [= <-]; by exists ""|]. rewrite frac_ok_cons.
  destruct (Ascii.eqb_spec c "."); [|intros [= <-]; by exists ""].
  pose proof (digits_prefix_split s) as Hs. destruct (digits_prefix s) as [d rr]. cbn [fst snd] in Hs.
  destruct (nonempty d); [|discriminate]. intros [= <-]. rewrite Hs. by exists (String c d).
Qed.

Lemma exp_ok_suffix s r : exp_ok s = Some r -> exists p, s = p +:+ r.
Proof.
  destruct s as [|c s]; [intros [= <-]; by exists ""|]. unfold exp_ok.
  destruct (_ || _); [|intros [= <-]; by exists ""].
  destruct s as [|c' s]; [cbn; destruct (nonempty ""); discriminate|].
  destruct (_ || _).
  - pose proof (digits_prefix_split s) as Hs. destruct (digits_prefix s) as [d rr]. cbn [fst snd] in Hs.
    destruct (nonempty d); [|discriminate]. intros [= <-]. rewrite Hs. by exists (String c (String c' d)).
  - pose proof (digits_prefix_split (String c' s)) as Hs. destruct (digits_prefix (String c' s)) as [d rr].
    cbn [fst snd] in Hs. destruct (nonempty d); [|discriminate]. intros [= <-]. rewrite Hs. by exists (String c d).
Qed.

(** The integer part consumes at least one byte. *)
Lemma int_ok_body_suffix s r : int_ok_body s = Some r -> exists c p, s = String c p +:+ r.
Proof.
  destruct s as [|c s]; [discriminate|]. rewrite int_ok_body_cons.
  destruct (Ascii.eqb c "0"); [intros [= <-]; by exists c, ""|].
  destruct (is_digit c) eqn:Hc; [|discriminate]. intros [= <-].
  pose proof (digits_prefix_split (String c s)) as Hs. cbn [digits_prefix] in Hs |- *. rewrite Hc in Hs |- *.
  destruct (digits_prefix s) as [d rr]. cbn [fst snd] in Hs |- *. by exists c, d.
Qed.

Lemma int_ok_suffix s r : int_ok s = Some r -> exists c p, s = String c p +:+ r.
Proof.
  destruct s as [|c s]; [discriminate|]. rewrite int_ok_cons.
  destruct (Ascii.eqb c "-"); [|apply int_ok_body_suffix].
  intros H. destruct (int_ok_body_suffix _ _ H) as (c' & p & ->). by exists c, (String c' p).
Qed.

(** ** Greedy parts read alone *)

Lemma digits_prefix_cut a t d r :
  digits_prefix (a +:+ t) = (d, r) -> String.length t <= String.length r ->
  exists r', digits_prefix a = (d, r') /\ r = r' +:+ t.
Proof.
  revert d r. induction a as [|c a IH]; intros d r Hd Hl.
  - rewrite sapp_nil_l in Hd. pose proof (digits_prefix_split t) as Ht. rewrite Hd in Ht. cbn [fst snd] in Ht.
    destruct (suffix_full _ _ _ Ht Hl) as [-> ->]. by exists "".
  - rewrite sapp_cons in Hd. cbn [digits_prefix] in Hd |- *. destruct (is_digit c).
    + remember (digits_prefix (a +:+ t)) as q eqn:Hq. destruct q as [d' r0]. injection Hd as <- <-.
      destruct (IH d' r0 eq_refl Hl) as (r' & -> & ->). by exists r'.
    + injection Hd as <- <-. by exists (String c a).
Qed.

Lemma int_ok_body_cut a t r :
  int_ok_body (a +:+ t) = Some r -> String.length t <= String.length r ->
  exists r', int_ok_body a = Some r' /\ r = r' +:+ t.
Proof.
  intros H Hl. destruct a as [|c a].
  - destruct (int_ok_body_suffix _ _ H) as (c & p & Ht). rewrite sapp_nil_l in Ht.
    destruct (suffix_full _ _ _ Ht Hl) as [[=] _].
  - rewrite sapp_cons, int_ok_body_cons in H. rewrite int_ok_body_cons.
    destruct (Ascii.eqb c "0"); [injection H as <-; by exists a|].
    destruct (is_digit c) eqn:Hc; [|discriminate].
    assert (H' : snd (digits_prefix (String c (a +:+ t))) = r) by congruence. clear H.
    rewrite <- sapp_cons in H'.
    destruct (digits_prefix (String c a +:+ t)) as [d r0] eqn:H0. cbn [snd] in H'. subst r.
    destruct (digits_prefix_cut _ _ _ _ H0 Hl) as (r' & -> & ->). by exists r'.
Qed.

Lemma int_ok_cut a t r :
  int_ok (a +:+ t) = Some r -> String.length t <= String.length r ->
  exists r', int_ok a = Some r' /\ r = r' +:+ t.
Proof.
  intros H Hl. destruct a as [|c a].
  - destruct (int_ok_suffix _ _ H) as (c & p & Ht). rewrite sapp_nil_l in Ht.
    destruct (suffix_full _ _ _ Ht Hl) as [[=] _].
  - rewrite sapp_cons, int_ok_cons in H. rewrite int_ok_cons.
    destruct (Ascii.eqb c "-"); [by apply int_ok_body_cut|].
    rewrite <- sapp_cons in H. by apply int_ok_body_cut.
Qed.

Lemma frac_ok_cut a t r :
  frac_ok (a +:+ t) = Some r -> String.length t <= String.length r ->
  exists r', frac_ok a = Some r' /\ r = r' +:+ t.
Proof.
  intros H Hl. destruct a as [|c a].
  - destruct (frac_ok_suffix _ _ H) as (p & Ht). rewrite sapp_nil_l in Ht.
    destruct (suffix_full _ _ _ Ht Hl) as [_ ->]. by exists "".
  - rewrite sapp_cons, frac_ok_cons in H. rewrite frac_ok_cons.
    destruct (Ascii.eqb c "."); [|injection H as <-; by exists (String c a)].
    destruct (digits_prefix (a +:+ t)) as [d r0] eqn:H0.
    destruct (nonempty d) eqn:Hd; [|discriminate]. injection H as <-.
    destruct (digits_prefix_cut _ _ _ _ H0 Hl) as (r' & -> & ->). rewrite Hd. by exists r'.
Qed.

Lemma nonempty_length d : nonempty d = true -> 1 <= String.length d.
Proof. destruct d; [discriminate|simpl; lia]. Qed.

Lemma empty_of_length p : String.length p = 0 -> p = "".
Proof. by destruct p. Qed.

(** A non-empty run of digits shortens the text. *)
Lemma digits_prefix_shorter s d r :
  digits_prefix s = (d, r) -> nonempty d = true -> String.length r < String.length s.
Proof.
  intros Hd Hn. pose proof (digits_prefix_split s) as Hs. rewrite Hd in Hs. cbn [fst snd] in Hs.
  rewrite Hs, sapp_length. pose proof (nonempty_length d Hn). lia.
Qed.

Lemma exp_ok_cut a t r :
  exp_ok (a +:+ t) = Some r -> String.length t <= String.length r ->
  exists r', exp_ok a = Some r' /\ r = r' +:+ t.
Proof.
  intros H Hl. destruct a as [|c a].
  - destruct (exp_ok_suffix _ _ H) as (p & Ht). rewrite sapp_nil_l in Ht.
    destruct (suffix_full _ _ _ Ht Hl) as [_ ->]. by exists "".
  - rewrite sapp_cons in H. unfold exp_ok in H |- *.
    destruct (Ascii.eqb c "e" || Ascii.eqb c "E"); [|injection H as <-; by exists (String c a)].
    destruct a as [|c' a].
    + exfalso. rewrite sapp_nil_l in H. destruct t as [|c' t]; [done|].
      destruct (Ascii.eqb c' "+" || Ascii.eqb c' "-");
        [destruct (digits_prefix t) as [d rr] eqn:Hd|destruct (digits_prefix (String c' t)) as [d rr] eqn:Hd];
        (destruct (nonempty d) eqn:Hn; [|discriminate]); injection H as <-;
        pose proof (digits_prefix_shorter _ _ _ Hd Hn); simpl in *; lia.
    + rewrite sapp_cons in H. destruct (Ascii.eqb c' "+" || Ascii.eqb c' "-").
      * destruct (digits_prefix (a +:+ t)) as [d rr] eqn:Hd. destruct (nonempty d) eqn:Hn; [|discriminate].
        injection H as <-. destruct (digits_prefix_cut _ _ _ _ Hd Hl) as (r' & -> & ->). rewrite Hn. by exists r'.
      * rewrite <- sapp_cons in H. destruct (digits_prefix (String c' a +:+ t)) as [d rr] eqn:Hd.
        destruct (nonempty d) eqn:Hn; [|discriminate]. injection H as <-.
        destruct (digits_prefix_cut _ _ _ _ Hd Hl) as (r' & -> & ->). rewrite Hn. by exists r'.
Qed.

(** ** Numbers and documents the reader returns *)

(** The reader returns a number literal of the grammar, and the text
    it consumed is exactly that literal. *)
Lemma parse_number_wf s lit r :
  parse_number s = Some (lit, r) -> number_literal lit = true /\ s = lit +:+ r.
Proof.
  unfold parse_number.
  destruct (int_ok s) as [r1|] eqn:H1; [|discriminate].
  destruct (frac_ok r1) as [r2|] eqn:H2; [|discriminate].
  destruct (exp_ok r2) as [r3|] eqn:H3; [|discriminate]. intros [= <- <-].
  destruct (int_ok_suffix _ _ H1) as (c & p1 & Hs1).
  destruct (frac_ok_suffix _ _ H2) as (p2 & Hs2). destruct (exp_ok_suffix _ _ H3) as (p3 & Hs3).
  assert (Hs : s = (String c p1 +:+ p2 +:+ p3) +:+ r3) by (by rewrite Hs1, Hs2, Hs3, !sapp_assoc).
  assert (Hlen : String.length s - String.length r3 = String.length (String c p1 +:+ p2 +:+ p3))
    by (rewrite Hs, sapp_length; lia).
  rewrite Hlen, Hs, substring_app. split; [|done].
  rewrite Hs in H1. destruct (int_ok_cut _ _ _ H1) as (r1' & Hi & ->); [subst; rewrite !sapp_length; lia|].
  destruct (frac_ok_cut _ _ _ H2) as (r2' & Hf & ->); [subst; rewrite !sapp_length; lia|].
  destruct (exp_ok_cut _ _ _ H3) as (r3' & He & Hr); [lia|].
  assert (r3' = "") as ->.
  { apply empty_of_length. apply (f_equal String.length) in Hr. rewrite sapp_length in Hr. lia. }
  unfold number_literal. by rewrite Hi, Hf, He.
Qed.

Lemma forallb_rev {A} (P : A -> bool) l : forallb P (rev l) = forallb P l.
Proof. induction l as [|x l IH]; [done|]. simpl. rewrite forallb_app, IH. simpl. by rewrite andb_true_r, andb_comm. Qed.

Lemma json_wf_JArray l : json_wf (JArray l) = forallb json_wf l.
Proof. reflexivity. Qed.

Lemma json_wf_JObject kvs : json_wf (JObject kvs) = forallb (fun kv => json_wf (snd kv)) kvs.
Proof. reflexivity. Qed.

Section Wf.
Variable f : nat.
Hypothesis IHv : forall s j r, parse_value f s = Some (j, r) -> json_wf j = true.
Hypothesis IHe : forall s acc j r, forallb json_wf acc = true -> parse_elems f s acc = Some (j, r) -> json_wf j = true.
Hypothesis IHm : forall s acc j r, forallb (fun kv => json_wf (snd kv)) acc = true ->
  parse_members f s acc = Some (j, r) -> json_wf j = true.

(** The cases of the reader after an opening bracket or brace, after
    an element and after a member, one byte at a time. *)
Lemma open_array_wf c x j r :
  match String c x with
  | String "]"%char r' => Some (JArray [], r')
  | s'' => parse_elems f s'' []
  end = Some (j, r) -> json_wf j = true.
Proof.
  destruct c as [[] [] [] [] [] [] [] []];
    first [intros [= <- _]; reflexivity | intros H; exact (IHe _ [] _ _ eq_refl H)].
Qed.

Lemma open_object_wf c x j r :
  match String c x with
  | String "}"%char r' => Some (JObject [], r')
  | s'' => parse_members f s'' []
  end = Some (j, r) -> json_wf j = true.
Proof.
  destruct c as [[] [] [] [] [] [] [] []];
    first [intros [= <- _]; reflexivity | intros H; exact (IHm _ [] _ _ eq_refl H)].
Qed.

Lemma next_elem_wf x v acc j r :
  json_wf v = true -> forallb json_wf acc = true ->
  match x with
  | String ","%char r' => parse_elems f r' (v :: acc)
  | String "]"%char r' => Some (JArray (rev (v :: acc)), r')
  | _ => None
  end = Some (j, r) -> json_wf j = true.
Proof.
  intros Hv Hacc. assert (Hva : forallb json_wf (v :: acc) = true) by (simpl; by rewrite Hv, Hacc).
  destruct x as [|c x]; [discriminate|].
  destruct c as [[] [] [] [] [] [] [] []];
    first [ discriminate | intros H; exact (IHe _ _ _ _ Hva H)
          | intros H; assert (j = JArray (rev (v :: acc))) as -> by congruence;
            by rewrite json_wf_JArray, forallb_rev ].
Qed.

Lemma next_member_wf x k v acc j r :
  json_wf v = true -> forallb (fun kv => json_wf (snd kv)) acc = true ->
  match x with
  | String ","%char t => parse_members f t ((k, v) :: acc)
  | String "}"%char t => Some (JObject (rev ((k, v) :: acc)), t)
  | _ => None
  end = Some (j, r) -> json_wf j = true.
Proof.
  intros Hv Hacc. assert (Hva : forallb (fun kv => json_wf (snd kv)) ((k, v) :: acc) = true)
    by (simpl; by rewrite Hv, Hacc).
  destruct x as [|c x]; [discriminate|].
  destruct c as [[] [] [] [] [] [] [] []];
    first [ discriminate | intros H; exact (IHm _ _ _ _ Hva H)
          | intros H; assert (j = JObject (rev ((k, v) :: acc))) as -> by congruence;
            by rewrite json_wf_JObject, forallb_rev ].
Qed.

Lemma colon_wf x k acc j r :
  forallb (fun kv => json_wf (snd kv)) acc = true ->
  match x with
  | String ":"%char r' =>
      match parse_value f r' with
      | Some (v, r'') =>
          match skip_ws r'' with
          | String ","%char t => parse_members f t ((k, v) :: acc)
          | String "}"%char t => Some (JObject (rev ((k, v) :: acc)), t)
          | _ => None
          end
      | None => None
      end
  | _ => None
  end = Some (j, r) -> json_wf j = true.
Proof.
  intros Hacc. destruct x as [|c x]; [discriminate|].
  destruct c as [[] [] [] [] [] [] [] []]; try discriminate.
  destruct (parse_value f x) as [[v r'']|] eqn:Hv; [|discriminate].
  apply next_member_wf; [exact (IHv _ _ _ Hv)|done].
Qed.
End Wf.

Ltac literal_case v := intros ?H; assert (_ = v) as -> by congruence; reflexivity.

(** Every document the reader returns, at any fuel, is well formed. *)
Lemma parse_wf f :
  (forall s j r, parse_value f s = Some (j, r) -> json_wf j = true) /\
  (forall s acc j r, forallb json_wf acc = true -> parse_elems f s acc = Some (j, r) -> json_wf j = true) /\
  (forall s acc j r, forallb (fun kv => json_wf (snd kv)) acc = true ->
     parse_members f s acc = Some (j, r) -> json_wf j = true).
Proof.
  induction f as [|f (IHv & IHe & IHm)]; [split_and!; intros; discriminate|]. split_and!.
  - intros s j r. cbn [parse_value]. destruct (skip_ws s) as [|c s']; [discriminate|].
    destruct (_ =? 34).
    { destruct (parse_str s') as [[v r0]|]; [literal_case (JString v)|discriminate]. }
    destruct (_ =? 91).
    { destruct (skip_ws s') as [|c' x]; [apply IHe; done|apply (open_array_wf f IHe)]. }
    destruct (_ =? 123).
    { destruct (skip_ws s') as [|c' x]; [apply IHm; done|apply (open_object_wf f IHm)]. }
    destruct (_ =? 110); [destruct (chop _ _); [literal_case JNull|discriminate]|].
    destruct (_ =? 116); [destruct (chop _ _); [literal_case (JBool true)|discriminate]|].
    destruct (_ =? 102); [destruct (chop _ _); [literal_case (JBool false)|discriminate]|].
    destruct (parse_number (String c s')) as [[lit r0]|] eqn:Hn; [|discriminate].
    intros H. assert (j = JNumber lit) as -> by congruence. exact (proj1 (parse_number_wf _ _ _ Hn)).
  - intros s acc j r Hacc. cbn [parse_elems]. destruct (parse_value f s) as [[v r0]|] eqn:Hv; [|discriminate].
    apply (next_elem_wf f IHe _ v acc); [exact (IHv _ _ _ Hv)|done].
  - intros s acc j r Hacc. cbn [parse_members]. destruct (skip_ws s) as [|c s']; [discriminate|].
    destruct (_ =? 34); [|discriminate]. destruct (parse_str s') as [[k r0]|]; [|discriminate].
    by apply (colon_wf f IHv IHm _ k acc).
Qed.

(** ** Properties *)

(** The reader only returns well-formed documents: every number
    in a document [decode] accepts is a number literal of the JSON
    grammar, however the text around it was laid out. *)
Lemma decode_wf s j : decode s = Some j -> json_wf j = true.
Proof.
  unfold decode. destruct (parse_value _ s) as [[j' r]|] eqn:Hp; [|discriminate].
  destruct (nonempty (skip_ws r)); [discriminate|]. intros [= <-]. exact (proj1 (parse_wf _) _ _ _ Hp).
Qed.

(** ** Witnesses *)

End JsonReader.
