(* ===== verification/GoJson.v ===== *)
(** * What [encoding/json] does with the program's Go values

    [json.Marshal] turns a Go value into a JSON document: pointers and
    interfaces are followed, a nil pointer, interface or slice is
    [null], a struct is an object of its fields in declaration order
    where a field tagged [omitempty] is left out when its value is
    empty ([isEmptyValue]), a [map[string]T] is an object whose keys
    are sorted, and a channel or function value is an
    [UnsupportedTypeError].  [json.Unmarshal] first checks the syntax
    (a [SyntaxError] leaves the target untouched) and then decodes the
    document into the target (strings, slices of strings and pointers
    to booleans, the field types of the program's structs); for a
    struct, each member is matched to
    a field by exact name and else by its name folded as Go's
    [foldName] folds it ([fold_name]), unknown
    members are skipped, and a value of the wrong JSON type records an
    [UnmarshalTypeError] (the first one is returned) while decoding goes
    on with the remaining members. *)

From S2P Require Import Prelude GoStrings Json.
From Stdlib Require Import DecimalString DecimalPos DecimalFacts Sorted Permutation.

Open Scope string_scope.
Open Scope nat_scope.

Module GoJson.
Import Json.

(** ** Go values *)

#[local] Unset Elimination Schemes.
Inductive gval : Type :=
| GNil                                   (** nil pointer, interface or map *)
| GBool (b : bool)
| GInt (z : Z)
| GString (s : string)
| GPtr (v : gval)                        (** a non-nil pointer to [v] *)
| GIface (v : gval)                      (** a non-nil interface holding [v] *)
| GSlice (isnil : bool) (l : list gval)  (** a slice; [isnil]: the nil slice *)
| GMap (kvs : list (string * gval))      (** a non-nil [map[string]T] *)
| GStruct (fields : list (string * bool * gval))
(** fields: JSON name, [omitempty], value *)
| GUnsupported (ty : string).            (** a channel, function or complex value *)
#[local] Set Elimination Schemes.

Section GvalInd.
Variable P : gval -> Prop.
Hypothesis HNil : P GNil.
Hypothesis HBool : forall b, P (GBool b).
Hypothesis HInt : forall z, P (GInt z).
Hypothesis HString : forall s, P (GString s).
Hypothesis HPtr : forall v, P v -> P (GPtr v).
Hypothesis HIface : forall v, P v -> P (GIface v).
Hypothesis HSlice : forall b l, Forall P l -> P (GSlice b l).
Hypothesis HMap : forall kvs, Forall (fun kv => P (snd kv)) kvs -> P (GMap kvs).
Hypothesis HStruct : forall fs, Forall (fun f => P (snd f)) fs -> P (GStruct fs).
Hypothesis HUnsupported : forall ty, P (GUnsupported ty).

Fixpoint gval_ind (v : gval) : P v :=
  match v with
  | GNil => HNil
  | GBool b => HBool b
  | GInt z => HInt z
  | GString s => HString s
  | GPtr v => HPtr v (gval_ind v)
  | GIface v => HIface v (gval_ind v)
  | GSlice b l =>
      HSlice b l ((fix go (l : list gval) : Forall P l :=
                     match l with
                     | [] => @Forall_nil _ P
                     | x :: l' => @Forall_cons _ P x l' (gval_ind x) (go l')
                     end) l)
  | GMap kvs =>
      HMap kvs ((fix go (l : list (string * gval)) : Forall (fun kv => P (snd kv)) l :=
                   match l with
                   | [] => @Forall_nil _ _
                   | x :: l' => @Forall_cons _ (fun kv => P (snd kv)) x l' (gval_ind (snd x)) (go l')
                   end) kvs)
  | GStruct fs =>
      HStruct fs ((fix go (l : list (string * bool * gval)) : Forall (fun f => P (snd f)) l :=
                     match l with
                     | [] => @Forall_nil _ _
                     | x :: l' => @Forall_cons _ (fun f => P (snd f)) x l' (gval_ind (snd x)) (go l')
                     end) fs)
  | GUnsupported ty => HUnsupported ty
  end.
End GvalInd.

(** [isEmptyValue]: what [omitempty] leaves out. *)
Definition isEmptyValue (v : gval) : bool :=
  match v with
  | GNil => true
  | GBool b => negb b
  | GInt z => (z =? 0)%Z
  | GString s => negb (nonempty s)
  | GSlice _ l => match l with [] => true | _ => false end
  | GMap kvs => match kvs with [] => true | _ => false end
  | GPtr _ | GIface _ | GStruct _ | GUnsupported _ => false
  end.

(** ** [json.Marshal] *)

(** Map keys in increasing byte order (a stable insertion sort). *)
Fixpoint insert_kv {A} (kv : string * A) (l : list (string * A)) : list (string * A) :=
  match l with
  | [] => [kv]
  | kv' :: l' => if String.leb (fst kv) (fst kv') then kv :: kv' :: l' else kv' :: insert_kv kv l'
  end.

Fixpoint sort_kvs {A} (l : list (string * A)) : list (string * A) :=
  match l with
  | [] => []
  | kv :: l' => insert_kv kv (sort_kvs l')
  end.

(** The members in order, or the first error among them. *)
Fixpoint collect_members (l : list (string * (goerror + json))) : goerror + list (string * json) :=
  match l with
  | [] => inr []
  | (k, inl e) :: _ => inl e
  | (k, inr j) :: l' => match collect_members l' with inl e => inl e | inr js => inr ((k, j) :: js) end
  end.

(** The order of marshalled map keys. *)
Definition key_le {A} (a b : string * A) : Prop := String.leb (fst a) (fst b) = true.

Definition int_literal (z : Z) : string := NilZero.string_of_int (Z.to_int z).

(** The document a value marshals to, or the first error. *)
Fixpoint marshal (v : gval) : goerror + json :=
  match v with
  | GNil => inr JNull
  | GBool b => inr (JBool b)
  | GInt z => inr (JNumber (int_literal z))
  | GString s => inr (JString s)
  | GPtr v' | GIface v' => marshal v'
  | GSlice true _ => inr JNull
  | GSlice false l =>
      let fix go (l : list gval) : goerror + list json :=
        match l with
        | [] => inr []
        | x :: l' => match marshal x with
                     | inl e => inl e
                     | inr j => match go l' with inl e => inl e | inr js => inr (j :: js) end
                     end
        end in
      match go l with inl e => inl e | inr js => inr (JArray js) end
  | GMap kvs =>
      (* every value is marshalled, then the members are taken in key
         order, so the error reported is the first in that order *)
      let fix go (l : list (string * gval)) : list (string * (goerror + json)) :=
        match l with
        | [] => []
        | (k, x) :: l' => (k, marshal x) :: go l'
        end in
      match collect_members (sort_kvs (go kvs)) with inl e => inl e | inr js => inr (JObject js) end
  | GStruct fs =>
      let fix go (l : list (string * bool * gval)) : goerror + list (string * json) :=
        match l with
        | [] => inr []
        | (name, omit, x) :: l' =>
            if omit && isEmptyValue x then go l'
            else match marshal x with
                 | inl e => inl e
                 | inr j => match go l' with inl e => inl e | inr js => inr ((name, j) :: js) end
                 end
        end in
      match go fs with inl e => inl e | inr js => inr (JObject js) end
  | GUnsupported ty => inl (ErrUnsupportedType ty)
  end.

(** The inner loops of [marshal] as functions of their own. *)
Fixpoint marshal_elems (l : list gval) : goerror + list json :=
  match l with
  | [] => inr []
  | x :: l' => match marshal x with
               | inl e => inl e
               | inr j => match marshal_elems l' with inl e => inl e | inr js => inr (j :: js) end
               end
  end.

Fixpoint marshal_fields (l : list (string * bool * gval)) : goerror + list (string * json) :=
  match l with
  | [] => inr []
  | (name, omit, x) :: l' =>
      if omit && isEmptyValue x then marshal_fields l'
      else match marshal x with
           | inl e => inl e
           | inr j => match marshal_fields l' with inl e => inl e | inr js => inr ((name, j) :: js) end
           end
  end.

(** The values of a map's members, marshalled in the map's order. *)
Fixpoint marshal_kvs (l : list (string * gval)) : list (string * (goerror + json)) :=
  match l with
  | [] => []
  | (k, x) :: l' => (k, marshal x) :: marshal_kvs l'
  end.

Section Codec.
Context {C : JsonCodec}.

(** [json.Marshal(v)]: the bytes of the document, or the error. *)
Definition Marshal (v : gval) : goerror + string :=
  match marshal v with inl e => inl e | inr j => inr (jencode j) end.

(** [json.Unmarshal(data, target)] with [dec] the decoding of a
    document into the target's type. *)
Definition Unmarshal {T} (dec : json -> T -> T * option goerror) (data : string) (t : T)
  : T * option goerror :=
  match jdecode data with
  | None => (t, Some ErrSyntax)
  | Some j => dec j t
  end.
End Codec.

(** ** [json.Unmarshal] into structs of string and []string fields *)

(** The JSON type names [UnmarshalTypeError] reports. *)
Definition json_kind (j : json) : string :=
  match j with
  | JNull => "null" | JBool _ => "bool" | JNumber _ => "number"
  | JString _ => "string" | JArray _ => "array" | JObject _ => "object"
  end.

(** Into a [string]: a JSON string sets it, [null] leaves it, anything
    else is a type error and leaves it. *)
Definition dec_string (field : string) (j : json) (old : string) : string * option goerror :=
  match j with
  | JString s => (s, None)
  | JNull => (old, None)
  | _ => (old, Some (ErrUnmarshalType (json_kind j) field))
  end.

(** The elements of an array decoded into a slice: element [i] is
    decoded into the old element [i] when there is one, else into [""]. *)
Fixpoint dec_elems (field : string) (l : list json) (old : list string) : list string * option goerror :=
  match l with
  | [] => ([], None)
  | x :: l' =>
      let '(o, os) := match old with [] => ("", []) | o :: os => (o, os) end in
      let '(v, e1) := dec_string field x o in
      let '(vs, e2) := dec_elems field l' os in
      (v :: vs, first_error e1 e2)
  end.

(** Into a [[]string]: [null] makes it nil, an array is decoded element
    by element (and the slice gets the array's length), anything else
    is a type error. *)
Definition dec_strings (field : string) (j : json) (old : list string) : list string * option goerror :=
  match j with
  | JNull => ([], None)
  | JArray l => dec_elems field l old
  | _ => (old, Some (ErrUnmarshalType (json_kind j) field))
  end.

(** Into a [*bool]: [null] makes it nil, a JSON boolean points to that
    value.  Any other value is a type error, found after [indirect] has
    allocated the pointer: a nil pointer then points to [false], a
    non-nil one keeps its target. *)
Definition dec_bool_ptr (field : string) (j : json) (old : option bool) : option bool * option goerror :=
  match j with
  | JNull => (None, None)
  | JBool b => (Some b, None)
  | _ => (Some (match old with Some b => b | None => false end),
          Some (ErrUnmarshalType (json_kind j) field))
  end.

(** The values an array of strings holds: what [dec_elems] reads from
    the JSON strings among them. *)
Definition is_jstring (j : json) : bool := match j with JString _ => true | _ => false end.

Definition strings_of (l : list json) : list string :=
  map (fun j => match j with JString s => s | _ => "" end) l.

(** A struct field as the decoder sees it: its JSON name and how a value
    is stored in it. *)
Record field_dec (S : Type) := FieldDec {
  fd_name : string;
  fd_set : json -> S -> S * option goerror
}.
Arguments FieldDec {S} _ _.
Arguments fd_name {S} _.
Arguments fd_set {S} _ _ _.

(** A [string] field and a [[]string] field of a struct [S], with the
    getter and the setter of the field. *)
Definition string_field {S} (name : string) (get : S -> string) (set : S -> string -> S) : field_dec S :=
  FieldDec name (fun j r => let '(v, e) := dec_string name j (get r) in (set r v, e)).

Definition strings_field {S} (name : string) (get : S -> list string) (set : S -> list string -> S)
  : field_dec S :=
  FieldDec name (fun j r => let '(v, e) := dec_strings name j (get r) in (set r v, e)).

Definition lower_ascii (c : ascii) : ascii :=
  let n := nat_of_ascii c in
  if (65 <=? n) && (n <=? 90) then ascii_of_nat (n + 32) else c.

Fixpoint lower (s : string) : string :=
  match s with
  | EmptyString => EmptyString
  | String c s' => String (lower_ascii c) (lower s')
  end.

(** The name [json.Unmarshal] matches a member against a field by,
    when no field has the exact name ([foldName] of encoding/json,
    over the UTF-8 bytes of the name): an ASCII letter stands for both
    its cases, and of the other runes exactly two fold onto ASCII
    letters, U+017F (long s, bytes C5 BF) onto [s] and U+212A (Kelvin
    sign, bytes E2 84 AA) onto [k].  Every other byte is kept: the
    rune it belongs to folds onto a rune that is not ASCII, so it can
    never match a tag of the program's structs, which are all ASCII.
    (On such tags, [fold_name a = fold_name k] is exactly Go's
    [bytes.Equal(foldName(a), foldName(k))].) *)
Fixpoint fold_name (s : string) : string :=
  match s with
  | String c (String c2 s2 as s') =>
      if Ascii.eqb c "197" && Ascii.eqb c2 "191" then String "s" (fold_name s2)
      else if Ascii.eqb c "226" && Ascii.eqb c2 "132" then
        match s2 with
        | String c3 s3 =>
            if Ascii.eqb c3 "170" then String "k" (fold_name s3)
            else String (lower_ascii c) (fold_name s')
        | EmptyString => String (lower_ascii c) (fold_name s')
        end
      else String (lower_ascii c) (fold_name s')
  | String c EmptyString => String (lower_ascii c) EmptyString
  | EmptyString => EmptyString
  end.

Definition fold_eqb (a b : string) : bool := String.eqb (fold_name a) (fold_name b).

(** The field a member name selects: exact match first, else the first
    field whose name is equal once folded ([fold_name]). *)
Definition lookup_field {S} (fs : list (field_dec S)) (k : string) : option (field_dec S) :=
  match List.find (fun f => String.eqb (fd_name f) k) fs with
  | Some f => Some f
  | None => List.find (fun f => fold_eqb (fd_name f) k) fs
  end.

Fixpoint dec_members {S} (fs : list (field_dec S)) (kvs : list (string * json)) (s : S)
    (err : option goerror) : S * option goerror :=
  match kvs with
  | [] => (s, err)
  | (k, v) :: kvs' =>
      match lookup_field fs k with
      | Some f => let '(s', e) := fd_set f v s in dec_members fs kvs' s' (first_error err e)
      | None => dec_members fs kvs' s err
      end
  end.

Definition decode_struct {S} (fs : list (field_dec S)) (j : json) (s : S) : S * option goerror :=
  match j with
  | JObject kvs => dec_members fs kvs s None
  | JNull => (s, None)
  | _ => (s, Some (ErrUnmarshalType (json_kind j) ""))
  end.

(** A value with integers, an omitted field and a slice (used by the examples). *)
Definition sample_value : gval :=
  GStruct [("n", false, GInt (-42)); ("skip", true, GString ""); ("ids", false, GSlice false [GInt 7; GString "a1"])].

(** ** Lemmas *)

(** Unfolding equations of [marshal]. *)
Lemma marshal_GStruct fs :
  marshal (GStruct fs) = match marshal_fields fs with inl e => inl e | inr js => inr (JObject js) end.
Proof. reflexivity. Qed.

Lemma marshal_GSlice l :
  marshal (GSlice false l) = match marshal_elems l with inl e => inl e | inr js => inr (JArray js) end.
Proof. reflexivity. Qed.

Lemma marshal_fields_cons name omit x l :
  marshal_fields ((name, omit, x) :: l) =
  if omit && isEmptyValue x then marshal_fields l
  else match marshal x with
       | inl e => inl e
       | inr j => match marshal_fields l with inl e => inl e | inr js => inr ((name, j) :: js) end
       end.
Proof. reflexivity. Qed.

Lemma marshal_elems_cons x l :
  marshal_elems (x :: l) =
  match marshal x with
  | inl e => inl e
  | inr j => match marshal_elems l with inl e => inl e | inr js => inr (j :: js) end
  end.
Proof. reflexivity. Qed.

Lemma marshal_GString s : marshal (GString s) = inr (JString s).
Proof. reflexivity. Qed.

Lemma marshal_GBool b : marshal (GBool b) = inr (JBool b).
Proof. reflexivity. Qed.

Lemma marshal_GNil : marshal GNil = inr JNull.
Proof. reflexivity. Qed.

Lemma marshal_GPtr v : marshal (GPtr v) = marshal v.
Proof. reflexivity. Qed.

Lemma marshal_GIface v : marshal (GIface v) = marshal v.
Proof. reflexivity. Qed.

Lemma marshal_fields_nil : marshal_fields [] = inr [].
Proof. reflexivity. Qed.

Lemma marshal_elems_nil : marshal_elems [] = inr [].
Proof. reflexivity. Qed.

#[export] Hint Rewrite marshal_GStruct marshal_GSlice marshal_fields_cons marshal_elems_cons
  marshal_GString marshal_GBool marshal_GNil marshal_GPtr marshal_GIface
  marshal_fields_nil marshal_elems_nil : harper.

Section CodecLemmas.
Context {C : JsonCodec}.

Lemma Unmarshal_syntax_error {T} (dec : json -> T -> T * option goerror) data t :
  jdecode data = None -> Unmarshal dec data t = (t, Some ErrSyntax).
Proof. intros H. unfold Unmarshal. by rewrite H. Qed.

Lemma Unmarshal_decoded {T} (dec : json -> T -> T * option goerror) data t j :
  jdecode data = Some j -> Unmarshal dec data t = dec j t.
Proof. intros H. unfold Unmarshal. by rewrite H. Qed.

Lemma Marshal_ok v j : marshal v = inr j -> Marshal v = inr (jencode j).
Proof. intros H. unfold Marshal. by rewrite H. Qed.

Lemma Marshal_error v e : marshal v = inl e -> Marshal v = inl e.
Proof. intros H. unfold Marshal. by rewrite H. Qed.
End CodecLemmas.

(** Decoding an array of strings gives those strings, with no error:
    identifiers stay text. *)
Lemma dec_elems_strings field ss old :
  dec_elems field (map JString ss) old = (ss, None).
Proof.
  revert old. induction ss as [|s ss IH]; intros old; [done|]. simpl.
  destruct old as [|o os]; rewrite IH; done.
Qed.

Lemma dec_strings_strings field ss old :
  dec_strings field (JArray (map JString ss)) old = (ss, None).
Proof. apply dec_elems_strings. Qed.

(** A number among the elements is a type error, and its slot keeps the
    old element (or [""]). *)
Lemma dec_elems_number field pre n post old :
  dec_elems field (map JString pre ++ JNumber n :: post)%list old =
  ((pre ++ fst (dec_elems field (JNumber n :: post) (drop (List.length pre) old)))%list,
   Some (ErrUnmarshalType "number" field)).
Proof.
  revert old. induction pre as [|s pre IH]; intros old; simpl.
  - destruct old as [|o os]; simpl; by destruct (dec_elems field post _).
  - destruct old as [|o os]; rewrite IH; simpl; rewrite ?drop_nil; done.
Qed.

#[export] Hint Rewrite dec_elems_strings dec_strings_strings : harper.

(** An array of JSON strings replaces the whole slice, whatever it held. *)
Lemma dec_elems_typed field l old :
  forallb is_jstring l = true -> dec_elems field l old = (strings_of l, None).
Proof.
  revert old. induction l as [|x l IH]; intros old; [done|]. cbn [forallb].
  intros [Hx Hl]%andb_prop. destruct x; try discriminate. simpl.
  destruct old as [|o os]; rewrite IH; done.
Qed.

(** A member list read in two parts: the second part continues from the
    target and the error the first part left. *)
Lemma dec_members_app {S} (fs : list (field_dec S)) l1 l2 s err :
  dec_members fs (l1 ++ l2) s err =
  let '(s', e) := dec_members fs l1 s err in dec_members fs l2 s' e.
Proof.
  revert s err. induction l1 as [|[k v] l1 IH]; intros s err; [done|]. cbn [app dec_members].
  destruct (lookup_field fs k) as [f|]; [destruct (fd_set f v s)|]; apply IH.
Qed.

(** On a name whose lower-case form is ASCII, [fold_name] is [lower]. *)
Definition ascii_only (s : string) : bool :=
  forallb (fun c => nat_of_ascii c <? 128) (list_ascii_of_string s).

Lemma lower_ascii_lt c : nat_of_ascii (lower_ascii c) < 128 -> nat_of_ascii c < 128.
Proof.
  unfold lower_ascii. destruct ((65 <=? nat_of_ascii c) && (nat_of_ascii c <=? 90)) eqn:H; [|done].
  apply andb_prop in H as [_ H%Nat.leb_le]. lia.
Qed.

Lemma fold_name_cons c s :
  nat_of_ascii c < 128 -> fold_name (String c s) = String (lower_ascii c) (fold_name s).
Proof.
  intros Hc. assert (Ascii.eqb c "197" = false /\ Ascii.eqb c "226" = false) as [H1 H2].
  { split; apply Ascii.eqb_neq; intros ->; [change (197 < 128) in Hc|change (226 < 128) in Hc]; lia. }
  destruct s as [|c2 s2]; [reflexivity|]. cbn [fold_name]. rewrite H1, H2. reflexivity.
Qed.

Lemma fold_name_lower s : ascii_only (lower s) = true -> fold_name s = lower s.
Proof.
  induction s as [|c s IH]; [done|]. unfold ascii_only. cbn [lower list_ascii_of_string forallb].
  intros [Hc Hs]%andb_prop. apply Nat.ltb_lt, lower_ascii_lt in Hc.
  rewrite fold_name_cons by done. f_equal. by apply IH.
Qed.

Lemma fold_eqb_refl a : fold_eqb a a = true.
Proof. apply String.eqb_refl. Qed.

(** Names equal up to case can stand for each other. *)
Lemma fold_eqb_swap a b k : fold_eqb a k = true -> fold_eqb b k = fold_eqb b a.
Proof. unfold fold_eqb. intros H%String.eqb_eq. by rewrite H. Qed.

(** The field a member selects is a field whose name equals the
    member's up to case; when none is selected, no name does. *)
Lemma lookup_field_Some {S} (fs : list (field_dec S)) k f :
  lookup_field fs k = Some f -> List.In f fs /\ fold_eqb (fd_name f) k = true.
Proof.
  unfold lookup_field. destruct (List.find _ fs) as [f'|] eqn:He.
  - intros [= <-]. apply List.find_some in He as [Hin Hk%String.eqb_eq].
    rewrite Hk. split; [done|apply fold_eqb_refl].
  - intros Hf. by apply List.find_some in Hf.
Qed.

Lemma lookup_field_None {S} (fs : list (field_dec S)) k :
  lookup_field fs k = None -> forall f, List.In f fs -> fold_eqb (fd_name f) k = false.
Proof.
  unfold lookup_field. destruct (List.find _ fs); [discriminate|]. intros Hn f Hin.
  exact (List.find_none _ _ Hn f Hin).
Qed.

Lemma lookup_field_None_names {S} (fs : list (field_dec S)) k n :
  lookup_field fs k = None -> List.In n (map fd_name fs) -> fold_eqb n k = false.
Proof.
  intros Hn (f & <- & Hin)%List.in_map_iff. exact (lookup_field_None fs k Hn f Hin).
Qed.

(** Map keys are marshalled in increasing order, and none is lost. *)
Lemma insert_kv_perm {A} (kv : string * A) l : Permutation (insert_kv kv l) (kv :: l).
Proof.
  induction l as [|kv' l IH]; simpl; [done|].
  destruct (String.leb _ _); [done|].
  rewrite IH. apply perm_swap.
Qed.

Lemma sort_kvs_perm {A} (l : list (string * A)) : Permutation (sort_kvs l) l.
Proof.
  induction l as [|kv l IH]; simpl; [done|].
  rewrite insert_kv_perm. by rewrite IH.
Qed.

Lemma leb_flip a b : String.leb a b = false -> String.leb b a = true.
Proof.
  intros H. destruct (total String.le b a) as [Hle|Hle]; unfold String.le in Hle; apply Is_true_true in Hle; [exact Hle|].
  congruence.
Qed.

Lemma insert_kv_sorted {A} (kv : string * A) l :
  Sorted key_le l -> Sorted key_le (insert_kv kv l).
Proof.
  induction 1 as [|kv' l Hs IH Hhd]; simpl; [by repeat constructor|].
  destruct (String.leb (fst kv) (fst kv')) eqn:E.
  - constructor; [by constructor|]. by constructor.
  - constructor; [done|].
    destruct l as [|kv'' l]; simpl in *.
    + constructor. unfold key_le. by apply leb_flip.
    + inversion Hhd; subst. destruct (String.leb (fst kv) (fst kv'')).
      * constructor. unfold key_le. by apply leb_flip.
      * by constructor.
Qed.

Lemma sort_kvs_sorted {A} (l : list (string * A)) : Sorted key_le (sort_kvs l).
Proof. induction l; simpl; [constructor|]. by apply insert_kv_sorted. Qed.

(** ** What [json.Marshal] writes is well formed *)

Lemma marshal_GMap kvs :
  marshal (GMap kvs) =
  match collect_members (sort_kvs (marshal_kvs kvs)) with inl e => inl e | inr js => inr (JObject js) end.
Proof. reflexivity. Qed.

(** The decimal digits of a positive number do not start with 0. *)
Lemma Pos_to_uint_lead p : match Pos.to_uint p with Decimal.Nil | Decimal.D0 _ => False | _ => True end.
Proof.
  pose proof (Unsigned.to_uint_nonzero p) as Hz.
  assert (E : Decimal.unorm (Pos.to_uint p) = Pos.to_uint p)
    by (rewrite <- Unsigned.to_of, Unsigned.of_to; reflexivity).
  destruct (Pos.to_uint p) as [|d|d|d|d|d|d|d|d|d|d] eqn:Ed; try exact I.
  - by apply (Unsigned.to_uint_nonnil p).
  - change (Decimal.unorm (Decimal.D0 d)) with (Decimal.unorm d) in E.
    assert (d <> Decimal.Nil) as Hd by (intros ->; by apply Hz).
    pose proof (nb_digits_unorm d Hd) as Hn. rewrite E in Hn. simpl in Hn. lia.
Qed.

Lemma digits_prefix_uint d : snd (digits_prefix (NilEmpty.string_of_uint d)) = "".
Proof.
  induction d as [|d IH|d IH|d IH|d IH|d IH|d IH|d IH|d IH|d IH|d IH]; [done|..];
    cbn [NilEmpty.string_of_uint digits_prefix]; simpl;
    destruct (digits_prefix (NilEmpty.string_of_uint d)); exact IH.
Qed.

Lemma int_ok_uint d :
  match d with Decimal.Nil | Decimal.D0 _ => False | _ => True end ->
  int_ok (NilEmpty.string_of_uint d) = Some "" /\
  int_ok (String "-" (NilEmpty.string_of_uint d)) = Some "".
Proof.
  intros Hd. rewrite <- (digits_prefix_uint d).
  destruct d; (contradiction || split; reflexivity).
Qed.

Lemma number_literal_int_ok s : int_ok s = Some "" -> number_literal s = true.
Proof. intros H. unfold number_literal. by rewrite H. Qed.

(** [strconv]-style decimal text of an integer is a JSON number. *)
Lemma number_literal_int_literal z : number_literal (int_literal z) = true.
Proof.
  unfold int_literal. destruct z as [|p|p]; [reflexivity| |];
    cbn [Z.to_int NilZero.string_of_int];
    pose proof (Pos_to_uint_lead p) as Hp; pose proof (int_ok_uint _ Hp) as [H1 H2];
    (destruct (Pos.to_uint p); [contradiction|..]); apply number_literal_int_ok; assumption.
Qed.

Lemma marshal_elems_wf l js :
  Forall (fun v => forall j, marshal v = inr j -> json_wf j = true) l ->
  marshal_elems l = inr js -> forallb json_wf js = true.
Proof.
  intros Hl. revert js. induction Hl as [|x l Hx Hl IH]; intros js; [by intros [= <-]|].
  rewrite marshal_elems_cons. destruct (marshal x) as [e|j] eqn:Hj; [discriminate|].
  destruct (marshal_elems l) as [e|js'] eqn:Hjs; [discriminate|]. intros [= <-].
  simpl. rewrite (Hx j eq_refl). by apply (IH _ eq_refl).
Qed.

Lemma marshal_fields_wf fs js :
  Forall (fun f => forall j, marshal (snd f) = inr j -> json_wf j = true) fs ->
  marshal_fields fs = inr js -> forallb (fun kv => json_wf (snd kv)) js = true.
Proof.
  intros Hl. revert js. induction Hl as [|[[name omit] x] l Hx Hl IH]; intros js; [by intros [= <-]|].
  rewrite marshal_fields_cons. destruct (omit && isEmptyValue x); [by apply IH|].
  destruct (marshal x) as [e|j] eqn:Hj; [discriminate|].
  destruct (marshal_fields l) as [e|js'] eqn:Hjs; [discriminate|]. intros [= <-].
  simpl. rewrite (Hx j Hj). by apply (IH _ eq_refl).
Qed.

Lemma collect_members_wf l js :
  Forall (fun kv => forall j, snd kv = inr j -> json_wf j = true) l ->
  collect_members l = inr js -> forallb (fun kv => json_wf (snd kv)) js = true.
Proof.
  intros Hl. revert js. induction Hl as [|[k [e|j]] l Hx Hl IH]; intros js; [by intros [= <-]|done|].
  cbn [collect_members]. destruct (collect_members l) as [e|js'] eqn:Hjs; [discriminate|].
  intros [= <-]. simpl. rewrite (Hx j eq_refl). by apply IH.
Qed.

Lemma marshal_kvs_wf kvs :
  Forall (fun kv => forall j, marshal (snd kv) = inr j -> json_wf j = true) kvs ->
  Forall (fun kv => forall j, snd kv = inr j -> json_wf j = true) (marshal_kvs kvs).
Proof. induction 1 as [|[k x] kvs Hx Hl IH]; constructor; auto. Qed.

(** Every document [marshal] produces is well formed: each number in
    it is a JSON number literal. *)
Lemma marshal_json_wf v j : marshal v = inr j -> json_wf j = true.
Proof.
  revert j. induction v as [| b | z | s | v IH | v IH | [] l IHl | kvs IHkvs | fs IHfs | ty] using gval_ind;
    intros j Hm; try (injection Hm as <-; done).
  - injection Hm as <-. apply number_literal_int_literal.
  - by apply IH.
  - by apply IH.
  - rewrite marshal_GSlice in Hm. destruct (marshal_elems l) as [e|js] eqn:He; [discriminate|].
    injection Hm as <-. by apply (marshal_elems_wf l).
  - rewrite marshal_GMap in Hm. destruct (collect_members _) as [e|js] eqn:Hc; [discriminate|].
    injection Hm as <-. apply (collect_members_wf (sort_kvs (marshal_kvs kvs))); [|done].
    apply Forall_forall. intros kv Hkv. apply (Permutation_in _ (sort_kvs_perm _)) in Hkv.
    apply marshal_kvs_wf in IHkvs. rewrite Forall_forall in IHkvs. by apply IHkvs.
  - rewrite marshal_GStruct in Hm. destruct (marshal_fields fs) as [e|js] eqn:Hf; [discriminate|].
    injection Hm as <-. by apply (marshal_fields_wf fs).
  - discriminate.
Qed.

(** What [json.Marshal] returns is the encoding of a well-formed
    document: each number in it is a JSON number literal (the decimal
    text of a Go integer, with no leading zero), so the codec's
    round-trip law applies to every request body. *)
Lemma Marshal_wf {C : JsonCodec} v b :
  Marshal v = inr b -> exists j, marshal v = inr j /\ b = jencode j /\ json_wf j = true.
Proof.
  unfold Marshal. destruct (marshal v) as [e|j] eqn:Hj; [discriminate|].
  intros [= <-]. exists j. split; [done|]. split; [done|]. exact (marshal_json_wf _ _ Hj).
Qed.

End GoJson.
