(* ===== verification/Transport.v ===== *)
(** * The transport executor: [Run] (src/api.go, lines 22-76)

    [Harper] is the session context; its [*http.Client] is the
    [HttpClient] capability, a function from the request to the
    response and the error [Client.Do] returns ([None] for a nil
    pointer).  [Run] is written in the [Go] writer monad: its events
    are the lines echoed to stdout in debug mode, the log lines, the
    request handed to the client, and the closing of the response body
    by the deferred function of lines 57-61.  [url_ok] says whether
    [http.NewRequest] accepts the URL (whether [url.Parse] succeeds). *)

From S2P Require Import Prelude GoStrings Json GoJson.

Open Scope string_scope.
Open Scope nat_scope.

Module Transport.
Import Json GoJson.

(** ** Requests, responses, the client, the session *)

Record Request := {
  req_method : string;
  req_url : string;
  req_header : list (string * string);   (** in the order [Header.Add] was called *)
  req_body : string
}.

(** A response: status, and what [ioutil.ReadAll] reads from the body:
    the bytes read and the error that stopped the read, if any. *)
Record Response := {
  StatusCode : Z;
  Status : string;
  Body : string;
  BodyErr : option goerror
}.

(** [http.Client.Do]: a response, an error, or (in Go, only when a
    redirect check fails) both. *)
Record HttpClient := { Do : Request -> option Response * option goerror }.

Record Harper := {
  Client : option HttpClient;   (** [*http.Client]; [None] is nil *)
  AuthToken : string;
  Schema : string;
  Debug : bool
}.

Definition set_Debug (h : Harper) (b : bool) : Harper :=
  {| Client := Client h; AuthToken := AuthToken h; Schema := Schema h; Debug := b |}.

Inductive logmsg :=
| LogMarshalFailed (e : goerror)                                  (** line 42 *)
| LogRequestFailed (code : Z) (status : string) (err : option goerror)  (** line 63 *)
| LogRequestBody (s : string)                                     (** line 64 *)
| LogReadFailed (e : goerror).                                    (** line 69 *)

Inductive event :=
| EvStdout (line : string)   (** [fmt.Println] *)
| EvLog (m : logmsg)         (** [log.Println] *)
| EvSend (r : Request)       (** the request given to [Client.Do] *)
| EvClose.                   (** [resp.Body.Close()] *)

Definition is_close (e : event) : bool := match e with EvClose => true | _ => false end.
Definition is_send (e : event) : bool := match e with EvSend _ => true | _ => false end.
Definition is_stdout (e : event) : bool := match e with EvStdout _ => true | _ => false end.

(** Observable events other than the debug echo. *)
Definition observable (tr : list event) : list event :=
  List.filter (fun e => negb (is_stdout e)) tr.

Section Run.
Context {C : JsonCodec}.
Variable url_ok : string -> bool.

(** [FmtJSON] (not under src/): the document indented, or the bytes
    unchanged when they are not a document. *)
Definition FmtJSON (b : string) : string :=
  match jdecode b with Some j => print_indent 0 j | None => b end.

(** [http.NewRequest(method, url, body)]: nil on a URL it cannot parse. *)
Definition NewRequest (method url body : string) : option Request :=
  if url_ok url
  then Some {| req_method := method; req_url := url; req_header := []; req_body := body |}
  else None.

(** [req.Header.Add(k, v)] *)
Definition add_header (k v : string) (r : Request) : Request :=
  {| req_method := req_method r; req_url := req_url r;
     req_header := req_header r ++ [(k, v)]; req_body := req_body r |}.

(** Lines 51-55: the request, or nil when [NewRequest] failed (its
    error is dropped: [err] is overwritten at line 56's [doErr]
    without being read). *)
Definition build_request (URL : string) (h : Harper) (jsonContent : string) : option Request :=
  match NewRequest "POST" URL jsonContent with
  | None => None
  | Some req =>
      let req := add_header "Content-Type" "application/json" req in
      Some (if nonempty (AuthToken h)
            then add_header "Authorization" ("Bearer " +:+ AuthToken h) req
            else req)
  end.

(** The deferred function of lines 57-61. *)
Definition close_body (resp : option Response) (doErr : option goerror) : Go event unit :=
  match doErr with
  | None => match resp with Some _ => go_emit EvClose | None => go_panic NilDeref end
  | Some _ => go_ret tt
  end.

Definition debug_echo (h : Harper) (title body : string) : Go event unit :=
  go_when (Debug h) (go_emit (EvStdout title) ;;; go_emit (EvStdout (FmtJSON body)))%go.

(** Lines 62-75, once [Client.Do] has returned. *)
Definition handle_response (h : Harper) (jsonContent : string) (resp : option Response)
    (doErr : option goerror) : Go event (string * option goerror) :=
  match resp with
  | None => go_panic NilDeref                       (* resp.StatusCode on a nil resp *)
  | Some r =>
      if negb (StatusCode r =? 200)%Z || bool_decide (is_Some doErr) then
        (go_emit (EvLog (LogRequestFailed (StatusCode r) (Status r) doErr)) ;;;
         go_emit (EvLog (LogRequestBody (FmtJSON jsonContent))) ;;;
         go_ret ("", doErr))%go
      else
        let result := Body r in
        let err := BodyErr r in
        ((match err with Some e => go_emit (EvLog (LogReadFailed e)) | None => go_ret tt end) ;;;
         debug_echo h "--- RESPONSE ---" result ;;;
         go_ret (result, err))%go
  end.

(** [func (harper *Harper) Run(payload interface{}) ([]byte, error)];
    [payload] is the interface value, and [json.Marshal(&payload)]
    marshals a pointer to it. *)
Definition Run (URL : string) (h : Harper) (payload : gval) : Go event (string * option goerror) :=
  match Marshal (GPtr payload) with
  | inl err => (go_emit (EvLog (LogMarshalFailed err)) ;;; go_ret ("", Some err))%go
  | inr jsonContent =>
      (debug_echo h "--- REQUEST ---" jsonContent ;;;
       match build_request URL h jsonContent with
       | None => go_panic NilDeref                    (* req.Header on a nil req *)
       | Some req =>
           match Client h with
           | None => go_panic NilDeref                (* Do on a nil *http.Client *)
           | Some c =>
               go_emit (EvSend req) ;;;
               let '(resp, doErr) := Do c req in
               with_defer (handle_response h jsonContent resp doErr) (close_body resp doErr)
           end
       end)%go
  end.
End Run.

(** ** A session used by the examples *)

Definition sample_url : string := "http://localhost:9925".
Definition sample_url_ok (u : string) : bool := true.
Definition sample_client (resp : option Response) (err : option goerror) : HttpClient :=
  {| Do := fun _ => (resp, err) |}.
Definition sample_harper (c : option HttpClient) (token : string) (dbg : bool) : Harper :=
  {| Client := c; AuthToken := token; Schema := "dev"; Debug := dbg |}.
Definition sample_response (code : Z) (body : string) (err : option goerror) : Response :=
  {| StatusCode := code; Status := ""; Body := body; BodyErr := err |}.
Definition sample_payload : gval :=
  GIface (GPtr (GStruct [("operation", false, GString "describe_all"); ("schema", true, GString "")])).

(** ** Properties of [Run] *)

Section RunProps.
Context {C : JsonCodec}.
Variable url_ok : string -> bool.

Lemma debug_echo_result h t b : fst (debug_echo h t b) = Done tt.
Proof. unfold debug_echo, go_when. by destruct (Debug h). Qed.

Lemma debug_echo_stdout h t b : List.filter (fun e => negb (is_stdout e)) (snd (debug_echo h t b)) = [].
Proof. unfold debug_echo, go_when. by destruct (Debug h). Qed.

Lemma debug_echo_off h t b : Debug h = false -> debug_echo h t b = go_ret tt.
Proof. intros H. unfold debug_echo, go_when. by rewrite H. Qed.

(** [Run] once the request is built and handed to the client. *)
Lemma Run_sent URL h p b req c :
  Marshal (GPtr p) = inr b ->
  build_request url_ok URL h b = Some req ->
  Client h = Some c ->
  Run url_ok URL h p =
  (fst (with_defer (handle_response h b (fst (Do c req)) (snd (Do c req)))
                   (close_body (fst (Do c req)) (snd (Do c req)))),
   (snd (debug_echo h "--- REQUEST ---" b) ++ EvSend req ::
     snd (with_defer (handle_response h b (fst (Do c req)) (snd (Do c req)))
                     (close_body (fst (Do c req)) (snd (Do c req)))))%list).
Proof.
  intros Hm Hb Hc. unfold Run. rewrite Hm.
  rewrite (go_bind_Done _ tt); [|apply debug_echo_result].
  rewrite Hb, Hc, go_bind_emit. simpl. by destruct (Do c req).
Qed.

(** The request [Run] builds: a POST of the marshalled payload to
    [URL], with [Content-Type], and with [Authorization: Bearer
    <token>] exactly when the token is not empty. *)
Lemma build_request_spec URL h b req :
  build_request url_ok URL h b = Some req ->
  req_method req = "POST" /\ req_url req = URL /\ req_body req = b /\
  req_header req = ("Content-Type", "application/json") ::
                   (if nonempty (AuthToken h) then [("Authorization", "Bearer " +:+ AuthToken h)] else []).
Proof.
  unfold build_request, NewRequest. destruct (url_ok URL); [|done].
  intros [= <-]. by destruct (nonempty (AuthToken h)).
Qed.

Lemma build_request_None URL h b : build_request url_ok URL h b = None <-> url_ok URL = false.
Proof.
  unfold build_request, NewRequest. destruct (url_ok URL); split; done.
Qed.


Lemma handle_response_quiet h b resp e :
  List.filter is_close (snd (handle_response h b resp e)) = [] /\
  List.filter is_send (snd (handle_response h b resp e)) = [].
Proof.
  unfold handle_response, debug_echo, go_when.
  destruct resp as [r|]; [|done].
  case_match; [done|].
  destruct (BodyErr r), (Debug h); done.
Qed.

Lemma debug_echo_quiet h t b :
  List.filter is_close (snd (debug_echo h t b)) = [] /\
  List.filter is_send (snd (debug_echo h t b)) = [].
Proof. unfold debug_echo, go_when. by destruct (Debug h). Qed.

(** A marshalling error is returned at once: one log line, and no
    request is built or sent. *)
Lemma Run_marshal_error URL h p e :
  Marshal (GPtr p) = inl e ->
  Run url_ok URL h p = (Done ("", Some e), [EvLog (LogMarshalFailed e)]).
Proof. intros Hm. unfold Run. by rewrite Hm. Qed.

(** What [Run] leaves outside standard output on status 200 with no
    error from [Do]: the send, a log line only for a read error, and
    the close. *)
Lemma Run_ok_observable URL h p b req c r :
  Marshal (GPtr p) = inr b -> build_request url_ok URL h b = Some req -> Client h = Some c ->
  Do c req = (Some r, None) -> StatusCode r = 200%Z ->
  observable (go_trace (Run url_ok URL h p)) =
    EvSend req :: (match BodyErr r with Some e => [EvLog (LogReadFailed e)] | None => [] end) ++ [EvClose].
Proof.
  intros Hm Hb Hc Hd Hs. rewrite (Run_sent _ _ _ _ _ _ Hm Hb Hc), Hd.
  unfold go_trace, observable, handle_response, close_body, debug_echo, go_when; simpl.
  rewrite ?Hs. simpl.
  destruct (BodyErr r), (Debug h); simpl; rewrite ?List.filter_app; simpl; done.
Qed.

(** (C7) Status 200 and no error from [Do]: [Run] returns what
    [ReadAll] read and the read error, after one send; the body is
    closed once, last. *)
Theorem Run_status_ok URL h p b req c r :
  Marshal (GPtr p) = inr b ->
  build_request url_ok URL h b = Some req ->
  Client h = Some c ->
  Do c req = (Some r, None) ->
  StatusCode r = 200%Z ->
  go_result (Run url_ok URL h p) = Done (Body r, BodyErr r) /\
  observable (go_trace (Run url_ok URL h p)) =
    EvSend req :: (match BodyErr r with Some e => [EvLog (LogReadFailed e)] | None => [] end)
           ++ [EvClose].
Proof.
  intros Hm Hb Hc Hd Hs. split; [|exact (Run_ok_observable _ _ _ _ _ _ _ Hm Hb Hc Hd Hs)].
  rewrite (Run_sent _ _ _ _ _ _ Hm Hb Hc), Hd.
  unfold go_result, handle_response, close_body, debug_echo, go_when; simpl. rewrite ?Hs. simpl.
  by destruct (BodyErr r), (Debug h).
Qed.

Lemma Run_not_ok_result URL h p b req c r :
  Marshal (GPtr p) = inr b ->
  build_request url_ok URL h b = Some req ->
  Client h = Some c ->
  Do c req = (Some r, None) ->
  StatusCode r <> 200%Z ->
  go_result (Run url_ok URL h p) = Done ("", None).
Proof.
  intros Hm Hb Hc Hd Hs. rewrite (Run_sent _ _ _ _ _ _ Hm Hb Hc), Hd.
  unfold go_result, handle_response; simpl. by rewrite (proj2 (Z.eqb_neq _ _) Hs).
Qed.

(** (C2) A status other than 200 with no error from [Do] is returned
    as an empty body and a nil error: the caller cannot tell it from
    an empty success.  The body is still closed. *)
Theorem Run_status_not_ok URL h p b req c r :
  Marshal (GPtr p) = inr b ->
  build_request url_ok URL h b = Some req ->
  Client h = Some c ->
  Do c req = (Some r, None) ->
  StatusCode r <> 200%Z ->
  go_result (Run url_ok URL h p) = Done ("", None) /\
  List.In EvClose (go_trace (Run url_ok URL h p)).
Proof.
  intros Hm Hb Hc Hd Hs. split; [exact (Run_not_ok_result _ _ _ _ _ _ _ Hm Hb Hc Hd Hs)|].
  rewrite (Run_sent _ _ _ _ _ _ Hm Hb Hc), Hd.
  unfold go_trace, handle_response, close_body; simpl.
  rewrite (proj2 (Z.eqb_neq _ _) Hs). simpl.
  apply List.in_or_app. right. simpl. tauto.
Qed.

(** (C1) When [Do] fails without a response, [Run] does not return the
    transport error: line 62 reads [resp.StatusCode] from a nil
    [resp] and panics. *)
Theorem Run_send_error_panics URL h p b req c e :
  Marshal (GPtr p) = inr b ->
  build_request url_ok URL h b = Some req ->
  Client h = Some c ->
  Do c req = (None, Some e) ->
  go_result (Run url_ok URL h p) = Panic NilDeref.
Proof.
  intros Hm Hb Hc Hd. rewrite (Run_sent _ _ _ _ _ _ Hm Hb Hc), Hd. reflexivity.
Qed.

(** The outcome and the events of [Run], by the branch taken. *)
Lemma Run_result URL h p :
  go_result (Run url_ok URL h p) =
  match Marshal (GPtr p) with
  | inl e => Done ("", Some e)
  | inr b =>
      match build_request url_ok URL h b, Client h with
      | Some req, Some c =>
          fst (with_defer (handle_response h b (fst (Do c req)) (snd (Do c req)))
                          (close_body (fst (Do c req)) (snd (Do c req))))
      | _, _ => Panic NilDeref
      end
  end.
Proof.
  unfold go_result. destruct (Marshal (GPtr p)) as [e|b] eqn:Hm.
  - unfold Run. by rewrite Hm.
  - destruct (build_request url_ok URL h b) as [req|] eqn:Hb;
      [destruct (Client h) as [c|] eqn:Hc|].
    + by rewrite (Run_sent _ _ _ _ _ _ Hm Hb Hc).
    + unfold Run. by rewrite Hm, (go_bind_Done _ tt), Hb, Hc; [|apply debug_echo_result].
    + unfold Run. by rewrite Hm, (go_bind_Done _ tt), Hb; [|apply debug_echo_result].
Qed.

Lemma Run_trace URL h p :
  go_trace (Run url_ok URL h p) =
  match Marshal (GPtr p) with
  | inl e => [EvLog (LogMarshalFailed e)]
  | inr b =>
      (snd (debug_echo h "--- REQUEST ---" b) ++
       match build_request url_ok URL h b, Client h with
       | Some req, Some c =>
           EvSend req ::
             snd (with_defer (handle_response h b (fst (Do c req)) (snd (Do c req)))
                             (close_body (fst (Do c req)) (snd (Do c req))))
       | _, _ => []
       end)%list
  end.
Proof.
  unfold go_trace. destruct (Marshal (GPtr p)) as [e|b] eqn:Hm.
  - unfold Run. by rewrite Hm.
  - destruct (build_request url_ok URL h b) as [req|] eqn:Hb;
      [destruct (Client h) as [c|] eqn:Hc|].
    + by rewrite (Run_sent _ _ _ _ _ _ Hm Hb Hc).
    + unfold Run. rewrite Hm, (go_bind_Done _ tt), Hb, Hc; [|apply debug_echo_result].
      simpl. by rewrite List.app_nil_r.
    + unfold Run. rewrite Hm, (go_bind_Done _ tt), Hb; [|apply debug_echo_result].
      simpl. by rewrite List.app_nil_r.
Qed.

(** (C8) Resource discipline: the response body is closed exactly once
    when [Do] returned a response and no error, and never otherwise. *)
Theorem Run_closes_body URL h p :
  List.length (List.filter is_close (go_trace (Run url_ok URL h p))) =
  match Marshal (GPtr p) with
  | inr b =>
      match build_request url_ok URL h b, Client h with
      | Some req, Some c => match Do c req with (Some _, None) => 1 | _ => 0 end
      | _, _ => 0
      end
  | inl _ => 0
  end.
Proof.
  rewrite Run_trace. destruct (Marshal (GPtr p)) as [e|b]; [done|].
  rewrite List.filter_app, (proj1 (debug_echo_quiet _ _ _)).
  destruct (build_request url_ok URL h b) as [req|], (Client h) as [c|]; try done.
  rewrite with_defer_pair. simpl. rewrite List.filter_app, (proj1 (handle_response_quiet _ _ _ _)).
  destruct (Do c req) as [[r|] [e|]]; done.
Qed.

(** (C9) No retry: [Run] hands at most one request to the client, and
    exactly one when the payload marshals, the URL parses and the
    client is not nil. *)
Theorem Run_sends_once URL h p :
  List.length (List.filter is_send (go_trace (Run url_ok URL h p))) =
  match Marshal (GPtr p) with
  | inr b => match build_request url_ok URL h b, Client h with Some _, Some _ => 1 | _, _ => 0 end
  | inl _ => 0
  end.
Proof.
  rewrite Run_trace. destruct (Marshal (GPtr p)) as [e|b]; [done|].
  rewrite List.filter_app, (proj2 (debug_echo_quiet _ _ _)).
  destruct (build_request url_ok URL h b) as [req|], (Client h) as [c|]; try done.
  rewrite with_defer_pair. simpl. rewrite List.filter_app, (proj2 (handle_response_quiet _ _ _ _)).
  destruct (Do c req) as [[r|] [e|]]; done.
Qed.

Lemma handle_response_set_Debug h d b resp e :
  fst (handle_response (set_Debug h d) b resp e) = fst (handle_response h b resp e) /\
  observable (snd (handle_response (set_Debug h d) b resp e)) =
  observable (snd (handle_response h b resp e)).
Proof.
  unfold handle_response, debug_echo, go_when, observable.
  destruct resp as [r|]; [|done]. case_match; [done|].
  destruct (BodyErr r), d, (Debug h); simpl; rewrite ?List.filter_app; done.
Qed.

Lemma build_request_set_Debug URL h d b :
  build_request url_ok URL (set_Debug h d) b = build_request url_ok URL h b.
Proof. reflexivity. Qed.

(** (C10) Debug mode is a side channel: it changes neither the result
    of [Run] nor any event other than the lines echoed to stdout. *)
Theorem Run_debug_noninterference URL h p d :
  go_result (Run url_ok URL (set_Debug h d) p) = go_result (Run url_ok URL h p) /\
  observable (go_trace (Run url_ok URL (set_Debug h d) p)) = observable (go_trace (Run url_ok URL h p)).
Proof.
  rewrite !Run_result, !Run_trace.
  destruct (Marshal (GPtr p)) as [e|b]; [done|]. unfold observable.
  rewrite build_request_set_Debug. simpl Client.
  rewrite !List.filter_app, !debug_echo_stdout.
  destruct (build_request url_ok URL h b) as [req|], (Client h) as [c|]; try done.
  rewrite !with_defer_pair. simpl. rewrite !List.filter_app.
  destruct (handle_response_set_Debug h d b (fst (Do c req)) (snd (Do c req))) as [H1 H2].
  unfold observable in H2. by rewrite H1, H2.
Qed.

Lemma In_filter_nil {A} (f : A -> bool) x l : List.In x l -> f x = true -> List.filter f l <> [].
Proof.
  intros Hin Hf Hnil. assert (List.In x (List.filter f l)) as H by (apply List.filter_In; auto).
  rewrite Hnil in H. done.
Qed.

(** (C11) The error of [http.NewRequest] is dropped (line 51): on a URL
    it cannot parse, [Run] panics at [req.Header.Add] without sending. *)
Theorem Run_bad_url_panics URL h p b :
  Marshal (GPtr p) = inr b ->
  url_ok URL = false ->
  go_result (Run url_ok URL h p) = Panic NilDeref /\
  List.filter is_send (go_trace (Run url_ok URL h p)) = [].
Proof.
  intros Hm Hu. rewrite Run_result, Run_trace, Hm.
  rewrite (proj2 (build_request_None _ _ _ ) Hu), List.filter_app, (proj2 (debug_echo_quiet _ _ _)).
  by destruct (Client h).
Qed.

(** The only request [Run] sends is the one built from the marshalled
    payload. *)
Lemma Run_sent_request URL h p rq :
  List.In (EvSend rq) (go_trace (Run url_ok URL h p)) ->
  exists b, Marshal (GPtr p) = inr b /\ build_request url_ok URL h b = Some rq.
Proof.
  rewrite Run_trace. destruct (Marshal (GPtr p)) as [e|b]; [intros [H|[]]; done|].
  intros Hin. exists b. split; [done|].
  apply List.in_app_or in Hin as [Hin|Hin].
  - exfalso. apply (In_filter_nil (fun e => negb (is_stdout e)) _ _ Hin); [done|].
    apply debug_echo_stdout.
  - destruct (build_request url_ok URL h b) as [req|], (Client h) as [c|]; try done.
    destruct Hin as [[= ->]|Hin]; [done|]. exfalso.
    rewrite with_defer_pair in Hin. simpl in Hin. apply List.in_app_or in Hin as [Hin|Hin].
    + apply (In_filter_nil is_send _ _ Hin); [done|]. apply handle_response_quiet.
    + destruct (Do c req) as [[r|] [e|]]; simpl in Hin; intuition discriminate.
Qed.

(** The body of every request [Run] sends is the encoding of the
    document [json.Marshal] built from the payload. *)
Lemma Run_sent_body URL h p rq :
  List.In (EvSend rq) (go_trace (Run url_ok URL h p)) ->
  exists j, marshal (GPtr p) = inr j /\ req_body rq = jencode j.
Proof.
  intros Hin. destruct (Run_sent_request _ _ _ _ Hin) as [b [Hm Hb]].
  destruct (build_request_spec _ _ _ _ Hb) as [_ [_ [-> _]]].
  unfold Marshal in Hm. destruct (marshal (GPtr p)) as [e|j]; [discriminate|].
  injection Hm as <-. by exists j.
Qed.

(** (C12) Every request [Run] hands to the client is a POST to [URL]
    whose body is the marshalled payload, with [Content-Type] and with
    [Authorization: Bearer <token>] exactly when the token is not empty. *)
Theorem Run_sent_request_spec URL h p rq :
  List.In (EvSend rq) (go_trace (Run url_ok URL h p)) ->
  exists b, Marshal (GPtr p) = inr b /\
    req_method rq = "POST" /\ req_url rq = URL /\ req_body rq = b /\
    req_header rq = ("Content-Type", "application/json") ::
                    (if nonempty (AuthToken h) then [("Authorization", "Bearer " +:+ AuthToken h)] else []).
Proof.
  intros Hin. destruct (Run_sent_request _ _ _ _ Hin) as [b [Hm Hb]].
  exists b. split; [done|]. exact (build_request_spec _ _ _ _ Hb).
Qed.
(** Once [Do] has returned a response, [Run] returns. *)
Lemma handle_response_done h b r e : exists v, fst (handle_response h b (Some r) e) = Done v.
Proof.
  unfold handle_response. destruct (_ || _); [rewrite !go_bind_emit; cbn; eauto|].
  rewrite go_bind_pair. destruct (BodyErr r); cbn [fst];
    rewrite (go_bind_Done _ tt) by apply debug_echo_result; cbn; eauto.
Qed.

(** Status 200 and no error from [Do]: the body read and the read error. *)
Lemma handle_response_ok h b r :
  StatusCode r = 200%Z -> fst (handle_response h b (Some r) None) = Done (Body r, BodyErr r).
Proof.
  intros Hs. unfold handle_response.
  assert (negb (StatusCode r =? 200)%Z || bool_decide (is_Some (@None goerror)) = false) as -> by
    (rewrite Hs; reflexivity).
  rewrite go_bind_pair. destruct (BodyErr r); cbn [fst];
    rewrite (go_bind_Done _ tt) by apply debug_echo_result; reflexivity.
Qed.

Lemma build_request_Some URL h b : url_ok URL = true -> exists req, build_request url_ok URL h b = Some req.
Proof. intros Hu. destruct (build_request url_ok URL h b) eqn:Hb; [eauto|]. by apply build_request_None in Hb; rewrite Hb in Hu. Qed.

(** A server that answers every request with status 200: [Run] returns
    the body read and the read error. *)
Lemma Run_answered URL h p b c r :
  Marshal (GPtr p) = inr b -> url_ok URL = true -> Client h = Some c ->
  (forall rq, Do c rq = (Some r, None)) -> StatusCode r = 200%Z ->
  go_result (Run url_ok URL h p) = Done (Body r, BodyErr r).
Proof.
  intros Hm Hu Hc Hd Hs. destruct (build_request_Some URL h b Hu) as [req Hb].
  rewrite (Run_sent _ _ _ _ _ _ Hm Hb Hc), Hd. unfold go_result. cbn [fst snd].
  rewrite with_defer_pair, handle_response_ok by done. reflexivity.
Qed.

(** The request [Run] builds is handed to the client. *)
Lemma Run_sends_built URL h p b req c :
  Marshal (GPtr p) = inr b -> build_request url_ok URL h b = Some req -> Client h = Some c ->
  List.In (EvSend req) (go_trace (Run url_ok URL h p)).
Proof.
  intros Hm Hb Hc. unfold go_trace. rewrite (Run_sent _ _ _ _ _ _ Hm Hb Hc).
  apply List.in_or_app. right. by left.
Qed.

(** (C23) Progress: a payload that marshals, sent through a URL that
    parses with a non-nil client, reaches the server (the request
    [Run] builds is handed to [Do]), and [Run] returns to its caller
    whenever [Do] answers with a response, whatever the status and
    the transport error. *)
Theorem Run_reaches_server URL h p b c :
  Marshal (GPtr p) = inr b -> url_ok URL = true -> Client h = Some c ->
  exists req, build_request url_ok URL h b = Some req /\
    List.In (EvSend req) (go_trace (Run url_ok URL h p)) /\
    (is_Some (fst (Do c req)) -> exists v, go_result (Run url_ok URL h p) = Done v).
Proof.
  intros Hm Hu Hc. destruct (build_request_Some URL h b Hu) as [req Hb].
  exists req. split; [done|]. split; [exact (Run_sends_built _ _ _ _ _ _ Hm Hb Hc)|].
  rewrite (Run_sent _ _ _ _ _ _ Hm Hb Hc). cbn [fst].
  destruct (Do c req) as [[r|] e]; intros Hs; [|destruct Hs as [? [=]]].
  unfold go_result. cbn [fst snd]. rewrite with_defer_pair.
  destruct (handle_response_done h b r e) as [v ->]. destruct e; cbn; eauto.
Qed.

(** (C29) What a rejected call leaves behind: on a status other than
    200 with no error from [Do], the events of [Run] are the request
    echo (in debug mode), the send, two log lines (the status, then
    the request re-printed) and the close.  The response body appears
    in none of them. *)
Theorem Run_not_ok_trace URL h p b req c r :
  Marshal (GPtr p) = inr b ->
  build_request url_ok URL h b = Some req ->
  Client h = Some c ->
  Do c req = (Some r, None) ->
  StatusCode r <> 200%Z ->
  go_trace (Run url_ok URL h p) =
    (snd (debug_echo h "--- REQUEST ---" b) ++
     [EvSend req; EvLog (LogRequestFailed (StatusCode r) (Status r) None);
      EvLog (LogRequestBody (FmtJSON b)); EvClose])%list.
Proof.
  intros Hm Hb Hc Hd Hs. rewrite (Run_sent _ _ _ _ _ _ Hm Hb Hc), Hd.
  unfold handle_response, close_body. cbn [fst snd]. rewrite (proj2 (Z.eqb_neq _ _) Hs).
  reflexivity.
Qed.
End RunProps.

(** ** Witnesses *)

Lemma Run_status_ok_witness :
  let h := sample_harper (Some (sample_client (Some (sample_response 200 "{}" None)) None)) "tok" true in
  go_result (Run sample_url_ok sample_url h sample_payload) = Done ("{}", None) /\
  observable (go_trace (Run sample_url_ok sample_url h sample_payload)) =
    EvSend {| req_method := "POST"; req_url := sample_url;
              req_header := [("Content-Type", "application/json"); ("Authorization", "Bearer tok")];
              req_body := jencode (JObject [("operation", JString "describe_all")]) |} :: [EvClose].
Proof.
  intros h. eapply (Run_status_ok _ _ _ _ _ _ (sample_client (Some (sample_response 200 "{}" None)) None)
                                  (sample_response 200 "{}" None)); reflexivity.
Defined.

Lemma Run_status_not_ok_witness :
  let h := sample_harper (Some (sample_client (Some (sample_response 500 "oops" None)) None)) "" false in
  go_result (Run sample_url_ok sample_url h sample_payload) = Done ("", None) /\
  List.In EvClose (go_trace (Run sample_url_ok sample_url h sample_payload)).
Proof. eapply Run_status_not_ok; try reflexivity. discriminate. Defined.

Lemma Run_send_error_panics_witness :
  go_result (Run sample_url_ok sample_url
     (sample_harper (Some (sample_client None (Some (ErrTransport "connection refused")))) "" false)
     sample_payload) = Panic NilDeref.
Proof. eapply Run_send_error_panics; reflexivity. Defined.

Lemma Run_bad_url_panics_witness :
  go_result (Run (fun _ => false) "http://[::1" (sample_harper None "" false) sample_payload) = Panic NilDeref /\
  List.filter is_send (go_trace (Run (fun _ => false) "http://[::1" (sample_harper None "" false) sample_payload)) = [].
Proof. eapply Run_bad_url_panics; reflexivity. Defined.

Lemma Run_sent_request_spec_witness :
  let h := sample_harper (Some (sample_client (Some (sample_response 200 "{}" None)) None)) "tok" false in
  exists b, Marshal (GPtr sample_payload) = inr b /\
    "POST" = "POST" /\ sample_url = sample_url /\ jencode (JObject [("operation", JString "describe_all")]) = b /\
    [("Content-Type", "application/json"); ("Authorization", "Bearer tok")] =
      ("Content-Type", "application/json") ::
      (if nonempty (AuthToken h) then [("Authorization", "Bearer " +:+ AuthToken h)] else []).
Proof.
  intros h.
  apply (Run_sent_request_spec sample_url_ok sample_url h sample_payload
           {| req_method := "POST"; req_url := sample_url;
              req_header := [("Content-Type", "application/json"); ("Authorization", "Bearer tok")];
              req_body := jencode (JObject [("operation", JString "describe_all")]) |}).
  vm_compute. auto.
Defined.


Lemma Run_reaches_server_witness :
  exists req, build_request sample_url_ok sample_url (sample_harper (Some (sample_client (Some (sample_response 200 "{}" None)) None)) "" false)
                (jencode (JObject [("operation", JString "describe_all")])) = Some req /\
    List.In (EvSend req) (go_trace (Run sample_url_ok sample_url
                                      (sample_harper (Some (sample_client (Some (sample_response 200 "{}" None)) None)) "" false) sample_payload)) /\
    (is_Some (fst (Do (sample_client (Some (sample_response 200 "{}" None)) None) req)) ->
     exists v, go_result (Run sample_url_ok sample_url
                           (sample_harper (Some (sample_client (Some (sample_response 200 "{}" None)) None)) "" false) sample_payload) = Done v).
Proof. apply Run_reaches_server; reflexivity. Defined.

Lemma Run_not_ok_trace_witness :
  let c := sample_client (Some (sample_response 500 "rejected" None)) None in
  go_trace (Run sample_url_ok sample_url (sample_harper (Some c) "" true) sample_payload) =
    [EvStdout "--- REQUEST ---"; EvStdout (FmtJSON (jencode (JObject [("operation", JString "describe_all")])));
     EvSend {| req_method := "POST"; req_url := sample_url; req_header := [("Content-Type", "application/json")];
               req_body := jencode (JObject [("operation", JString "describe_all")]) |};
     EvLog (LogRequestFailed 500 "" None);
     EvLog (LogRequestBody (FmtJSON (jencode (JObject [("operation", JString "describe_all")])))); EvClose].
Proof.
  intros c. etransitivity.
  - apply (Run_not_ok_trace sample_url_ok sample_url _ _ (jencode (JObject [("operation", JString "describe_all")]))
             {| req_method := "POST"; req_url := sample_url; req_header := [("Content-Type", "application/json")];
                req_body := jencode (JObject [("operation", JString "describe_all")]) |}
             c (sample_response 500 "rejected" None)); try reflexivity. discriminate.
  - reflexivity.
Defined.

End Transport.
