(* ===== verification/DebugEcho.v ===== *)
(** * The debug echo: [FmtJSON] read back

    In [Debug] mode [Run] prints the request it sends, and the response
    it got, through [FmtJSON] (lines 45-48 and 71-74): the document
    re-printed with [print_indent], one member or element per line,
    two spaces per level.  This file shows that the indented text is
    the same document: the reader of [Json] reads [print_indent lvl j]
    back as [j] (white space between tokens is skipped), with the fuel
    [decode] gives, because the indented text is never shorter than the
    compact one.  So the request shown on stdout is the document sent;
    and, with [JsonReader] (every document the reader returns is well
    formed), the text [FmtJSON] prints for any body, JSON or not,
    decodes exactly as the body does. *)

From S2P Require Import Prelude GoStrings Json JsonLaws JsonReader GoJson Transport.

Open Scope string_scope.
Open Scope nat_scope.

Module DebugEcho.
Import Json JsonLaws JsonReader GoJson Transport.

(** ** Definitions *)

(** The round trip of one indented document, at every level, with any
    delimiter after it and any fuel at least its size. *)
Definition rti (x : json) : Prop :=
  forall lvl, json_wf x = true -> forall f t, jsize x <= f -> delim t = true ->
  parse_value f (print_indent lvl x +:+ t) = Some (x, t).

(** An element and a member as [print_indent] writes them at level [lvl]. *)
Definition indent_elem (lvl : nat) (x : json) : string := spaces (S lvl) +:+ print_indent (S lvl) x.

Definition indent_member (lvl : nat) (kv : string * json) : string :=
  spaces (S lvl) +:+ quote (fst kv) +:+ ": " +:+ print_indent (S lvl) (snd kv).

(** ** White space *)

Lemma skip_ws_spaces n s : skip_ws (spaces n +:+ s) = skip_ws s.
Proof. induction n as [|n IH]; [done|]. exact IH. Qed.

Lemma skip_ws_nl s : skip_ws (nl +:+ s) = skip_ws s.
Proof. reflexivity. Qed.

Lemma skip_ws_idem s : skip_ws (skip_ws s) = skip_ws s.
Proof.
  induction s as [|c s IH]; [done|]. cbn [skip_ws].
  destruct (is_ws c) eqn:Hc; [done|]. cbn [skip_ws]. by rewrite Hc.
Qed.

Lemma skip_ws_nonws c s : is_ws c = false -> skip_ws (String c s) = String c s.
Proof. intros Hc. cbn [skip_ws]. by rewrite Hc. Qed.

(** The reader skips white space before every value and member. *)
Lemma parse_value_skip f s : parse_value f (skip_ws s) = parse_value f s.
Proof. destruct f as [|f]; [done|]. cbn [parse_value]. by rewrite skip_ws_idem. Qed.

Lemma parse_elems_skip f s acc : parse_elems f (skip_ws s) acc = parse_elems f s acc.
Proof. destruct f as [|f]; [done|]. cbn [parse_elems]. by rewrite parse_value_skip. Qed.

Lemma parse_members_skip f s acc : parse_members f (skip_ws s) acc = parse_members f s acc.
Proof. destruct f as [|f]; [done|]. cbn [parse_members]. by rewrite skip_ws_idem. Qed.

(** ** Reading an indented document *)

Lemma print_indent_scalar lvl j :
  (forall l, j <> JArray l) -> (forall kvs, j <> JObject kvs) -> print_indent lvl j = print j.
Proof. destruct j; intros Ha Ho; [done..| by destruct (Ha l) | by destruct (Ho kvs)]. Qed.

(** The first byte of an indented document. *)
Lemma print_indent_head lvl j :
  json_wf j = true ->
  exists c s, print_indent lvl j = String c s /\ is_ws c = false /\ Ascii.eqb c "]" = false.
Proof.
  destruct j as [| | | |[|x l]|[|kv kvs]]; intros Hwf; cbn [print_indent]; eauto 6;
    apply print_head in Hwf; exact Hwf.
Qed.

Lemma concat_sep_cons_app sep a l t : exists t', concat_sep sep (a :: l) +:+ t = a +:+ t'.
Proof.
  destruct l as [|b l]; [by exists t|]. rewrite concat_sep_cons2, <- !sapp_assoc. by eexists.
Qed.

(** After an opening bracket, white space and then a byte other than a
    closing bracket start the elements. *)
Lemma parse_value_array_ws f s c r :
  skip_ws s = String c r -> Ascii.eqb c "]" = false ->
  parse_value (S f) (String "[" s) = parse_elems f s [].
Proof.
  intros Hs Hc. rewrite <- parse_elems_skip, Hs. cbn [parse_value].
  rewrite skip_ws_nonws by reflexivity. rewrite Hs.
  destruct c as [[] [] [] [] [] [] [] []]; try discriminate; reflexivity.
Qed.

Lemma parse_value_object_ws f s r :
  skip_ws s = String (ascii_of_nat 34) r -> parse_value (S f) (String "{" s) = parse_members f s [].
Proof.
  intros Hs. rewrite <- parse_members_skip, Hs. cbn [parse_value].
  rewrite skip_ws_nonws by reflexivity. by rewrite Hs.
Qed.

(** One element, then what the enclosing array does next. *)
Lemma parse_elems_step f s x r acc :
  parse_value f s = Some (x, r) ->
  parse_elems (S f) s acc =
  match skip_ws r with
  | String ","%char r' => parse_elems f r' (x :: acc)
  | String "]"%char r' => Some (JArray (rev (x :: acc)), r')
  | _ => None
  end.
Proof. intros H. cbn [parse_elems]. by rewrite H. Qed.

(** One member, then what the enclosing object does next. *)
Lemma parse_members_step f k v s r acc :
  parse_value f s = Some (v, r) ->
  parse_members (S f) (String (ascii_of_nat 34) (escape k +:+ String (ascii_of_nat 34) (String ":" s))) acc =
  match skip_ws r with
  | String ","%char t => parse_members f t ((k, v) :: acc)
  | String "}"%char t => Some (JObject (rev ((k, v) :: acc)), t)
  | _ => None
  end.
Proof. intros H. cbn [parse_members skip_ws]. simpl. rewrite parse_str_escape. simpl. by rewrite H. Qed.

Lemma parse_value_space f s : parse_value f (String " " s) = parse_value f s.
Proof. by rewrite <- (parse_value_skip f (String " " s)), <- (parse_value_skip f s). Qed.

Lemma lit2_app (a b : ascii) r : String a (String b EmptyString) +:+ r = String a (String b r).
Proof. reflexivity. Qed.

(** The elements of an indented array, then its closing line. *)
Lemma parse_elems_indent lvl l :
  Forall rti l -> forallb json_wf l = true -> l <> [] ->
  forall f acc t, list_sum (map (fun x => S (jsize x)) l) <= f ->
  parse_elems f (concat_sep ("," +:+ nl) (map (indent_elem lvl) l) +:+ nl +:+ spaces lvl +:+ String "]" t) acc =
  Some (JArray (rev acc ++ l), t).
Proof.
  induction 1 as [|x l Hx Hl IH]; [done|]. intros Hwf _ f acc t Hf.
  simpl in Hwf. apply andb_true_iff in Hwf as [Hwx Hwl].
  destruct f as [|f]; [simpl in Hf; lia|]. simpl in Hf.
  destruct l as [|y l]; cbn [map]; [cbn [concat_sep]|rewrite concat_sep_cons2];
    unfold indent_elem at 1; snorm; rewrite <- parse_elems_skip, skip_ws_spaces, parse_elems_skip;
    (erewrite parse_elems_step; [|apply Hx; [done|simpl in *; lia|reflexivity]]).
  - by rewrite skip_ws_nl, skip_ws_spaces, skip_ws_nonws.
  - rewrite lit_app, skip_ws_nonws by done.
    rewrite <- parse_elems_skip, skip_ws_nl, parse_elems_skip.
    rewrite <- (map_cons (indent_elem lvl) y l), (IH Hwl) by (done || simpl in *; lia).
    simpl. by rewrite <- app_assoc.
Qed.

(** The members of an indented object, then its closing line. *)
Lemma parse_members_indent lvl kvs :
  Forall (fun kv => rti (snd kv)) kvs -> forallb (fun kv => json_wf (snd kv)) kvs = true -> kvs <> [] ->
  forall f acc t, list_sum (map (fun kv => S (jsize (snd kv))) kvs) <= f ->
  parse_members f (concat_sep ("," +:+ nl) (map (indent_member lvl) kvs) +:+ nl +:+ spaces lvl +:+ String "}" t) acc =
  Some (JObject (rev acc ++ kvs), t).
Proof.
  induction 1 as [|[k v] kvs Hx Hl IH]; [done|]. intros Hwf _ f acc t Hf.
  simpl in Hwf. apply andb_true_iff in Hwf as [Hwx Hwl].
  destruct f as [|f]; [simpl in Hf; lia|]. simpl in Hf.
  destruct kvs as [|kv' kvs]; cbn [map]; [cbn [concat_sep]|rewrite concat_sep_cons2];
    unfold indent_member at 1, quote; cbn [fst snd]; snorm; rewrite lit2_app;
    rewrite <- parse_members_skip, skip_ws_spaces, parse_members_skip;
    (erewrite parse_members_step;
       [|rewrite parse_value_space; apply Hx; [done|simpl in *; lia|reflexivity]]).
  - by rewrite skip_ws_nl, skip_ws_spaces, skip_ws_nonws.
  - rewrite lit_app, skip_ws_nonws by done.
    rewrite <- parse_members_skip, skip_ws_nl, parse_members_skip.
    rewrite <- (map_cons (indent_member lvl) kv' kvs), (IH Hwl) by (done || simpl in *; lia).
    simpl. by rewrite <- app_assoc.
Qed.

Lemma print_indent_JArray lvl x l :
  print_indent lvl (JArray (x :: l)) =
  String "[" (nl +:+ concat_sep ("," +:+ nl) (map (indent_elem lvl) (x :: l)) +:+ nl +:+ spaces lvl +:+ "]").
Proof. reflexivity. Qed.

Lemma print_indent_JObject lvl kv kvs :
  print_indent lvl (JObject (kv :: kvs)) =
  String "{" (nl +:+ concat_sep ("," +:+ nl) (map (indent_member lvl) (kv :: kvs)) +:+ nl +:+ spaces lvl +:+ "}").
Proof. reflexivity. Qed.

(** The first element of an indented array starts after white space
    with a byte other than a closing bracket. *)
Lemma skip_ws_indent_elems lvl x l t :
  json_wf x = true ->
  exists c r, skip_ws (concat_sep ("," +:+ nl) (map (indent_elem lvl) (x :: l)) +:+ t) = String c r /\
              Ascii.eqb c "]" = false.
Proof.
  intros Hwf. destruct (print_indent_head (S lvl) x Hwf) as (c & s0 & Hp & Hws & Hb).
  destruct (concat_sep_cons_app ("," +:+ nl) (indent_elem lvl x) (map (indent_elem lvl) l) t) as [t' Ht'].
  cbn [map]. rewrite Ht'. unfold indent_elem.
  rewrite <- sapp_assoc, skip_ws_spaces, Hp, sapp_cons, skip_ws_nonws by done. eauto.
Qed.

(** The first member of an indented object starts after white space
    with the quote of its key. *)
Lemma skip_ws_indent_members lvl kv kvs t :
  exists r, skip_ws (concat_sep ("," +:+ nl) (map (indent_member lvl) (kv :: kvs)) +:+ t) =
            String (ascii_of_nat 34) r.
Proof.
  destruct (concat_sep_cons_app ("," +:+ nl) (indent_member lvl kv) (map (indent_member lvl) kvs) t) as [t' Ht'].
  cbn [map]. rewrite Ht'. unfold indent_member, quote. rewrite <- !sapp_assoc, skip_ws_spaces. by eexists.
Qed.

(** Every well-formed document, indented at any level and followed by
    a delimiter, is read back with any fuel at least its size. *)
Lemma parse_value_print_indent j : rti j.
Proof.
  induction j as [| b | lit | s | l IHl | kvs IHkvs] using json_ind'; intros lvl Hwf f t Hf Ht;
    try (rewrite print_indent_scalar by (intros; discriminate); by apply parse_value_print).
  - destruct f as [|f]; [simpl in Hf; lia|]. destruct l as [|x l]; [reflexivity|].
    simpl in Hwf. destruct (proj1 (andb_true_iff _ _) Hwf) as [Hwx _].
    destruct (skip_ws_indent_elems lvl x l (nl +:+ spaces lvl +:+ "]" +:+ t) Hwx) as (c & r & Hs & Hc).
    rewrite print_indent_JArray, sapp_cons, <- !sapp_assoc.
    rewrite (parse_value_array_ws f _ c r) by (rewrite ?skip_ws_nl; done).
    rewrite <- parse_elems_skip, skip_ws_nl, parse_elems_skip, (lit_app "]").
    rewrite parse_elems_indent; [done|done|done|done|simpl in *; lia].
  - destruct f as [|f]; [simpl in Hf; lia|]. destruct kvs as [|kv kvs]; [reflexivity|].
    destruct (skip_ws_indent_members lvl kv kvs (nl +:+ spaces lvl +:+ "}" +:+ t)) as [r Hs].
    rewrite print_indent_JObject, sapp_cons, <- !sapp_assoc.
    rewrite (parse_value_object_ws f _ r) by (by rewrite skip_ws_nl).
    rewrite <- parse_members_skip, skip_ws_nl, parse_members_skip, (lit_app "}").
    rewrite parse_members_indent; [done|done|done|done|simpl in *; lia].
Qed.

(** ** The fuel of [decode] is enough for the indented text *)

Lemma concat_sep_length_le sep1 sep2 l1 l2 :
  String.length sep1 <= String.length sep2 ->
  Forall2 (fun a b => String.length a <= String.length b) l1 l2 ->
  String.length (concat_sep sep1 l1) <= String.length (concat_sep sep2 l2).
Proof.
  intros Hs. induction 1 as [|a b l1 l2 Hab H IH]; [done|].
  destruct H as [|a' b' l1' l2' Hab' H']; [done|].
  rewrite !concat_sep_cons2, !sapp_length in *. lia.
Qed.

Lemma Forall2_map_length {A} (g1 g2 : A -> string) l :
  Forall (fun x => String.length (g1 x) <= String.length (g2 x)) l ->
  Forall2 (fun a b => String.length a <= String.length b) (map g1 l) (map g2 l).
Proof. induction 1; constructor; auto. Qed.

(** Indenting only adds white space: the indented text is never shorter. *)
Lemma print_indent_length j : forall lvl, String.length (print j) <= String.length (print_indent lvl j).
Proof.
  induction j as [| b | lit | s | l IHl | kvs IHkvs] using json_ind'; intros lvl;
    try (rewrite print_indent_scalar by (intros; discriminate); done).
  - destruct l as [|x l]; [done|]. rewrite print_JArray, print_indent_JArray.
    cbn [String.length]. rewrite !sapp_length. cbn [String.length].
    enough (String.length (concat_sep "," (map print (x :: l))) <=
            String.length (concat_sep ("," +:+ nl) (map (indent_elem lvl) (x :: l)))) by lia.
    apply concat_sep_length_le; [simpl; lia|]. apply Forall2_map_length.
    refine (Forall_impl _ _ IHl). intros y Hy.
    unfold indent_elem. rewrite sapp_length. specialize (Hy (S lvl)). lia.
  - destruct kvs as [|kv kvs]; [done|]. rewrite print_JObject, print_indent_JObject.
    cbn [String.length]. rewrite !sapp_length. cbn [String.length].
    enough (String.length (concat_sep "," (map print_member (kv :: kvs))) <=
            String.length (concat_sep ("," +:+ nl) (map (indent_member lvl) (kv :: kvs)))) by lia.
    apply concat_sep_length_le; [simpl; lia|]. apply Forall2_map_length.
    refine (Forall_impl _ _ IHkvs). intros [k v] Hy.
    unfold indent_member, print_member. cbn [fst snd]. rewrite !sapp_length. specialize (Hy (S lvl)).
    simpl in *. lia.
Qed.

(** The whole indented text, read with the fuel [decode] gives. *)
Lemma parse_value_print_indent_doc lvl j :
  json_wf j = true ->
  parse_value (2 * String.length (print_indent lvl j) + 2) (print_indent lvl j) = Some (j, "").
Proof.
  intros Hwf. rewrite <- (sapp_nil_r (print_indent lvl j)) at 2.
  apply parse_value_print_indent; [done| |done].
  pose proof (jsize_print j Hwf). pose proof (print_indent_length j lvl). lia.
Qed.

Lemma decode_print_indent lvl j : json_wf j = true -> decode (print_indent lvl j) = Some j.
Proof. intros Hwf. unfold decode. by rewrite parse_value_print_indent_doc. Qed.

(** With the concrete codec, [FmtJSON] of a printed document is its
    indented text. *)
Lemma FmtJSON_print j : json_wf j = true -> FmtJSON (C := GoCodec) (print j) = print_indent 0 j.
Proof. intros Hwf. unfold FmtJSON. cbn [jdecode GoCodec]. unfold decode. by rewrite parse_value_print_doc. Qed.

(** ** Properties *)

(** (C27) In debug mode, the first thing [Run] does with a payload it
    could marshal is echo it: the title line, then an indented text
    that the reader takes back to the marshalled document; and every
    request sent afterwards carries a body that is the same document.
    So the echo shows exactly what the server is sent. *)
Theorem Run_debug_echo_request url_ok URL h p j :
  Debug h = true -> marshal (GPtr p) = inr j ->
  exists s rest,
    go_trace (Run (C := GoCodec) url_ok URL h p) = EvStdout "--- REQUEST ---" :: EvStdout s :: rest /\
    decode s = Some j /\
    (forall rq, List.In (EvSend rq) rest -> decode (req_body rq) = Some j).
Proof.
  intros Hd Hm. pose proof (marshal_json_wf _ _ Hm) as Hwf.
  assert (HM : Marshal (C := GoCodec) (GPtr p) = inr (print j)) by (unfold Marshal; by rewrite Hm).
  pose proof (Run_trace (C := GoCodec) url_ok URL h p) as Htr.
  rewrite HM in Htr. unfold debug_echo in Htr. rewrite Hd in Htr. cbn in Htr.
  do 2 eexists. split; [exact Htr|]. split.
  - rewrite FmtJSON_print by done. by apply decode_print_indent.
  - intros rq Hin. destruct (Run_sent_request url_ok URL h p rq) as [b [Hb Hrq]].
    { rewrite Htr. by right; right. }
    rewrite HM in Hb. injection Hb as <-. destruct (build_request_spec _ _ _ _ _ Hrq) as (_ & _ & -> & _).
    unfold decode. by rewrite parse_value_print_doc.
Qed.

(** (C28) [FmtJSON] changes the layout of a body, never its document:
    for every body, compact or laid out by hand, JSON or not, the text
    the debug echo prints decodes exactly as the body does. *)
Theorem FmtJSON_decode b : decode (FmtJSON (C := GoCodec) b) = decode b.
Proof.
  unfold FmtJSON. cbn [jdecode GoCodec]. destruct (decode b) as [j|] eqn:Hb; [|done].
  apply decode_print_indent. revert Hb. unfold decode.
  destruct (parse_value _ b) as [[j' r]|] eqn:Hp; [|discriminate].
  destruct (nonempty (skip_ws r)); [discriminate|]. intros [= <-]. exact (proj1 (parse_wf _) _ _ _ Hp).
Qed.

(** ** Witnesses *)

Lemma Run_debug_echo_request_witness :
  exists s rest,
    go_trace (Run (C := GoCodec) sample_url_ok sample_url
                (sample_harper (Some (sample_client (Some (sample_response 200 "{}" None)) None)) "tok" true)
                sample_payload) = EvStdout "--- REQUEST ---" :: EvStdout s :: rest /\
    decode s = Some (JObject [("operation", JString "describe_all")]) /\
    (forall rq, List.In (EvSend rq) rest -> decode (req_body rq) = Some (JObject [("operation", JString "describe_all")])).
Proof. apply Run_debug_echo_request; reflexivity. Defined.

End DebugEcho.
