(* ===== verification/Endpoint.v ===== *)
(** * The shared endpoint: the package variable [URL] under concurrent sessions

    [URL] (line 25) is a package-level variable that every call of
    [Run] reads when it builds its request (line 51); the comment of
    lines 22-23 warns that goroutines wanting different endpoints must
    add logic of their own.  This file models the variable as shared
    state under an interleaving of goroutines: each goroutine of the
    caller is a list of [action]s (writing [URL], or calling [Run]
    through any operation), and a schedule picks which goroutine moves
    next.  A call of [Run] is one atomic step: it reads [URL] once, at
    line 51, and touches no other shared state, so every interleaving
    of its other steps gives the same result as running it whole at
    the moment of that read.  A panic in any goroutine ends the process.
    The executable scheduler [run_sched] and the step relation agree:
    every schedule ends in a reachable state and every reachable state
    is the end of a schedule ([run_sched_reachable],
    [reachable_run_sched]).

    The theorems: sessions that all use the same endpoint send every
    request there, in every reachable state (an invariant, by
    induction on the steps); sessions with different endpoints can
    send a request to the other session's endpoint, with nothing to
    report it: the events are those of a correct call to that
    endpoint, with no log line, a nil error and no crash. *)

From stdpp Require Import relations.
From S2P Require Import Prelude GoStrings Json GoJson Transport.

Open Scope string_scope.
Open Scope nat_scope.

Module Endpoint.
Import Json GoJson Transport.

(** ** Goroutines and the shared variable *)

(** What a goroutine of the caller does with the package. *)
Inductive action : Type :=
| SetURL (u : string)               (** [harper.URL = u] *)
| CallRun (h : Harper) (p : gval).  (** [h.Run(p)], directly or through an operation *)

(** The process: the package variable of line 25, what each goroutine
    has left to do, the events so far (tagged with their goroutine),
    and whether a goroutine has panicked. *)
Record config : Type := {
  URL_var : string;
  progs : list (list action);
  out : list (nat * event);
  crashed : bool
}.

Definition init (u0 : string) (ps : list (list action)) : config :=
  {| URL_var := u0; progs := ps; out := []; crashed := false |}.

Section Sched.
Context {C : JsonCodec}.
Variable url_ok : string -> bool.

(** One action of goroutine [i]: a write of the variable, or a whole
    call of [Run] with the value the variable has now. *)
Definition exec (i : nat) (a : action) (c : config) : config :=
  match a with
  | SetURL u => {| URL_var := u; progs := progs c; out := out c; crashed := crashed c |}
  | CallRun h p =>
      let r := Run url_ok (URL_var c) h p in
      {| URL_var := URL_var c; progs := progs c;
         out := out c ++ map (fun e => (i, e)) (go_trace r);
         crashed := match go_result r with Panic _ => true | Done _ => false end |}
  end.

(** Goroutine [i] moves, if the process is alive and [i] has work left. *)
Definition step_thread (i : nat) (c : config) : option config :=
  if crashed c then None else
  match progs c !! i with
  | Some (a :: rest) =>
      Some (exec i a {| URL_var := URL_var c; progs := <[i := rest]> (progs c);
                        out := out c; crashed := crashed c |})
  | _ => None
  end.

(** A schedule run to its end; a goroutine that cannot move is skipped. *)
Definition run_sched (s : list nat) (c : config) : config :=
  fold_left (fun c i => match step_thread i c with Some c' => c' | None => c end) s c.

(** The interleaving semantics: some goroutine moves. *)
Definition step (c c' : config) : Prop := exists i, step_thread i c = Some c'.

Definition reachable (c0 c : config) : Prop := rtc step c0 c.

End Sched.

(** A goroutine that writes only [u] into the variable. *)
Definition writes_only (u : string) (a : action) : Prop :=
  match a with SetURL v => v = u | CallRun _ _ => True end.

(** Every request sent in the events went to [u]. *)
Definition sends_to (u : string) (tr : list (nat * event)) : Prop :=
  forall i rq, List.In (i, EvSend rq) tr -> req_url rq = u.

(** The invariant of sessions that agree on the endpoint. *)
Definition agree (u : string) (c : config) : Prop :=
  URL_var c = u /\ Forall (Forall (writes_only u)) (progs c) /\ sends_to u (out c).

(** ** Lemmas *)

(** Every request [Run] sends goes to the URL it was given. *)
Lemma Run_sends_to {C : JsonCodec} url_ok U h p rq :
  List.In (EvSend rq) (go_trace (Run url_ok U h p)) -> req_url rq = U.
Proof.
  intros Hin. destruct (Run_sent_request url_ok _ _ _ _ Hin) as [b [_ Hb]].
  by destruct (build_request_spec url_ok _ _ _ _ Hb) as (_ & -> & _).
Qed.

Lemma sends_to_app u l1 l2 : sends_to u l1 -> sends_to u l2 -> sends_to u (l1 ++ l2).
Proof. intros H1 H2 i rq Hin. apply List.in_app_or in Hin as [Hin|Hin]; eauto. Qed.

Lemma sends_to_tag u i tr :
  (forall rq, List.In (EvSend rq) tr -> req_url rq = u) -> sends_to u (map (fun e => (i, e)) tr).
Proof. intros H j rq Hin. apply List.in_map_iff in Hin as (e & [= -> ->] & Hin). eauto. Qed.

Section SchedProps.
Context {C : JsonCodec}.
Variable url_ok : string -> bool.

Lemma run_sched_cons i s c :
  run_sched url_ok (i :: s) c =
  run_sched url_ok s (match step_thread url_ok i c with Some c' => c' | None => c end).
Proof. reflexivity. Qed.

(** Every schedule reaches a state of the interleaving semantics. *)
Lemma run_sched_reachable s c : reachable url_ok c (run_sched url_ok s c).
Proof.
  revert c. induction s as [|i s IH]; intros c; [apply rtc_refl|]. rewrite run_sched_cons.
  destruct (step_thread url_ok i c) as [c'|] eqn:Hs; [|apply IH].
  eapply rtc_l; [by exists i|apply IH].
Qed.

Lemma run_sched_app s s' c : run_sched url_ok (s ++ s')%list c = run_sched url_ok s' (run_sched url_ok s c).
Proof. unfold run_sched. apply fold_left_app. Qed.

(** The scheduler is complete for the interleaving semantics: every
    reachable state is the end of some schedule. *)
Lemma reachable_run_sched c0 c : reachable url_ok c0 c -> exists s, run_sched url_ok s c0 = c.
Proof.
  unfold reachable. revert c. apply (rtc_ind_r (fun c => exists s, run_sched url_ok s c0 = c)); [by exists []|].
  intros y z _ [i Hi] [s Hs]. exists (s ++ [i])%list.
  by rewrite run_sched_app, Hs, run_sched_cons, Hi.
Qed.

(** One step keeps sessions in agreement. *)
Lemma step_agree u c c' : step url_ok c c' -> agree u c -> agree u c'.
Proof.
  intros [i Hs] (Hu & Hp & Ho). unfold step_thread in Hs. destruct (crashed c); [discriminate|].
  destruct (progs c !! i) as [[|a rest]|] eqn:Hi; try discriminate. injection Hs as <-.
  pose proof (Forall_lookup_1 _ _ _ _ Hp Hi) as Hall. inversion Hall as [|? ? Ha Hrest]; subst.
  assert (Forall (Forall (writes_only (URL_var c))) (<[i:=rest]> (progs c))) by (by apply Forall_insert).
  destruct a as [v|h p]; cbn in Ha |- *; [subst; by split_and!|].
  split_and!; [done|done|]. apply sends_to_app; [done|].
  apply sends_to_tag. intros rq Hin. exact (Run_sends_to _ _ _ _ _ Hin).
Qed.

Lemma reachable_agree u c0 c : reachable url_ok c0 c -> agree u c0 -> agree u c.
Proof. induction 1; eauto using step_agree. Qed.

End SchedProps.

(** ** Properties *)

Section Sessions.
Context {C : JsonCodec}.
Variable url_ok : string -> bool.

(** (C30) Sessions that agree on the endpoint are safe to run
    concurrently: when the variable starts at [u] and every goroutine
    writes only [u] into it, every request sent, in every state of
    every interleaving, goes to [u]. *)
Theorem agreeing_sessions_safe u ps c :
  Forall (Forall (writes_only u)) ps -> reachable url_ok (init u ps) c -> sends_to u (out c).
Proof.
  intros Hps Hr. refine (proj2 (proj2 (reachable_agree url_ok u _ _ Hr _))).
  split_and!; [done|done|]. intros ? ? [].
Qed.

(** (C31) Sessions with different endpoints interfere, and nothing
    reports it: a goroutine that sets [URL] to [a] and then calls [Run]
    sends its request to [b] when another goroutine sets [URL] to [b]
    in between.  Everything the process does is that call of [Run]
    with [b]: outside standard output its only events are the send to
    [b] and the close (no log line), the call returns the server's
    body with a nil error, and the process does not crash. *)
Theorem shared_URL_race u0 a b hA hB pA pB bA cA r :
  a <> b -> Marshal (GPtr pA) = inr bA -> url_ok b = true -> Client hA = Some cA ->
  (forall rq, Do cA rq = (Some r, None)) -> StatusCode r = 200%Z -> BodyErr r = None ->
  let c := run_sched url_ok [0; 1; 0] (init u0 [[SetURL a; CallRun hA pA]; [SetURL b; CallRun hB pB]]) in
  out c = map (fun e => (0, e)) (go_trace (Run url_ok b hA pA)) /\
  go_result (Run url_ok b hA pA) = Done (Body r, None) /\
  crashed c = false /\
  exists rq, observable (go_trace (Run url_ok b hA pA)) = [EvSend rq; EvClose] /\
             req_url rq = b /\ req_url rq <> a.
Proof.
  intros Hab Hm Hu Hc Hd Hs He c.
  assert (Hr : go_result (Run url_ok b hA pA) = Done (Body r, None))
    by (rewrite (Run_answered url_ok b hA pA bA cA r) by done; by rewrite He).
  assert (Hcr : crashed c = match go_result (Run url_ok b hA pA) with Panic _ => true | Done _ => false end)
    by reflexivity.
  destruct (build_request_Some url_ok b hA bA Hu) as [req Hb].
  destruct (build_request_spec url_ok _ _ _ _ Hb) as (_ & Hurl & _).
  split_and!; [reflexivity|done|by rewrite Hcr, Hr|].
  exists req. rewrite (Run_ok_observable url_ok _ _ _ _ _ _ _ Hm Hb Hc (Hd req) Hs), He.
  split_and!; [done|done|by rewrite Hurl].
Qed.
End Sessions.

(** ** Witnesses *)

Definition sample_session : Harper :=
  sample_harper (Some (sample_client (Some (sample_response 200 "{}" None)) None)) "tok" false.

Lemma agreeing_sessions_safe_witness :
  let ps := [[SetURL sample_url; CallRun sample_session sample_payload];
             [CallRun sample_session sample_payload; SetURL sample_url]] in
  sends_to sample_url (out (run_sched sample_url_ok [0; 1; 1; 0] (init sample_url ps))).
Proof.
  intros ps. apply (agreeing_sessions_safe sample_url_ok sample_url ps).
  - repeat constructor.
  - apply run_sched_reachable.
Defined.

Lemma shared_URL_race_witness :
  let ps := [[SetURL "http://db-a:9925"; CallRun sample_session sample_payload];
             [SetURL "http://db-b:9925"; CallRun sample_session sample_payload]] in
  let c := run_sched sample_url_ok [0; 1; 0] (init sample_url ps) in
  out c = map (fun e => (0, e)) (go_trace (Run sample_url_ok "http://db-b:9925" sample_session sample_payload)) /\
  go_result (Run sample_url_ok "http://db-b:9925" sample_session sample_payload) = Done ("{}", None) /\
  crashed c = false /\
  exists rq, observable (go_trace (Run sample_url_ok "http://db-b:9925" sample_session sample_payload)) =
               [EvSend rq; EvClose] /\
             req_url rq = "http://db-b:9925" /\ req_url rq <> "http://db-a:9925".
Proof.
  intros ps c.
  apply (shared_URL_race sample_url_ok _ _ _ _ _ _ _ (jencode (JObject [("operation", JString "describe_all")]))
           (sample_client (Some (sample_response 200 "{}" None)) None) (sample_response 200 "{}" None));
    try reflexivity. discriminate.
Defined.

End Endpoint.
