(* ===== verification/Envelopes.v ===== *)
(** * Command envelopes: [AdminReq], [UpdtReq], [ReadReq] (src/api.go)

    Each struct is a record with the source's field names, in a module
    of its own (Go scopes field names by struct).  [to_gval] is the Go
    value [json.Marshal] sees: a struct whose fields carry their JSON
    tag names and [omitempty] flags, in declaration order.  The
    [interface{}] field [Records] holds the interface value itself:
    [GNil] for a nil interface, [GIface v] otherwise.  The lemmas
    [marshal_UpdtReq], [marshal_AdminReq] and [marshal_ReadReq] give
    the wire object of each envelope: ["operation"] always, every other
    member exactly when its field is not empty; the operations' wire
    theorems of [Operations] rest on them.  The [AdminReq] tags are
    also read the other way, by [json.Unmarshal] ([AdminReq.fields]),
    and [AdminReq_decode_marshal] shows the wire document determines
    the envelope: [omitempty] drops only values a fresh field already
    holds, and [Active], a [*bool], sends [false] rather than drop
    it. *)

From S2P Require Import Prelude GoStrings Json GoJson.

Open Scope string_scope.
Open Scope nat_scope.

Module Envelopes.
Import Json GoJson.

(** [omitempty] members of the wire object. *)
Definition opt_str (name s : string) : list (string * json) :=
  if nonempty s then [(name, JString s)] else [].

Definition opt_strs (name : string) (l : list string) : list (string * json) :=
  match l with [] => [] | _ => [(name, JArray (map JString l))] end.

(** A [[]string] field as a Go value (a nil and an empty slice marshal
    differently, but [omitempty] leaves both out). *)
Definition strings_gval (l : list string) : gval := GSlice false (map GString l).
Arguments strings_gval : simpl never.

Module AdminReq.
(** Lines 84-94. *)
Record AdminReq := mk {
  Operation : string;
  Schema : string;
  Table : string;
  Attribute : string;
  HashAttribute : string;
  Role : string;
  UserName : string;
  Password : string;
  Active : option bool      (** [*bool]: [None] is nil *)
}.

Definition to_gval (r : AdminReq) : gval :=
  GStruct [("operation", false, GString (Operation r));
           ("schema", true, GString (Schema r));
           ("table", true, GString (Table r));
           ("attribute", true, GString (Attribute r));
           ("hash_attribute", true, GString (HashAttribute r));
           ("role", true, GString (Role r));
           ("username", true, GString (UserName r));
           ("password", true, GString (Password r));
           ("active", true, match Active r with Some b => GPtr (GBool b) | None => GNil end)].

(** [var req AdminReq]: a fresh envelope. *)
Definition zero : AdminReq := mk "" "" "" "" "" "" "" "" None.

Definition set_Operation r v :=
  mk v (Schema r) (Table r) (Attribute r) (HashAttribute r) (Role r) (UserName r) (Password r) (Active r).
Definition set_Schema r v :=
  mk (Operation r) v (Table r) (Attribute r) (HashAttribute r) (Role r) (UserName r) (Password r) (Active r).
Definition set_Table r v :=
  mk (Operation r) (Schema r) v (Attribute r) (HashAttribute r) (Role r) (UserName r) (Password r) (Active r).
Definition set_Attribute r v :=
  mk (Operation r) (Schema r) (Table r) v (HashAttribute r) (Role r) (UserName r) (Password r) (Active r).
Definition set_HashAttribute r v :=
  mk (Operation r) (Schema r) (Table r) (Attribute r) v (Role r) (UserName r) (Password r) (Active r).
Definition set_Role r v :=
  mk (Operation r) (Schema r) (Table r) (Attribute r) (HashAttribute r) v (UserName r) (Password r) (Active r).
Definition set_UserName r v :=
  mk (Operation r) (Schema r) (Table r) (Attribute r) (HashAttribute r) (Role r) v (Password r) (Active r).
Definition set_Password r v :=
  mk (Operation r) (Schema r) (Table r) (Attribute r) (HashAttribute r) (Role r) (UserName r) v (Active r).
Definition set_Active r v :=
  mk (Operation r) (Schema r) (Table r) (Attribute r) (HashAttribute r) (Role r) (UserName r) (Password r) v.

(** The same tags read by [json.Unmarshal]: how the receiving side
    of the wire fills an [AdminReq]. *)
Definition fields : list (field_dec AdminReq) :=
  [string_field "operation" Operation set_Operation;
   string_field "schema" Schema set_Schema;
   string_field "table" Table set_Table;
   string_field "attribute" Attribute set_Attribute;
   string_field "hash_attribute" HashAttribute set_HashAttribute;
   string_field "role" Role set_Role;
   string_field "username" UserName set_UserName;
   string_field "password" Password set_Password;
   FieldDec "active" (fun j r => let '(v, e) := dec_bool_ptr "active" j (Active r) in (set_Active r v, e))].

Definition decode : json -> AdminReq -> AdminReq * option goerror := decode_struct fields.
End AdminReq.

Module UpdtReq.
(** Lines 112-119. *)
Record UpdtReq := mk {
  Operation : string;
  Schema : string;
  Table : string;
  Records : gval;           (** [interface{}] *)
  HashValues : list string;
  Sql : string
}.

Definition to_gval (r : UpdtReq) : gval :=
  GStruct [("operation", false, GString (Operation r));
           ("schema", true, GString (Schema r));
           ("table", true, GString (Table r));
           ("records", true, Records r);
           ("hash_values", true, strings_gval (HashValues r));
           ("sql", true, GString (Sql r))].

(** [req.Schema = s] *)
Definition set_Schema (r : UpdtReq) (s : string) : UpdtReq :=
  mk (Operation r) s (Table r) (Records r) (HashValues r) (Sql r).
End UpdtReq.

Module ReadReq.
(** Lines 192-201. *)
Record ReadReq := mk {
  Operation : string;
  Schema : string;
  Table : string;
  HashValues : list string;
  GetAttributes : list string;
  SearchAttribute : list string;
  SearchValue : list string;
  Sql : string
}.

Definition to_gval (r : ReadReq) : gval :=
  GStruct [("operation", false, GString (Operation r));
           ("schema", true, GString (Schema r));
           ("table", true, GString (Table r));
           ("hash_values", true, strings_gval (HashValues r));
           ("get_attributes", true, strings_gval (GetAttributes r));
           ("search_attribute", true, strings_gval (SearchAttribute r));
           ("search_value", true, strings_gval (SearchValue r));
           ("sql", true, GString (Sql r))].

Definition set_Schema (r : ReadReq) (s : string) : ReadReq :=
  mk (Operation r) s (Table r) (HashValues r) (GetAttributes r) (SearchAttribute r)
     (SearchValue r) (Sql r).
End ReadReq.

(** ** Lemmas *)

Lemma marshal_strings l : marshal (strings_gval l) = inr (JArray (map JString l)).
Proof.
  unfold strings_gval. rewrite marshal_GSlice. f_equal.
  induction l as [|s l IH]; [done|]. cbn [map]. rewrite marshal_elems_cons, marshal_GString.
  destruct (marshal_elems (map GString l)); [done|]. by injection IH as <-.
Qed.

Lemma isEmptyValue_string s : isEmptyValue (GString s) = negb (nonempty s).
Proof. reflexivity. Qed.

Lemma isEmptyValue_strings l : isEmptyValue (strings_gval l) = match l with [] => true | _ => false end.
Proof. by destruct l. Qed.

#[export] Hint Rewrite marshal_strings isEmptyValue_string isEmptyValue_strings : harper.

(** An empty value always marshals. *)
Lemma isEmptyValue_marshal v e : isEmptyValue v = true -> marshal v <> inl e.
Proof.
  destruct v as [| b | z | s | v | v | [] l | kvs | fs | ty]; simpl; try done.
  - destruct l; done.
  - destruct kvs; done.
Qed.

(** One field of a struct at a time: a required string, an [omitempty]
    string and an [omitempty] [[]string]. *)
Lemma marshal_fields_str name s l :
  marshal_fields ((name, false, GString s) :: l) =
  match marshal_fields l with inl e => inl e | inr js => inr ((name, JString s) :: js) end.
Proof. reflexivity. Qed.

Lemma marshal_fields_opt_str name s l :
  marshal_fields ((name, true, GString s) :: l) =
  match marshal_fields l with inl e => inl e | inr js => inr (opt_str name s ++ js)%list end.
Proof.
  rewrite marshal_fields_cons, isEmptyValue_string, marshal_GString. unfold opt_str.
  by destruct (nonempty s), (marshal_fields l).
Qed.

Lemma marshal_fields_opt_strs name l0 l :
  marshal_fields ((name, true, strings_gval l0) :: l) =
  match marshal_fields l with inl e => inl e | inr js => inr (opt_strs name l0 ++ js)%list end.
Proof.
  rewrite marshal_fields_cons, isEmptyValue_strings, marshal_strings. unfold opt_strs.
  by destruct l0, (marshal_fields l).
Qed.

(** Rewrites a struct's marshalling into its members. *)
Ltac wire_unfold :=
  rewrite marshal_GStruct;
  repeat first [rewrite marshal_fields_str | rewrite marshal_fields_opt_str | rewrite marshal_fields_opt_strs].

(** The wire form of an [UpdtReq]: ["operation"] first, then each
    of [schema], [table], [records], [hash_values], [sql] in field order
    exactly when it is not empty; marshalling fails only when the
    records fail to marshal. *)
Lemma marshal_UpdtReq r :
  marshal (UpdtReq.to_gval r) =
  match marshal (UpdtReq.Records r) with
  | inl e => inl e
  | inr jr =>
      inr (JObject ([("operation", JString (UpdtReq.Operation r))] ++
                    opt_str "schema" (UpdtReq.Schema r) ++ opt_str "table" (UpdtReq.Table r) ++
                    (if isEmptyValue (UpdtReq.Records r) then [] else [("records", jr)]) ++
                    opt_strs "hash_values" (UpdtReq.HashValues r) ++ opt_str "sql" (UpdtReq.Sql r))%list)
  end.
Proof.
  destruct r as [op sch tbl recs hv sql]. unfold UpdtReq.to_gval; cbn -[marshal isEmptyValue].
  wire_unfold. rewrite marshal_fields_cons, marshal_fields_opt_strs, marshal_fields_opt_str, marshal_fields_nil.
  destruct (isEmptyValue recs) eqn:He; simpl; rewrite ?app_nil_r.
  - destruct (marshal recs) as [e|jr] eqn:Hr; [|done].
    exfalso. exact (isEmptyValue_marshal _ e He Hr).
  - by destruct (marshal recs).
Qed.

(** The wire form of an [AdminReq]: ["operation"], every non-empty
    string field, and ["active"] exactly when [Active] is a non-nil
    pointer, including a pointer to [false]; it never fails. *)
Lemma marshal_AdminReq r :
  marshal (AdminReq.to_gval r) =
  inr (JObject ([("operation", JString (AdminReq.Operation r))] ++
                opt_str "schema" (AdminReq.Schema r) ++ opt_str "table" (AdminReq.Table r) ++
                opt_str "attribute" (AdminReq.Attribute r) ++
                opt_str "hash_attribute" (AdminReq.HashAttribute r) ++
                opt_str "role" (AdminReq.Role r) ++ opt_str "username" (AdminReq.UserName r) ++
                opt_str "password" (AdminReq.Password r) ++
                match AdminReq.Active r with Some b => [("active", JBool b)] | None => [] end)%list).
Proof.
  destruct r as [op sch tbl att ha role user pw act]. unfold AdminReq.to_gval; cbn -[marshal isEmptyValue].
  wire_unfold. rewrite marshal_fields_cons, marshal_fields_nil.
  destruct act; simpl; by rewrite ?app_nil_r.
Qed.

(** The envelope can be read back from its wire form: decoding the
    object of [marshal_AdminReq] into a fresh [AdminReq] gives the
    envelope itself, with no error.  Leaving out an empty string loses
    nothing, as [""] is what a fresh field holds; [Active] is a pointer,
    so [false] is sent and not left out. *)
Lemma AdminReq_decode_marshal r j :
  marshal (AdminReq.to_gval r) = inr j -> AdminReq.decode j AdminReq.zero = (r, None).
Proof.
  rewrite marshal_AdminReq. intros [= <-].
  destruct r as [op [|? ?] [|? ?] [|? ?] [|? ?] [|? ?] [|? ?] [|? ?] [b|]]; reflexivity.
Qed.

(** The wire form of a [ReadReq]: ["operation"] and each non-empty
    field in declaration order; it never fails. *)
Lemma marshal_ReadReq r :
  marshal (ReadReq.to_gval r) =
  inr (JObject ([("operation", JString (ReadReq.Operation r))] ++
                opt_str "schema" (ReadReq.Schema r) ++ opt_str "table" (ReadReq.Table r) ++
                opt_strs "hash_values" (ReadReq.HashValues r) ++
                opt_strs "get_attributes" (ReadReq.GetAttributes r) ++
                opt_strs "search_attribute" (ReadReq.SearchAttribute r) ++
                opt_strs "search_value" (ReadReq.SearchValue r) ++
                opt_str "sql" (ReadReq.Sql r))%list).
Proof.
  destruct r as [op sch tbl hv ga sa sv sql]. unfold ReadReq.to_gval; cbn -[marshal isEmptyValue].
  wire_unfold. rewrite ?marshal_fields_nil. simpl. by rewrite ?app_nil_r.
Qed.

End Envelopes.
