(* ===== verification/Results.v ===== *)
(** * Result decoders: [UpdtResult], [bulkResponse], [getJobId]
      (src/api.go, lines 102-109 and 238-249)

    [UpdtResult] is filled by [json.Unmarshal]; its decoding is the
    struct decoding of [GoJson] with the five tagged fields.  The
    identifiers are [[]string] fields: a JSON string array decodes to
    the same strings, a number in it is an [UnmarshalTypeError] (the
    hazard the note at the top of api.go warns about).  [getJobId] cuts
    the job id out of the free-text [message] of a bulk load: from three
    bytes after the first ["id"] to the end, ["not found"] when there is
    no ["id"]; the slice panics when the message ends with ["id"].
    [UpdtResult.spec] is the contract of the decoding, written without
    the decoder: unknown members are skipped, a member fills the field
    whose tag it has once folded as Go folds it ([fold_name]), and the
    last of repeated members
    wins; [decode_spec] proves the decoding meets it on every object
    whose known members have their fields' types. *)

From S2P Require Import Prelude GoStrings Json GoJson.

Open Scope string_scope.
Open Scope nat_scope.

Module Results.
Import GoStrings Json GoJson.

Module UpdtResult.
(** Lines 103-109. *)
Record UpdtResult := mk {
  Message : string;
  InsertedHashes : list string;
  UpdatedHashes : list string;
  DeletedHashes : list string;
  SkippedHashes : list string
}.

(** [var result UpdtResult] *)
Definition zero : UpdtResult := mk "" [] [] [] [].

Definition set_Message r v := mk v (InsertedHashes r) (UpdatedHashes r) (DeletedHashes r) (SkippedHashes r).
Definition set_InsertedHashes r v := mk (Message r) v (UpdatedHashes r) (DeletedHashes r) (SkippedHashes r).
Definition set_UpdatedHashes r v := mk (Message r) (InsertedHashes r) v (DeletedHashes r) (SkippedHashes r).
Definition set_DeletedHashes r v := mk (Message r) (InsertedHashes r) (UpdatedHashes r) v (SkippedHashes r).
Definition set_SkippedHashes r v := mk (Message r) (InsertedHashes r) (UpdatedHashes r) (DeletedHashes r) v.

(** The fields as [json.Unmarshal] sees them: tag names and stores. *)
Definition fields : list (field_dec UpdtResult) :=
  [string_field "message" Message set_Message;
   strings_field "inserted_hashes" InsertedHashes set_InsertedHashes;
   strings_field "update_hashes" UpdatedHashes set_UpdatedHashes;
   strings_field "deleted_hashes" DeletedHashes set_DeletedHashes;
   strings_field "skipped_hashes" SkippedHashes set_SkippedHashes].

Definition decode : json -> UpdtResult -> UpdtResult * option goerror := decode_struct fields.

(** The result document as the server writes it (spec, section 6). *)
Definition to_json (r : UpdtResult) : json :=
  JObject [("message", JString (Message r));
           ("inserted_hashes", JArray (map JString (InsertedHashes r)));
           ("update_hashes", JArray (map JString (UpdatedHashes r)));
           ("deleted_hashes", JArray (map JString (DeletedHashes r)));
           ("skipped_hashes", JArray (map JString (SkippedHashes r)))].

(** ** What the decoding promises

    Unknown members are skipped, a member fills the field whose tag
    it has up to case, and of several such members the last wins. *)

(** The value of the last member of [kvs] named [name] up to case. *)
Definition last_member (name : string) (kvs : list (string * json)) : option json :=
  fold_left (fun acc kv => if fold_eqb name (fst kv) then Some (snd kv) else acc) kvs None.

Definition spec_string (name : string) (kvs : list (string * json)) (old : string) : string :=
  match last_member name kvs with Some (JString s) => s | _ => old end.

Definition spec_strings (name : string) (kvs : list (string * json)) (old : list string) : list string :=
  match last_member name kvs with Some (JArray l) => strings_of l | Some _ => [] | None => old end.

Definition spec (kvs : list (string * json)) (r0 : UpdtResult) : UpdtResult :=
  mk (spec_string "message" kvs (Message r0))
     (spec_strings "inserted_hashes" kvs (InsertedHashes r0))
     (spec_strings "update_hashes" kvs (UpdatedHashes r0))
     (spec_strings "deleted_hashes" kvs (DeletedHashes r0))
     (spec_strings "skipped_hashes" kvs (SkippedHashes r0)).

(** Members whose values have the types of their fields: a string for
    ["message"], an array of strings or [null] for an id list; any
    other member may hold anything. *)
Definition strings_typed (j : json) : bool :=
  match j with JNull => true | JArray l => forallb is_jstring l | _ => false end.

Definition member_typed (kv : string * json) : bool :=
  if fold_eqb "message" (fst kv) then is_jstring (snd kv)
  else if fold_eqb "inserted_hashes" (fst kv) || fold_eqb "update_hashes" (fst kv) ||
          fold_eqb "deleted_hashes" (fst kv) || fold_eqb "skipped_hashes" (fst kv)
  then strings_typed (snd kv) else true.
End UpdtResult.

Module bulkResponse.
(** Lines 239-241. *)
Record bulkResponse := mk { Message : string }.

Definition zero : bulkResponse := mk "".

Definition fields : list (field_dec bulkResponse) :=
  [string_field "message" Message (fun _ v => mk v)].

Definition decode : json -> bulkResponse -> bulkResponse * option goerror := decode_struct fields.

(** Lines 243-249: [func (br bulkResponse) getJobId() string]. *)
Definition getJobId (br : bulkResponse) : outcome string :=
  let i := Index (Message br) "id" in
  if (i =? -1)%Z then Done "not found"
  else slice_from (i + 3) (Message br).
End bulkResponse.

(** ** Lemmas *)

Lemma prefix_id a b t :
  String.prefix "id" (String a (String b t)) = Ascii.eqb a "i" && Ascii.eqb b "d".
Proof.
  cbn [String.prefix].
  destruct (Ascii.eqb_spec a "i"), (Ascii.eqb_spec b "d"), (ascii_dec "i" a), (ascii_dec "d" b);
    subst; simpl; try congruence; by destruct t.
Qed.

(** An ["id"] found only at the end of [pre] cannot start before it:
    the byte after [pre] is ['i'], not ['d']. *)
Lemma id_not_before pre s :
  Index_nat pre "id" = None ->
  forall j, j < String.length pre -> occurs_at "id" (pre +:+ String "i" s) j = false.
Proof.
  induction pre as [|a pre IH]; intros Hn j Hj; [simpl in Hj; lia|].
  cbn [Index_nat] in Hn. destruct (String.prefix "id" (String a pre)) eqn:Hp; [done|].
  destruct (Index_nat pre "id") eqn:Hpre; [done|].
  rewrite sapp_cons. destruct j as [|j].
  - unfold occurs_at. cbn [sdrop]. destruct pre as [|b pre].
    + rewrite sapp_nil_l, prefix_id. by rewrite andb_false_r.
    + rewrite sapp_cons, prefix_id. by rewrite prefix_id in Hp.
  - unfold occurs_at. cbn [sdrop]. apply IH; [done|]. simpl in Hj. lia.
Qed.

Lemma Index_after_marker pre s :
  Index_nat pre "id" = None -> Index (pre +:+ "id" +:+ s) "id" = Z.of_nat (String.length pre).
Proof.
  intros Hn. unfold Index.
  rewrite Index_nat_after; [|by apply id_not_before].
  rewrite !sapp_cons, sapp_nil_l. cbn [Index_nat]. rewrite prefix_id. simpl. f_equal. lia.
Qed.

(** (C14) A message with no ["id"] gives the sentinel ["not found"]. *)
Theorem getJobId_not_found m :
  (forall j, occurs_at "id" m j = false) -> bulkResponse.getJobId (bulkResponse.mk m) = Done "not found".
Proof.
  intros H. unfold bulkResponse.getJobId, Index. simpl.
  by rewrite (proj2 (Index_nat_None m "id") H).
Qed.

(** (C13) The job id is what follows the first ["id"] and one more byte
    (the space of ["id 1234"] or the colon of ["id:1234"]), up to the
    end of the message. *)
Theorem getJobId_after_marker pre c rest :
  Index_nat pre "id" = None ->
  bulkResponse.getJobId (bulkResponse.mk (pre +:+ "id" +:+ String c rest)) = Done rest.
Proof.
  intros Hn. unfold bulkResponse.getJobId. cbn [bulkResponse.Message].
  rewrite Index_after_marker by done.
  destruct (Z.eqb_spec (Z.of_nat (String.length pre)) (-1)); [lia|].
  rewrite slice_from_ok; [|rewrite !sapp_length; simpl; lia].
  replace (Z.to_nat (Z.of_nat (String.length pre) + 3)) with (String.length pre + 3) by lia.
  by rewrite sdrop_app_add.
Qed.

(** (C15) A message whose only ["id"] is its last two bytes makes the
    slice [br.Message[i+3:]] run past the end: [getJobId] panics. *)
Theorem getJobId_marker_at_end_panics pre :
  Index_nat pre "id" = None ->
  bulkResponse.getJobId (bulkResponse.mk (pre +:+ "id")) = Panic SliceBounds.
Proof.
  intros Hn. unfold bulkResponse.getJobId. cbn [bulkResponse.Message].
  rewrite <- (sapp_nil_r "id"), Index_after_marker by done.
  destruct (Z.eqb_spec (Z.of_nat (String.length pre)) (-1)); [lia|].
  apply slice_from_panic. rewrite !sapp_length. simpl. lia.
Qed.

(** The example of the spec: the extractor does not return
    ["abc-123"] for ["...id of abc-123 has been created"] but the whole
    rest of the message after ["id "]. *)
Example getJobId_spec_example :
  bulkResponse.getJobId (bulkResponse.mk "...id of abc-123 has been created") =
  Done "of abc-123 has been created".
Proof. reflexivity. Qed.

(** *** The decoding meets its contract *)

Lemma last_member_snoc name kvs k v :
  UpdtResult.last_member name (kvs ++ [(k, v)]) =
  if fold_eqb name k then Some v else UpdtResult.last_member name kvs.
Proof. unfold UpdtResult.last_member. by rewrite fold_left_app. Qed.

Lemma dec_strings_typed field j old :
  UpdtResult.strings_typed j = true ->
  dec_strings field j old = (match j with JArray l => strings_of l | _ => [] end, None).
Proof. destruct j; try discriminate; [done|]. apply dec_elems_typed. Qed.

(** Once the member names are known up to case, the tests on them compute. *)
Ltac fold_names Hf :=
  rewrite ?(fold_eqb_swap _ _ _ Hf) in *; cbn [fold_eqb] in *; simpl in *.

(** One more member: the decoding follows the contract. *)
Lemma decode_member_spec kvs r0 k v :
  UpdtResult.member_typed (k, v) = true ->
  dec_members UpdtResult.fields [(k, v)] (UpdtResult.spec kvs r0) None =
  (UpdtResult.spec (kvs ++ [(k, v)]) r0, None).
Proof.
  intros Ht. unfold UpdtResult.member_typed in Ht. cbn [fst snd] in Ht. cbn [dec_members].
  unfold UpdtResult.spec, UpdtResult.spec_string, UpdtResult.spec_strings. rewrite !last_member_snoc.
  destruct (lookup_field UpdtResult.fields k) as [f|] eqn:Hl.
  - destruct (lookup_field_Some _ _ _ Hl) as [Hin Hf]. clear Hl.
    simpl in Hin. destruct Hin as [<-|[<-|[<-|[<-|[<-|[]]]]]]; cbn [fd_name string_field strings_field] in Hf;
      fold_names Hf; cbn [fd_set string_field strings_field];
      [destruct v; try discriminate; reflexivity|..];
      rewrite (dec_strings_typed _ _ _ Ht); by destruct v.
  - rewrite !(lookup_field_None_names _ _ _ Hl) by (simpl; auto 6). reflexivity.
Qed.

Lemma decode_spec kvs r0 :
  forallb UpdtResult.member_typed kvs = true ->
  UpdtResult.decode (JObject kvs) r0 = (UpdtResult.spec kvs r0, None).
Proof.
  unfold UpdtResult.decode, decode_struct.
  induction kvs as [|[k v] kvs IH] using rev_ind; intros Ht; [by destruct r0|].
  rewrite forallb_app in Ht. apply andb_prop in Ht as [Ht1 Ht2]. cbn [forallb] in Ht2.
  rewrite andb_true_r in Ht2. rewrite dec_members_app, IH by done. by apply decode_member_spec.
Qed.

(** (C21) A number among the inserted ids is an [UnmarshalTypeError],
    and the id in its place decodes to [""] while the others are kept. *)
Theorem UpdtResult_numeric_id pre n post :
  UpdtResult.decode
    (JObject [("inserted_hashes", JArray (map JString pre ++ JNumber n :: map JString post)%list)])
    UpdtResult.zero =
  (UpdtResult.mk "" (pre ++ "" :: post)%list [] [] [], Some (ErrUnmarshalType "number" "inserted_hashes")).
Proof.
  unfold UpdtResult.decode, decode_struct. cbn -[dec_strings].
  unfold dec_strings. rewrite dec_elems_number, drop_nil. simpl. rewrite dec_elems_strings. done.
Qed.

(** (C22) [json.Unmarshal] matches member names to fields ignoring case
    when no field has the exact name: a member whose name folds to
    ["message"] (["Message"], ["MESSAGE"], ...) fills [Message]. *)
Theorem UpdtResult_decode_case_fold k m :
  lower k = "message" ->
  UpdtResult.decode (JObject [(k, JString m)]) UpdtResult.zero = (UpdtResult.mk m [] [] [] [], None).
Proof.
  intros Hk. destruct (String.eqb_spec "message" k) as [<-|Hne]; [reflexivity|].
  assert (Hx : forall n, lower n = n -> n <> "message" -> String.eqb n k = false)
    by (intros n Hn1 Hn2; apply String.eqb_neq; intros <-; congruence).
  unfold UpdtResult.decode, decode_struct. cbn [dec_members]. unfold lookup_field.
  cbn [UpdtResult.fields List.find fd_name string_field strings_field].
  rewrite (proj2 (String.eqb_neq _ _) Hne), !Hx by (reflexivity || discriminate).
  cbn [List.find fd_name]. unfold fold_eqb.
  rewrite (fold_name_lower k), Hk by (rewrite Hk; reflexivity). reflexivity.
Qed.

(** A member named with U+017F (long s) in place of the first [s] of
    ["skipped_hashes"] fills [SkippedHashes], as Go's [foldName] folds
    that rune onto [s]. *)
Example decode_long_s :
  UpdtResult.decode
    (JObject [(String "197" (String "191" "kipped_hashes"), JArray [JString "x"])]) UpdtResult.zero =
  (UpdtResult.mk "" [] [] [] ["x"], None).
Proof. reflexivity. Qed.

(** ** Witnesses *)

Lemma getJobId_not_found_witness :
  bulkResponse.getJobId (bulkResponse.mk "CSV load started") = Done "not found".
Proof. apply getJobId_not_found. apply Index_nat_None. reflexivity. Defined.

Lemma getJobId_after_marker_witness :
  bulkResponse.getJobId (bulkResponse.mk ("Starting job with " +:+ "id" +:+ String " " "2a9b-77")) =
  Done "2a9b-77".
Proof. apply getJobId_after_marker. reflexivity. Defined.

Lemma getJobId_marker_at_end_panics_witness :
  bulkResponse.getJobId (bulkResponse.mk ("no job " +:+ "id")) = Panic SliceBounds.
Proof. apply getJobId_marker_at_end_panics. reflexivity. Defined.

Lemma UpdtResult_decode_case_fold_witness :
  UpdtResult.decode (JObject [("Message", JString "inserted 1 of 1 records")]) UpdtResult.zero =
  (UpdtResult.mk "inserted 1 of 1 records" [] [] [] [], None).
Proof. apply UpdtResult_decode_case_fold. reflexivity. Defined.

End Results.
