(* ===== verification/Csv.v ===== *)
(** * CSV lines for [CsvDataLoad]

    [CreateCSVLine] is called by [CsvDataLoad] (src/api.go, line 255)
    but defined outside src/; it is modelled from the spec: fields are
    joined by commas, a field containing a comma, a quote or a line
    break is quoted with its quotes doubled, and the line ends with a
    newline (the lines are concatenated into one blob).  [read_csv] is
    a reader of that standard convention (RFC 4180, newline as record
    separator), and the round trip shows the blob reads back as the
    rows written, every row having at least one field. *)

From S2P Require Import Prelude GoStrings Json.

Open Scope string_scope.
Open Scope nat_scope.

Module Csv.

Definition comma : ascii := ascii_of_nat 44.
Definition dquote : ascii := ascii_of_nat 34.
Definition newline : ascii := ascii_of_nat 10.
Definition cr : ascii := ascii_of_nat 13.

Definition special (c : ascii) : bool :=
  Ascii.eqb c comma || Ascii.eqb c dquote || Ascii.eqb c newline || Ascii.eqb c cr.

Fixpoint needs_quotes (f : string) : bool :=
  match f with
  | EmptyString => false
  | String c f' => special c || needs_quotes f'
  end.

(** Interior quotes doubled. *)
Fixpoint double_quotes (f : string) : string :=
  match f with
  | EmptyString => EmptyString
  | String c f' =>
      if Ascii.eqb c dquote then String dquote (String dquote (double_quotes f'))
      else String c (double_quotes f')
  end.

Definition quote_field (f : string) : string :=
  if needs_quotes f then String dquote (double_quotes f +:+ String dquote EmptyString) else f.

Fixpoint join_fields (l : list string) : string :=
  match l with
  | [] => ""
  | [f] => quote_field f
  | f :: l' => quote_field f +:+ String comma (join_fields l')
  end.

(** [CreateCSVLine(recValues []string) string] *)
Definition CreateCSVLine (fields : list string) : string :=
  join_fields fields +:+ String newline EmptyString.

(** [for _, recValues := range data { csvData.WriteString(CreateCSVLine(recValues)) }] *)
Fixpoint csv_blob (data : list (list string)) : string :=
  match data with
  | [] => ""
  | row :: data' => CreateCSVLine row +:+ csv_blob data'
  end.

(** ** A reader of the convention *)

Inductive rstate := FieldStart | Unquoted | Quoted | QuoteInQuoted.

(** [fld] is the field read so far (reversed), [row] the fields of the
    row so far (reversed), [rows] the rows read (reversed). *)
Fixpoint read (s : string) (st : rstate) (fld : list ascii) (row : list string)
    (rows : list (list string)) : option (list (list string)) :=
  let field := string_of_list_ascii (rev fld) in
  match s with
  | EmptyString =>
      match st with
      | FieldStart => match row with [] => Some (rev rows) | _ => Some (rev (rev ("" :: row) :: rows)) end
      | Unquoted | QuoteInQuoted => Some (rev (rev (field :: row) :: rows))
      | Quoted => None
      end
  | String c s' =>
      match st with
      | FieldStart =>
          if Ascii.eqb c dquote then read s' Quoted [] row rows
          else if Ascii.eqb c comma then read s' FieldStart [] ("" :: row) rows
          else if Ascii.eqb c newline then read s' FieldStart [] [] (rev ("" :: row) :: rows)
          else read s' Unquoted [c] row rows
      | Unquoted =>
          if Ascii.eqb c comma then read s' FieldStart [] (field :: row) rows
          else if Ascii.eqb c newline then read s' FieldStart [] [] (rev (field :: row) :: rows)
          else read s' Unquoted (c :: fld) row rows
      | Quoted =>
          if Ascii.eqb c dquote then read s' QuoteInQuoted fld row rows
          else read s' Quoted (c :: fld) row rows
      | QuoteInQuoted =>
          if Ascii.eqb c dquote then read s' Quoted (dquote :: fld) row rows
          else if Ascii.eqb c comma then read s' FieldStart [] (field :: row) rows
          else if Ascii.eqb c newline then read s' FieldStart [] [] (rev (field :: row) :: rows)
          else None
      end
  end.

Definition read_csv (s : string) : option (list (list string)) := read s FieldStart [] [] [].

(** ** Lemmas *)

Lemma special_false a :
  special a = false ->
  Ascii.eqb a comma = false /\ Ascii.eqb a dquote = false /\ Ascii.eqb a newline = false.
Proof. unfold special. rewrite !orb_false_iff. tauto. Qed.

Lemma string_of_rev_cons a (l : list ascii) f :
  string_of_list_ascii (rev l) = f ->
  string_of_list_ascii (rev (a :: l)) = f +:+ String a EmptyString.
Proof.
  intros <-. simpl. induction (rev l) as [|b l' IH]; [done|]. simpl. rewrite sapp_cons. by f_equal.
Qed.

(** An unquoted field is read byte by byte. *)
Lemma read_unquoted f s fld row rows :
  needs_quotes f = false ->
  read (f +:+ s) Unquoted fld row rows =
  read s Unquoted (rev (list_ascii_of_string f) ++ fld) row rows.
Proof.
  revert fld. induction f as [|a f IH]; intros fld H; [done|].
  simpl in H. apply orb_false_iff in H as [Ha Hf].
  destruct (special_false a Ha) as [H1 [H2 H3]].
  rewrite sapp_cons. simpl. rewrite H1, H3, IH by done.
  simpl. by rewrite <- app_assoc.
Qed.

(** A quoted field body is read back with its doubled quotes undone. *)
Lemma read_quoted f s fld row rows :
  read (double_quotes f +:+ s) Quoted fld row rows =
  read s Quoted (rev (list_ascii_of_string f) ++ fld) row rows.
Proof.
  revert fld. induction f as [|a f IH]; intros fld; [done|]. simpl.
  destruct (Ascii.eqb_spec a dquote) as [->|Ha].
  - rewrite !sapp_cons. simpl. rewrite IH. simpl. by rewrite <- app_assoc.
  - rewrite sapp_cons. simpl. destruct (Ascii.eqb_spec a dquote); [done|].
    rewrite IH. simpl. by rewrite <- app_assoc.
Qed.

Lemma string_of_rev_list f : string_of_list_ascii (rev (rev (list_ascii_of_string f))) = f.
Proof. rewrite rev_involutive. apply string_of_list_ascii_of_string. Qed.

(** One field followed by a comma or a newline. *)
Lemma read_field f c r row rows :
  c = comma \/ c = newline ->
  read (quote_field f +:+ String c r) FieldStart [] row rows =
  if Ascii.eqb c comma then read r FieldStart [] (f :: row) rows
  else read r FieldStart [] [] (rev (f :: row) :: rows).
Proof.
  intros Hc. assert (Ascii.eqb c dquote = false) as Hq by (destruct Hc; subst; done).
  unfold quote_field. destruct (needs_quotes f) eqn:Hn.
  - rewrite sapp_cons, <- sapp_assoc. simpl. rewrite read_quoted, sapp_cons, sapp_nil_l. simpl. rewrite Hq.
    rewrite app_nil_r, string_of_rev_list.
    destruct Hc as [->| ->]; done.
  - destruct f as [|a f].
    + simpl. rewrite Hq. destruct Hc as [->| ->]; done.
    + simpl in Hn. apply orb_false_iff in Hn as [Ha Hf].
      destruct (special_false a Ha) as [H1 [H2 H3]].
      rewrite sapp_cons. simpl. rewrite H1, H2, H3, read_unquoted by done. simpl.
      replace (string_of_list_ascii (rev (rev (list_ascii_of_string f) ++ [a])))
        with (String a f) by (rewrite rev_app_distr; simpl; by rewrite string_of_rev_list).
      destruct Hc as [->| ->]; done.
Qed.

(** One row of at least one field, with its newline. *)
Lemma read_row l r row rows :
  l <> [] ->
  read (join_fields l +:+ String newline r) FieldStart [] row rows =
  read r FieldStart [] [] ((rev row ++ l)%list :: rows).
Proof.
  revert row. induction l as [|f l IH]; intros row Hl; [done|].
  destruct l as [|f' l].
  - simpl join_fields. rewrite read_field by auto. simpl. done.
  - change (join_fields (f :: f' :: l)) with (quote_field f +:+ String comma (join_fields (f' :: l))).
    rewrite <- sapp_assoc, sapp_cons, read_field by auto. simpl.
    rewrite IH by done. simpl. by rewrite <- app_assoc.
Qed.

(** (C38) Round trip: the blob [CsvDataLoad] builds reads back as the rows
    it was built from, whatever commas, quotes and line breaks the
    fields hold, provided every row has a field. *)
Theorem read_csv_blob data :
  Forall (fun row => row <> []) data -> read_csv (csv_blob data) = Some data.
Proof.
  intros H. unfold read_csv. change (Some data) with (Some (rev [] ++ data)%list).
  generalize (@nil (list string)) as acc.
  induction H as [|row data Hrow Hdata IH]; intros acc; simpl.
  - by rewrite app_nil_r.
  - unfold CreateCSVLine. rewrite <- sapp_assoc, sapp_cons, read_row by done.
    simpl. rewrite IH. simpl. by rewrite <- app_assoc.
Qed.

(** The example of the spec: in the blob of the row, a field with a
    comma is quoted, and a field with a quote is quoted with the quote
    doubled; the line ends with a newline. *)
Example CreateCSVLine_spec_example :
  csv_blob [["a,b"; String "c" (String dquote (String "d" EmptyString))]] =
  String dquote ("a,b" +:+ String dquote (String comma (String dquote
    (String "c" (String dquote (String dquote (String "d" (String dquote (String newline EmptyString))))))))).
Proof. reflexivity. Qed.

(** A row with no field is written as an empty line, which reads back
    as a row of one empty field: the two are not distinguished. *)
Example csv_empty_row : read_csv (csv_blob [[]]) = Some [[""]].
Proof. reflexivity. Qed.

(** ** Witnesses *)

Lemma read_csv_blob_witness :
  read_csv (csv_blob [["a,b"; String "c" (String dquote (String "d" EmptyString))]; [""]; ["x"; ""]]) =
  Some [["a,b"; String "c" (String dquote (String "d" EmptyString))]; [""]; ["x"; ""]].
Proof. apply read_csv_blob. repeat constructor; discriminate. Defined.
End Csv.
