(* ===== verification/Operations.v ===== *)
(** * Operations: the [Process] methods and the convenience functions
      (src/api.go, lines 96-98, 121-188, 204-234, 252-272)

    Each operation builds an envelope, hands it to [Run] as an
    [interface{}] holding a pointer to it, and decodes the response.
    [UpdtReq.Process] and [ReadReq.Process] first copy the session's
    default schema into an envelope whose [Schema] is empty; the caller
    sees the changed envelope, which is returned with the result, so
    an envelope submitted again keeps the schema of the first session
    ([UpdtReq_Process_reuse]).
    [ReadReq.Process] decodes into a caller-supplied target: its type
    [T] and the decoding [dec] of a document into it are parameters. *)

From S2P Require Import Prelude GoStrings Json GoJson Transport Envelopes Results Csv.

Open Scope string_scope.
Open Scope nat_scope.

Module Operations.
Import Json GoJson Transport Envelopes Results Csv.

Section Ops.
Context {C : JsonCodec}.
Variable url_ok : string -> bool.
Variable URL : string.

(** [harper.Run(req)] with [req] a pointer to the envelope. *)
Definition envelope (v : gval) : gval := GIface (GPtr v).

(** Lines 96-98. *)
Definition AdminReq_Process (req : AdminReq.AdminReq) (h : Harper) : Go event (string * option goerror) :=
  Run url_ok URL h (envelope (AdminReq.to_gval req)).

(** Lines 122-124 and 205-207: [if req.Schema == "" { req.Schema = harper.Schema }]. *)
Definition default_updt_schema (req : UpdtReq.UpdtReq) (h : Harper) : UpdtReq.UpdtReq :=
  if nonempty (UpdtReq.Schema req) then req else UpdtReq.set_Schema req (Schema h).

Definition default_read_schema (req : ReadReq.ReadReq) (h : Harper) : ReadReq.ReadReq :=
  if nonempty (ReadReq.Schema req) then req else ReadReq.set_Schema req (Schema h).

(** Lines 128-130: skipped ids with no error are an error. *)
Definition skipped_error (result : UpdtResult.UpdtResult) (err : option goerror) : option goerror :=
  if negb (bool_decide (UpdtResult.SkippedHashes result = [])) && bool_decide (err = None)
  then Some (ErrNew "skipped_hashes") else err.

(** Lines 121-132: [func (req *UpdtReq) Process(harper *Harper) (pointer to UpdtResult, error)].
    The error of [json.Unmarshal] (line 127) is not looked at. *)
Definition UpdtReq_Process (req : UpdtReq.UpdtReq) (h : Harper)
    : Go event (UpdtReq.UpdtReq * (UpdtResult.UpdtResult * option goerror)) :=
  let req := default_updt_schema req h in
  (r <- Run url_ok URL h (envelope (UpdtReq.to_gval req)) ;;
   let '(response, err) := r in
   let '(result, _) := Unmarshal UpdtResult.decode response UpdtResult.zero in
   go_ret (req, (result, skipped_error result err)))%go.

Definition mutate (op table : string) (records : gval) (sql : string) (h : Harper)
    : Go event (UpdtResult.UpdtResult * option goerror) :=
  (r <- UpdtReq_Process (UpdtReq.mk op "" table records [] sql) h ;; go_ret (snd r))%go.

(** Lines 135-143. [records] is the [interface{}] argument. *)
Definition Update (h : Harper) (table : string) (records : gval) := mutate "update" table records "" h.

(** Lines 146-155: [records := []interface{}{record}]. *)
Definition UpdateOne (h : Harper) (table : string) (record : gval) :=
  mutate "update" table (GIface (GSlice false [record])) "" h.

(** Lines 158-165. *)
Definition UpdateSql (h : Harper) (sql : string) := mutate "sql" "" GNil sql h.

(** Lines 168-176. *)
Definition Insert (h : Harper) (table : string) (records : gval) := mutate "insert" table records "" h.

(** Lines 179-188. *)
Definition InsertOne (h : Harper) (table : string) (record : gval) :=
  mutate "insert" table (GIface (GSlice false [record])) "" h.

Section Read.
Context {T : Type}.
Variable dec : json -> T -> T * option goerror.

(** Lines 204-214: [func (req *ReadReq) Process(harper *Harper, result interface{}) error];
    the target after the call is returned. *)
Definition ReadReq_Process (req : ReadReq.ReadReq) (h : Harper) (result : T)
    : Go event (ReadReq.ReadReq * (T * option goerror)) :=
  let req := default_read_schema req h in
  (r <- Run url_ok URL h (envelope (ReadReq.to_gval req)) ;;
   let '(response, err) := r in
   match err with
   | Some _ => go_ret (req, (result, err))
   | None => go_ret (req, Unmarshal dec response result)
   end)%go.

(** Lines 217-225. *)
Definition Get (h : Harper) (table : string) (result : T) (recIds : list string)
    : Go event (T * option goerror) :=
  (r <- ReadReq_Process (ReadReq.mk "search_by_hash" "" table recIds ["*"] [] [] "") h result ;;
   go_ret (snd r))%go.

(** Lines 228-234. *)
Definition Select (h : Harper) (sql : string) (result : T) : Go event (T * option goerror) :=
  (r <- ReadReq_Process (ReadReq.mk "sql" "" "" [] [] [] [] sql) h result ;; go_ret (snd r))%go.
End Read.

(** Lines 258-264: the [map[string]interface{}] payload. *)
Definition csv_payload (h : Harper) (table action csvData : string) : gval :=
  GMap [("schema", GIface (GString (Schema h)));
        ("operation", GIface (GString "csv_data_load"));
        ("action", GIface (GString action));
        ("table", GIface (GString table));
        ("data", GIface (GString csvData))].

(** Lines 252-272: [func CsvDataLoad(harper *Harper, table, action string, data [][]string) (string, error)].
    The error of [json.Unmarshal] (line 270) is not looked at. *)
Definition CsvDataLoad (h : Harper) (table action : string) (data : list (list string))
    : Go event (string * option goerror) :=
  let csvData := csv_blob data in
  (r <- Run url_ok URL h (GIface (GPtr (csv_payload h table action csvData))) ;;
   let '(response, err) := r in
   match err with
   | Some _ => go_ret ("", err)
   | None =>
       let '(result, _) := Unmarshal bulkResponse.decode response bulkResponse.zero in
       id <- go_lift (bulkResponse.getJobId result) ;;
       go_ret (id, None)
   end)%go.
End Ops.

(** ** Sessions used by the examples *)

Definition sample_ok_harper (body : string) : Harper :=
  sample_harper (Some (sample_client (Some (sample_response 200 body None)) None)) "tok" false.
Definition sample_rejecting_harper : Harper :=
  sample_harper (Some (sample_client (Some (sample_response 500 "" None)) None)) "tok" false.
Definition sample_updt : UpdtReq.UpdtReq := UpdtReq.mk "insert" "" "dogs" (GIface (GSlice false [])) [] "".
Definition sample_result : UpdtResult.UpdtResult := UpdtResult.mk "inserted 1 of 2 records" ["a1"] [] [] ["b2"].
Definition sample_dog : gval := GIface (GStruct [("name", false, GString "rex")]).
Definition sample_truncated_client (body : string) : HttpClient :=
  sample_client (Some (sample_response 200 body (Some (ErrRead "unexpected EOF")))) None.

(** The document a mutation helper sends: the operation, the session's
    schema, the table, the records (when not empty) and the statement,
    each optional member only when set. *)
Definition mutation_wire (h : Harper) (op table : string) (records : option json) (sql : string) : json :=
  JObject ([("operation", JString op)] ++ opt_str "schema" (Schema h) ++ opt_str "table" table ++
           match records with Some jr => [("records", jr)] | None => [] end ++ opt_str "sql" sql)%list.

(** ** Properties *)

Section OpsProps.
Context {C : JsonCodec}.
Variable url_ok : string -> bool.
Variable URL : string.

Lemma marshal_envelope v : marshal (GPtr (envelope v)) = marshal v.
Proof. unfold envelope. by rewrite marshal_GPtr, marshal_GIface, marshal_GPtr. Qed.

(** What a sent envelope's body is. *)
Lemma sent_envelope h v rq :
  List.In (EvSend rq) (go_trace (Run url_ok URL h (envelope v))) ->
  exists j, marshal v = inr j /\ req_body rq = jencode j.
Proof.
  intros Hin. destruct (Run_sent_body url_ok _ _ _ _ Hin) as (j & Hj & ->).
  rewrite marshal_envelope in Hj. eauto.
Qed.

Lemma Marshal_envelope_ok v j : marshal v = inr j -> Marshal (GPtr (envelope v)) = inr (jencode j).
Proof. intros H. unfold Marshal, envelope. by rewrite marshal_GPtr, marshal_GIface, marshal_GPtr, H. Qed.

(** The envelope of a mutation marshals whenever its records do. *)
Lemma marshal_default_updt req h jr :
  marshal (UpdtReq.Records req) = inr jr -> exists j, marshal (UpdtReq.to_gval (default_updt_schema req h)) = inr j.
Proof.
  intros Hr. rewrite marshal_UpdtReq. unfold default_updt_schema.
  destruct (nonempty (UpdtReq.Schema req)); cbn [UpdtReq.set_Schema UpdtReq.Records]; rewrite Hr; eauto.
Qed.

Lemma UpdtReq_Process_trace req h :
  go_trace (UpdtReq_Process url_ok URL req h) =
  go_trace (Run url_ok URL h (envelope (UpdtReq.to_gval (default_updt_schema req h)))).
Proof.
  apply go_trace_bind_silent. intros [response err]. simpl.
  by destruct (Unmarshal UpdtResult.decode response UpdtResult.zero).
Qed.

Lemma UpdtReq_Process_result req h :
  go_result (UpdtReq_Process url_ok URL req h) =
  match go_result (Run url_ok URL h (envelope (UpdtReq.to_gval (default_updt_schema req h)))) with
  | Done (response, err) =>
      let '(result, _) := Unmarshal UpdtResult.decode response UpdtResult.zero in
      Done (default_updt_schema req h, (result, skipped_error result err))
  | Panic p => Panic p
  end.
Proof.
  unfold UpdtReq_Process. rewrite go_result_bind.
  destruct (go_result _) as [[response err]|p]; [|done].
  by destruct (Unmarshal UpdtResult.decode response UpdtResult.zero).
Qed.

Lemma mutate_trace op table records sql h :
  go_trace (mutate url_ok URL op table records sql h) =
  go_trace (UpdtReq_Process url_ok URL (UpdtReq.mk op "" table records [] sql) h).
Proof. by apply go_trace_bind_silent. Qed.

Lemma ReadReq_Process_trace {T} (dec : json -> T -> T * option goerror) req h t :
  go_trace (ReadReq_Process url_ok URL dec req h t) =
  go_trace (Run url_ok URL h (envelope (ReadReq.to_gval (default_read_schema req h)))).
Proof. apply go_trace_bind_silent. intros [response [e|]]; done. Qed.

Lemma ReadReq_Process_result {T} (dec : json -> T -> T * option goerror) req h t :
  go_result (ReadReq_Process url_ok URL dec req h t) =
  match go_result (Run url_ok URL h (envelope (ReadReq.to_gval (default_read_schema req h)))) with
  | Done (response, Some e) => Done (default_read_schema req h, (t, Some e))
  | Done (response, None) => Done (default_read_schema req h, Unmarshal dec response t)
  | Panic p => Panic p
  end.
Proof.
  unfold ReadReq_Process. rewrite go_result_bind.
  by destruct (go_result _) as [[response [e|]]|p].
Qed.

(** The schema member of a wire object built by [marshal_UpdtReq]. *)
Lemma member_schema_updt r j :
  marshal (UpdtReq.to_gval r) = inr j ->
  member "schema" j = if nonempty (UpdtReq.Schema r) then Some (JString (UpdtReq.Schema r)) else None.
Proof.
  rewrite marshal_UpdtReq. destruct (marshal (UpdtReq.Records r)) as [e|jr]; [done|].
  intros [= <-]. unfold opt_str, opt_strs.
  destruct (nonempty (UpdtReq.Schema r)), (nonempty (UpdtReq.Table r)),
    (isEmptyValue (UpdtReq.Records r)), (UpdtReq.HashValues r), (nonempty (UpdtReq.Sql r)); done.
Qed.

Lemma default_updt_schema_Schema req h :
  UpdtReq.Schema (default_updt_schema req h) =
  if nonempty (UpdtReq.Schema req) then UpdtReq.Schema req else Schema h.
Proof. unfold default_updt_schema. by destruct (nonempty (UpdtReq.Schema req)). Qed.

Lemma default_updt_schema_empty op table records hv sql h :
  default_updt_schema (UpdtReq.mk op "" table records hv sql) h =
  UpdtReq.mk op (Schema h) table records hv sql.
Proof. reflexivity. Qed.

Lemma default_read_schema_empty op table hv ga sa sv sql h :
  default_read_schema (ReadReq.mk op "" table hv ga sa sv sql) h =
  ReadReq.mk op (Schema h) table hv ga sa sv sql.
Proof. reflexivity. Qed.

(** (C4) Schema defaulting, default-then-send: the envelope [UpdtReq.Process]
    sends carries the request's schema when it is set and the session's
    default otherwise (none when both are empty), and the request
    returned to the caller has that schema written into it. *)
Theorem UpdtReq_Process_schema req h :
  let s := if nonempty (UpdtReq.Schema req) then UpdtReq.Schema req else Schema h in
  (forall rq, List.In (EvSend rq) (go_trace (UpdtReq_Process url_ok URL req h)) ->
     exists j, req_body rq = jencode j /\
               member "schema" j = if nonempty s then Some (JString s) else None) /\
  (forall req' res, go_result (UpdtReq_Process url_ok URL req h) = Done (req', res) ->
     UpdtReq.Schema req' = s).
Proof.
  simpl. split.
  - intros rq Hin. rewrite UpdtReq_Process_trace in Hin.
    destruct (sent_envelope _ _ _ Hin) as [j [Hj Hb]]. exists j. split; [done|].
    rewrite (member_schema_updt _ _ Hj). by rewrite default_updt_schema_Schema.
  - intros req' res. rewrite UpdtReq_Process_result.
    destruct (go_result _) as [[response err]|p]; [|done].
    destruct (Unmarshal _ _ _). intros [= <- _]. apply default_updt_schema_Schema.
Qed.

(** (C5) Partial failure: when [Run] succeeds and the decoded result
    lists skipped ids, [UpdtReq.Process] returns the result together
    with the error ["skipped_hashes"]. *)
Theorem UpdtReq_Process_skipped req h response result e :
  go_result (Run url_ok URL h (envelope (UpdtReq.to_gval (default_updt_schema req h)))) =
    Done (response, None) ->
  Unmarshal UpdtResult.decode response UpdtResult.zero = (result, e) ->
  UpdtResult.SkippedHashes result <> [] ->
  go_result (UpdtReq_Process url_ok URL req h) =
    Done (default_updt_schema req h, (result, Some (ErrNew "skipped_hashes"))).
Proof.
  intros Hr Hu Hs. rewrite UpdtReq_Process_result, Hr, Hu. unfold skipped_error.
  by rewrite bool_decide_false, bool_decide_true.
Qed.

(** (C6) A response that is not JSON is not reported: [UpdtReq.Process]
    drops the error of [json.Unmarshal] and returns an empty result
    with a nil error. *)
Theorem UpdtReq_Process_ignores_decode_error req h response :
  go_result (Run url_ok URL h (envelope (UpdtReq.to_gval (default_updt_schema req h)))) =
    Done (response, None) ->
  jdecode response = None ->
  go_result (UpdtReq_Process url_ok URL req h) =
    Done (default_updt_schema req h, (UpdtResult.zero, None)).
Proof.
  intros Hr Hd. unfold UpdtReq_Process. rewrite go_result_bind, Hr.
  by rewrite (Unmarshal_syntax_error _ _ _ Hd).
Qed.

(** (C3) End to end: a mutation the server rejects with a non-200
    status and no transport error reaches the caller as an empty
    result and a nil error, indistinguishable from success. *)
Theorem UpdtReq_Process_rejected req h b rq c r :
  jdecode "" = None ->
  Marshal (GPtr (envelope (UpdtReq.to_gval (default_updt_schema req h)))) = inr b ->
  build_request url_ok URL h b = Some rq ->
  Client h = Some c ->
  Do c rq = (Some r, None) ->
  StatusCode r <> 200%Z ->
  go_result (UpdtReq_Process url_ok URL req h) =
    Done (default_updt_schema req h, (UpdtResult.zero, None)).
Proof.
  intros He Hm Hb Hc Hd Hs.
  unfold UpdtReq_Process. rewrite go_result_bind, (Run_not_ok_result url_ok _ _ _ _ _ _ _ Hm Hb Hc Hd Hs).
  by rewrite (Unmarshal_syntax_error _ _ _ He).
Qed.

(** (C37) End to end for reads: a non-200 status reaches the caller of
    [ReadReq.Process] as the JSON syntax error of decoding an empty
    body, with the target untouched, not as the remote rejection. *)
Theorem ReadReq_Process_rejected {T} (dec : json -> T -> T * option goerror) req h t b rq c r :
  jdecode "" = None ->
  Marshal (GPtr (envelope (ReadReq.to_gval (default_read_schema req h)))) = inr b ->
  build_request url_ok URL h b = Some rq ->
  Client h = Some c ->
  Do c rq = (Some r, None) ->
  StatusCode r <> 200%Z ->
  go_result (ReadReq_Process url_ok URL dec req h t) =
    Done (default_read_schema req h, (t, Some ErrSyntax)).
Proof.
  intros He Hm Hb Hc Hd Hs. rewrite ReadReq_Process_result.
  rewrite (Run_not_ok_result url_ok _ _ _ _ _ _ _ Hm Hb Hc Hd Hs).
  by rewrite (Unmarshal_syntax_error _ _ _ He).
Qed.

(** (C33) [Get] asks for every attribute (["*"]) of the given ids with
    the operation ["search_by_hash"], in the session's default schema
    (the envelope it builds has none of its own). *)
Theorem Get_wire {T} (dec : json -> T -> T * option goerror) h table t recIds rq :
  List.In (EvSend rq) (go_trace (Get url_ok URL dec h table t recIds)) ->
  exists j, req_body rq = jencode j /\
            member "operation" j = Some (JString "search_by_hash") /\
            member "schema" j = (if nonempty (Schema h) then Some (JString (Schema h)) else None) /\
            member "hash_values" j = (match recIds with [] => None | _ => Some (JArray (map JString recIds)) end) /\
            member "get_attributes" j = Some (JArray [JString "*"]).
Proof.
  intros Hin. unfold Get in Hin. rewrite go_trace_bind_silent, ReadReq_Process_trace in Hin; [|done].
  rewrite default_read_schema_empty in Hin.
  destruct (sent_envelope _ _ _ Hin) as [j [Hj Hb]]. exists j. split; [done|].
  rewrite marshal_ReadReq in Hj. injection Hj as <-. unfold opt_str, opt_strs. simpl.
  destruct (nonempty (Schema h)), (nonempty table), recIds; done.
Qed.

(** (C35) The bulk-load document: the map's keys in sorted order, the
    session's schema always present (even when empty), and the rows as
    one CSV blob. *)
Theorem CsvDataLoad_wire h table action data rq :
  List.In (EvSend rq) (go_trace (CsvDataLoad url_ok URL h table action data)) ->
  req_body rq = jencode (JObject [("action", JString action); ("data", JString (csv_blob data));
                                  ("operation", JString "csv_data_load");
                                  ("schema", JString (Schema h)); ("table", JString table)]).
Proof.
  intros Hin. unfold CsvDataLoad in Hin.
  rewrite go_trace_bind_silent in Hin; [|intros [response [e|]]; simpl; [done|]].
  - destruct (sent_envelope _ _ _ Hin) as [j [Hj ->]]. by injection Hj as <-.
  - destruct (Unmarshal _ _ _) as [res e]. by destruct (bulkResponse.getJobId res).
Qed.

(** (C36) A bulk-load response that is not JSON is not reported:
    [CsvDataLoad] decodes nothing, finds no ["id"] in the empty message
    and returns the job id ["not found"] with a nil error. *)
Theorem CsvDataLoad_ignores_decode_error h table action data response :
  go_result (Run url_ok URL h (GIface (GPtr (csv_payload h table action (csv_blob data))))) =
    Done (response, None) ->
  jdecode response = None ->
  go_result (CsvDataLoad url_ok URL h table action data) = Done ("not found", None).
Proof.
  intros Hr Hd. unfold CsvDataLoad. rewrite go_result_bind, Hr.
  rewrite (Unmarshal_syntax_error _ _ _ Hd). reflexivity.
Qed.
(** The body a mutation helper sends: its envelope, with the session's
    schema (the envelope's own is empty), marshalled. *)
Lemma mutate_sent op table records sql h rq :
  List.In (EvSend rq) (go_trace (mutate url_ok URL op table records sql h)) ->
  exists j, marshal (UpdtReq.to_gval (UpdtReq.mk op (Schema h) table records [] sql)) = inr j /\
            req_body rq = jencode j.
Proof.
  intros Hin. rewrite mutate_trace, UpdtReq_Process_trace, default_updt_schema_empty in Hin.
  exact (sent_envelope _ _ _ Hin).
Qed.

(** What every mutation helper sends. *)
Lemma mutate_wire op table records sql h jr rq :
  marshal records = inr jr ->
  List.In (EvSend rq) (go_trace (mutate url_ok URL op table records sql h)) ->
  req_body rq = jencode (mutation_wire h op table (if isEmptyValue records then None else Some jr) sql).
Proof.
  intros Hr Hin. destruct (mutate_sent _ _ _ _ _ _ Hin) as [j [Hj ->]].
  rewrite marshal_UpdtReq in Hj.
  cbn [UpdtReq.Records UpdtReq.Schema UpdtReq.Table UpdtReq.HashValues UpdtReq.Sql UpdtReq.Operation] in Hj.
  rewrite Hr in Hj. injection Hj as <-. unfold mutation_wire. by destruct (isEmptyValue records).
Qed.

(** (C32) The five mutation helpers and their wire documents: [Update]
    and [Insert] send their records as given (none when empty),
    [UpdateOne] and [InsertOne] wrap their record in a one-element
    array, [UpdateSql] sends the statement and no table or records;
    each with its operation name and the session's schema. *)
Theorem mutation_helpers_wire h table records record sql jr jr1 rq :
  marshal records = inr jr -> marshal record = inr jr1 ->
  let recs := if isEmptyValue records then None else Some jr in
  (List.In (EvSend rq) (go_trace (Update url_ok URL h table records)) ->
     req_body rq = jencode (mutation_wire h "update" table recs "")) /\
  (List.In (EvSend rq) (go_trace (UpdateOne url_ok URL h table record)) ->
     req_body rq = jencode (mutation_wire h "update" table (Some (JArray [jr1])) "")) /\
  (List.In (EvSend rq) (go_trace (UpdateSql url_ok URL h sql)) ->
     req_body rq = jencode (mutation_wire h "sql" "" None sql)) /\
  (List.In (EvSend rq) (go_trace (Insert url_ok URL h table records)) ->
     req_body rq = jencode (mutation_wire h "insert" table recs "")) /\
  (List.In (EvSend rq) (go_trace (InsertOne url_ok URL h table record)) ->
     req_body rq = jencode (mutation_wire h "insert" table (Some (JArray [jr1])) "")).
Proof.
  intros Hr Hr1 recs.
  assert (Hone : marshal (GIface (GSlice false [record])) = inr (JArray [jr1]))
    by (by rewrite marshal_GIface, marshal_GSlice, marshal_elems_cons, Hr1).
  split_and!; intros Hin.
  - exact (mutate_wire _ _ _ _ _ _ _ Hr Hin).
  - exact (mutate_wire _ _ _ _ _ _ _ Hone Hin).
  - exact (mutate_wire "sql" "" GNil sql h JNull rq eq_refl Hin).
  - exact (mutate_wire _ _ _ _ _ _ _ Hr Hin).
  - exact (mutate_wire _ _ _ _ _ _ _ Hone Hin).
Qed.

(** (C34) [Select] is not free of schema framing: besides the operation
    ["sql"] and the query it sends the session's default schema
    whenever that is set, since [ReadReq.Process] defaults it. *)
Theorem Select_wire {T} (dec : json -> T -> T * option goerror) h sql t rq :
  List.In (EvSend rq) (go_trace (Select url_ok URL dec h sql t)) ->
  req_body rq = jencode (JObject ([("operation", JString "sql")] ++ opt_str "schema" (Schema h) ++
                                  opt_str "sql" sql)%list).
Proof.
  intros Hin. unfold Select in Hin. rewrite go_trace_bind_silent, ReadReq_Process_trace in Hin; [|done].
  rewrite default_read_schema_empty in Hin.
  destruct (sent_envelope _ _ _ Hin) as [j [Hj ->]].
  rewrite marshal_ReadReq in Hj. injection Hj as <-. done.
Qed.

(** (C24) A body read that fails after status 200 reaches the caller of
    [UpdtReq.Process] as that read error, with the result decoded from
    the bytes that were read; the ["skipped_hashes"] check never
    replaces it. *)
Theorem UpdtReq_Process_read_error req h jr c r e :
  marshal (UpdtReq.Records req) = inr jr -> url_ok URL = true -> Client h = Some c ->
  (forall rq, Do c rq = (Some r, None)) -> StatusCode r = 200%Z -> BodyErr r = Some e ->
  go_result (UpdtReq_Process url_ok URL req h) =
    Done (default_updt_schema req h, (fst (Unmarshal UpdtResult.decode (Body r) UpdtResult.zero), Some e)).
Proof.
  intros Hr Hu Hc Hd Hs He. destruct (marshal_default_updt req h jr Hr) as [j Hj].
  rewrite UpdtReq_Process_result, (Run_answered url_ok URL h _ _ c r (Marshal_envelope_ok _ _ Hj)), He by done.
  destruct (Unmarshal _ _ _) as [result err]. unfold skipped_error. by rewrite andb_false_r.
Qed.

(** (C25) The envelope is the caller's: [UpdtReq.Process] writes the
    session's schema into the caller's [UpdtReq] through its pointer
    receiver (line 123), so the same envelope submitted again through
    a second session carries the first session's schema and not the
    second's. *)
Theorem UpdtReq_Process_reuse req h1 h2 req' res rq :
  UpdtReq.Schema req = "" -> nonempty (Schema h1) = true ->
  go_result (UpdtReq_Process url_ok URL req h1) = Done (req', res) ->
  List.In (EvSend rq) (go_trace (UpdtReq_Process url_ok URL req' h2)) ->
  exists j, req_body rq = jencode j /\ member "schema" j = Some (JString (Schema h1)).
Proof.
  intros Hs H1 Hr Hin. rewrite UpdtReq_Process_result in Hr.
  destruct (go_result _) as [[response err]|p]; [|discriminate].
  destruct (Unmarshal _ _ _). injection Hr as <- _.
  rewrite UpdtReq_Process_trace in Hin. destruct (sent_envelope _ _ _ Hin) as [j [Hj Hb]].
  exists j. split; [done|]. rewrite (member_schema_updt _ _ Hj), !default_updt_schema_Schema, Hs.
  change (nonempty "") with false. cbn iota. by rewrite !H1.
Qed.

End OpsProps.

(** ** Witnesses *)

Lemma UpdtReq_Process_schema_witness :
  let req := sample_updt in
  let h := sample_ok_harper "{}" in
  let s := if nonempty (UpdtReq.Schema req) then UpdtReq.Schema req else Schema h in
  (forall rq, List.In (EvSend rq) (go_trace (UpdtReq_Process sample_url_ok sample_url req h)) ->
     exists j, req_body rq = jencode j /\ member "schema" j = if nonempty s then Some (JString s) else None) /\
  (forall req' res, go_result (UpdtReq_Process sample_url_ok sample_url req h) = Done (req', res) ->
     UpdtReq.Schema req' = s).
Proof. apply UpdtReq_Process_schema. Defined.

Lemma UpdtReq_Process_skipped_witness :
  go_result (UpdtReq_Process sample_url_ok sample_url sample_updt
               (sample_ok_harper (jencode (UpdtResult.to_json sample_result)))) =
  Done (default_updt_schema sample_updt (sample_ok_harper (jencode (UpdtResult.to_json sample_result))),
        (sample_result, Some (ErrNew "skipped_hashes"))).
Proof.
  eapply (UpdtReq_Process_skipped _ _ _ _ _ _ None); [reflexivity|vm_compute; reflexivity|discriminate].
Defined.

Lemma UpdtReq_Process_ignores_decode_error_witness :
  go_result (UpdtReq_Process sample_url_ok sample_url sample_updt (sample_ok_harper "<html>")) =
  Done (default_updt_schema sample_updt (sample_ok_harper "<html>"), (UpdtResult.zero, None)).
Proof. apply (UpdtReq_Process_ignores_decode_error _ _ _ _ "<html>"); vm_compute; reflexivity. Defined.

Lemma UpdtReq_Process_rejected_witness :
  go_result (UpdtReq_Process sample_url_ok sample_url sample_updt sample_rejecting_harper) =
  Done (default_updt_schema sample_updt sample_rejecting_harper, (UpdtResult.zero, None)).
Proof.
  eapply (UpdtReq_Process_rejected _ _ _ _ _ _ (sample_client (Some (sample_response 500 "" None)) None)
            (sample_response 500 "" None)); try reflexivity. discriminate.
Defined.

(** A rejected read of a table into a JSON document target. *)
Lemma ReadReq_Process_rejected_witness :
  let req := ReadReq.mk "search_by_hash" "" "dogs" ["a1"] ["*"] [] [] "" in
  go_result (ReadReq_Process sample_url_ok sample_url (fun j (_ : json) => (j, None)) req sample_rejecting_harper JNull) =
  Done (default_read_schema req sample_rejecting_harper, (JNull, Some ErrSyntax)).
Proof.
  intros req.
  eapply (ReadReq_Process_rejected _ _ _ _ _ _ _ _ (sample_client (Some (sample_response 500 "" None)) None)
            (sample_response 500 "" None)); try reflexivity. discriminate.
Defined.

Lemma Get_wire_witness :
  let rq := {| req_method := "POST"; req_url := sample_url;
               req_header := [("Content-Type", "application/json"); ("Authorization", "Bearer tok")];
               req_body := jencode (JObject [("operation", JString "search_by_hash"); ("schema", JString "dev");
                                             ("table", JString "dogs"); ("hash_values", JArray [JString "a1"]);
                                             ("get_attributes", JArray [JString "*"])]) |} in
  exists j, req_body rq = jencode j /\ member "operation" j = Some (JString "search_by_hash") /\
            member "schema" j = Some (JString "dev") /\
            member "hash_values" j = Some (JArray (map JString ["a1"])) /\
            member "get_attributes" j = Some (JArray [JString "*"]).
Proof.
  intros rq.
  apply (Get_wire sample_url_ok sample_url UpdtResult.decode (sample_ok_harper "{}") "dogs" UpdtResult.zero ["a1"]).
  vm_compute; auto.
Defined.

Lemma CsvDataLoad_wire_witness :
  let rq := {| req_method := "POST"; req_url := sample_url;
               req_header := [("Content-Type", "application/json"); ("Authorization", "Bearer tok")];
               req_body := jencode (JObject [("action", JString "insert"); ("data", JString (csv_blob [["1"; "rex"]]));
                                             ("operation", JString "csv_data_load");
                                             ("schema", JString "dev"); ("table", JString "dogs")]) |} in
  req_body rq = jencode (JObject [("action", JString "insert"); ("data", JString (csv_blob [["1"; "rex"]]));
                                  ("operation", JString "csv_data_load");
                                  ("schema", JString (Schema (sample_ok_harper "{}"))); ("table", JString "dogs")]).
Proof.
  intros rq. apply (CsvDataLoad_wire sample_url_ok sample_url (sample_ok_harper "{}") "dogs" "insert" [["1"; "rex"]]).
  vm_compute; auto.
Defined.

Lemma CsvDataLoad_ignores_decode_error_witness :
  go_result (CsvDataLoad sample_url_ok sample_url (sample_ok_harper "<html>") "dogs" "insert" [["1"; "rex"]]) =
  Done ("not found", None).
Proof. apply (CsvDataLoad_ignores_decode_error _ _ _ _ _ _ "<html>"); vm_compute; reflexivity. Defined.

Lemma Select_wire_witness :
  let rq := {| req_method := "POST"; req_url := sample_url;
               req_header := [("Content-Type", "application/json"); ("Authorization", "Bearer tok")];
               req_body := jencode (JObject [("operation", JString "sql"); ("schema", JString "dev");
                                             ("sql", JString "SELECT * FROM other.cats")]) |} in
  req_body rq = jencode (JObject ([("operation", JString "sql")] ++ opt_str "schema" (Schema (sample_ok_harper "{}")) ++
                                  opt_str "sql" "SELECT * FROM other.cats")%list).
Proof.
  intros rq.
  apply (Select_wire sample_url_ok sample_url UpdtResult.decode (sample_ok_harper "{}") "SELECT * FROM other.cats"
           UpdtResult.zero).
  vm_compute; auto.
Defined.

Lemma UpdtReq_Process_read_error_witness :
  let h := sample_harper (Some (sample_truncated_client "{" )) "tok" false in
  go_result (UpdtReq_Process sample_url_ok sample_url sample_updt h) =
    Done (default_updt_schema sample_updt h, (UpdtResult.zero, Some (ErrRead "unexpected EOF"))).
Proof.
  intros h.
  rewrite (UpdtReq_Process_read_error sample_url_ok sample_url sample_updt h (JArray []) (sample_truncated_client "{")
             (sample_response 200 "{" (Some (ErrRead "unexpected EOF"))) (ErrRead "unexpected EOF"))
    by (try intros; reflexivity).
  vm_compute. reflexivity.
Defined.

(** The envelope of [sample_updt], filled in by a session with schema
    ["dev"], sent again through a session with schema ["prod"]. *)
Lemma UpdtReq_Process_reuse_witness :
  let h1 := sample_ok_harper "{}" in
  let h2 := {| Client := Client h1; AuthToken := "tok"; Schema := "prod"; Debug := false |} in
  let req' := default_updt_schema sample_updt h1 in
  exists rq, List.In (EvSend rq) (go_trace (UpdtReq_Process sample_url_ok sample_url req' h2)) /\
    exists j, req_body rq = jencode j /\ member "schema" j = Some (JString "dev").
Proof.
  intros h1 h2 req'. eexists. split; [cbv; left; reflexivity|].
  apply (UpdtReq_Process_reuse sample_url_ok sample_url sample_updt h1 h2 req'
           (UpdtResult.zero, None)); [reflexivity|reflexivity|vm_compute; reflexivity|].
  cbv; left; reflexivity.
Defined.

Lemma mutation_helpers_wire_witness :
  let h := sample_ok_harper "{}" in
  let recs := if isEmptyValue (GSlice false [sample_dog]) then None else Some (JArray [JObject [("name", JString "rex")]]) in
  let rq := {| req_method := "POST"; req_url := sample_url;
               req_header := [("Content-Type", "application/json"); ("Authorization", "Bearer tok")];
               req_body := jencode (mutation_wire h "insert" "dogs" (Some (JArray [JObject [("name", JString "rex")]])) "") |} in
  (List.In (EvSend rq) (go_trace (Update sample_url_ok sample_url h "dogs" (GSlice false [sample_dog]))) ->
     req_body rq = jencode (mutation_wire h "update" "dogs" recs "")) /\
  (List.In (EvSend rq) (go_trace (UpdateOne sample_url_ok sample_url h "dogs" sample_dog)) ->
     req_body rq = jencode (mutation_wire h "update" "dogs" (Some (JArray [JObject [("name", JString "rex")]])) "")) /\
  (List.In (EvSend rq) (go_trace (UpdateSql sample_url_ok sample_url h "UPDATE dev.dogs SET age = 3")) ->
     req_body rq = jencode (mutation_wire h "sql" "" None "UPDATE dev.dogs SET age = 3")) /\
  (List.In (EvSend rq) (go_trace (Insert sample_url_ok sample_url h "dogs" (GSlice false [sample_dog]))) ->
     req_body rq = jencode (mutation_wire h "insert" "dogs" recs "")) /\
  (List.In (EvSend rq) (go_trace (InsertOne sample_url_ok sample_url h "dogs" sample_dog)) ->
     req_body rq = jencode (mutation_wire h "insert" "dogs" (Some (JArray [JObject [("name", JString "rex")]])) "")).
Proof.
  intros h recs rq. apply (mutation_helpers_wire sample_url_ok sample_url h "dogs" (GSlice false [sample_dog]) sample_dog);
    reflexivity.
Defined.

End Operations.
