(* ===== verification/EndToEnd.v ===== *)
(** * The parts together: marshalling, transport and decoding

    The theorems here are stated for any codec that meets the contract
    [JsonCodecLaws] (the serializer capability of the spec: decoding
    what was encoded gives it back), so they hold of [GoCodec] through
    the instance [GoCodec_laws] below, and of any other lawful
    codec.  They follow a document from the caller's value to the
    server and a reply from the server to the caller's result:
    the body [Run] sends decodes to the document [json.Marshal] built,
    and the [AdminReq] the server reads from it is the caller's; a
    mutation reply, in any layout and with repeated or unknown members,
    comes back as the result [UpdtResult.spec] gives (with the
    ["skipped_hashes"] rule applied to the last such member; this one
    needs no law of the codec); a read answered with a document gives
    the caller of [Get] the target decoded from it; and a bulk-load
    reply comes back as the job id [getJobId] cuts out of its message,
    including the slice panic. *)

From S2P Require Import Prelude GoStrings Json JsonLaws GoJson Transport Envelopes Results Csv Operations.

Open Scope string_scope.
Open Scope nat_scope.

Module EndToEnd.
Import Json JsonLaws GoJson Transport Envelopes Results Csv Operations.

(** ** The concrete codec is lawful *)

#[export] Instance GoCodec_laws : JsonCodecLaws GoCodec.
Proof.
  split; [|reflexivity]. intros j Hwf. cbn [jencode jdecode GoCodec].
  unfold decode. by rewrite parse_value_print_doc.
Qed.

(** ** Lemmas *)

Lemma bulkResponse_decode_message m :
  bulkResponse.decode (JObject [("message", JString m)]) bulkResponse.zero = (bulkResponse.mk m, None).
Proof. reflexivity. Qed.

Section Codec.
Context {C : JsonCodec}.
Variable url_ok : string -> bool.
Variable URL : string.

(** (C17) The mutation result is what its contract says, whatever the
    layout of the reply: when [Run] answers with a body that reads as
    an object whose known members have their fields' types, the caller
    of [UpdtReq.Process] gets the result in which unknown members are
    skipped and each field holds the last member with its tag (up to
    case, as Go's [foldName] matches them), with the error
    ["skipped_hashes"] when that last list is not empty and no error
    otherwise. *)
Theorem UpdtReq_Process_refines req h body kvs :
  go_result (Run url_ok URL h (envelope (UpdtReq.to_gval (default_updt_schema req h)))) = Done (body, None) ->
  jdecode body = Some (JObject kvs) -> forallb UpdtResult.member_typed kvs = true ->
  go_result (UpdtReq_Process url_ok URL req h) =
    Done (default_updt_schema req h,
          (UpdtResult.spec kvs UpdtResult.zero,
           match UpdtResult.SkippedHashes (UpdtResult.spec kvs UpdtResult.zero) with
           | [] => None
           | _ :: _ => Some (ErrNew "skipped_hashes")
           end)).
Proof.
  intros Hr Hb Ht. rewrite UpdtReq_Process_result, Hr.
  rewrite (Unmarshal_decoded _ _ _ _ Hb), decode_spec by done. unfold skipped_error.
  by destruct (UpdtResult.SkippedHashes _).
Qed.
End Codec.

Section Lawful.
Context {C : JsonCodec} {L : JsonCodecLaws C}.
Variable url_ok : string -> bool.
Variable URL : string.

(** (C18) What the server receives is what the client meant: every
    request [Run] sends carries a body that decodes to the document
    [json.Marshal] built from the payload. *)
Theorem Run_body_decodes h p rq :
  List.In (EvSend rq) (go_trace (Run url_ok URL h p)) ->
  exists j, marshal (GPtr p) = inr j /\ jdecode (req_body rq) = Some j.
Proof.
  intros Hin. destruct (Run_sent_body url_ok _ _ _ _ Hin) as (j & Hj & ->).
  exists j. split; [done|]. apply jdecode_jencode. exact (marshal_json_wf _ _ Hj).
Qed.

(** (C19) The administrative envelope reaches the server whole: the
    body of every request [AdminReq.Process] sends, read by
    [json.Unmarshal] into a fresh [AdminReq], gives back the caller's
    envelope with no error.  In particular the schema sent is the
    envelope's own (never the session's), and an [Active] pointer to
    [false] arrives as [false], not as an omitted member. *)
Theorem AdminReq_Process_roundtrip req h rq :
  List.In (EvSend rq) (go_trace (AdminReq_Process url_ok URL req h)) ->
  Unmarshal AdminReq.decode (req_body rq) AdminReq.zero = (req, None).
Proof.
  intros Hin. destruct (sent_envelope url_ok URL _ _ _ Hin) as (j & Hj & ->).
  rewrite (Unmarshal_decoded _ _ _ j) by (apply jdecode_jencode; exact (marshal_json_wf _ _ Hj)).
  exact (AdminReq_decode_marshal _ _ Hj).
Qed.

(** (C20) A bulk load answered with the server's status message returns
    the job id [getJobId] cuts out of that message, with a nil error,
    and panics where [getJobId] panics. *)
Theorem CsvDataLoad_job_id h table action data m :
  go_result (Run url_ok URL h (GIface (GPtr (csv_payload h table action (csv_blob data))))) =
    Done (jencode (JObject [("message", JString m)]), None) ->
  go_result (CsvDataLoad url_ok URL h table action data) =
    match bulkResponse.getJobId (bulkResponse.mk m) with
    | Done id => Done (id, None)
    | Panic p => Panic p
    end.
Proof.
  intros Hr. unfold CsvDataLoad. rewrite go_result_bind, Hr.
  rewrite (Unmarshal_decoded _ _ _ (JObject [("message", JString m)])) by (by apply jdecode_jencode).
  rewrite bulkResponse_decode_message. unfold go_result, go_bind, go_lift.
  by destruct (bulkResponse.getJobId (bulkResponse.mk m)).
Qed.
(** (C26) A read answered with status 200 and a document gives the
    caller of [Get] the target decoded from that document, with the
    error of that decoding. *)
Theorem Get_decodes_result {T} (dec : json -> T -> T * option goerror) h table t recIds c r j :
  url_ok URL = true -> Client h = Some c -> (forall rq, Do c rq = (Some r, None)) -> StatusCode r = 200%Z ->
  Body r = jencode j -> BodyErr r = None -> json_wf j = true ->
  go_result (Get url_ok URL dec h table t recIds) = Done (dec j t).
Proof.
  intros Hu Hc Hd Hs Hb He Hwf. unfold Get. rewrite go_result_bind, ReadReq_Process_result.
  rewrite (Run_answered url_ok URL h _ _ c r (Marshal_envelope_ok _ _ (marshal_ReadReq _))), He, Hb by done.
  by rewrite (Unmarshal_decoded _ _ _ j) by (by apply jdecode_jencode).
Qed.
End Lawful.

(** ** Witnesses, with the concrete codec *)

Lemma Run_body_decodes_witness :
  exists j, marshal (GPtr sample_payload) = inr j /\
            jdecode (jencode (JObject [("operation", JString "describe_all")])) = Some j.
Proof.
  apply (Run_body_decodes sample_url_ok sample_url (sample_ok_harper "{}") sample_payload
           {| req_method := "POST"; req_url := sample_url;
              req_header := [("Content-Type", "application/json"); ("Authorization", "Bearer tok")];
              req_body := jencode (JObject [("operation", JString "describe_all")]) |}).
  vm_compute. auto.
Defined.

(** A reply that lists a skipped id and then repeats the member, its
    first [s] written as U+017F, with no ids: the last one counts, the
    unknown member is skipped, and the call is reported as a full
    success. *)
Lemma UpdtReq_Process_refines_witness :
  let kvs := [("skipped_hashes", JArray [JString "b2"]); ("message", JString "inserted 1 of 2 records");
              ("inserted_hashes", JArray [JString "a1"]); ("txn_time", JNumber "1700000000");
              (String "197" (String "191" "kipped_hashes"), JArray [])] in
  let h := sample_ok_harper (jencode (JObject kvs)) in
  go_result (UpdtReq_Process sample_url_ok sample_url sample_updt h) =
    Done (default_updt_schema sample_updt h,
          (UpdtResult.spec kvs UpdtResult.zero,
           match UpdtResult.SkippedHashes (UpdtResult.spec kvs UpdtResult.zero) with
           | [] => None
           | _ :: _ => Some (ErrNew "skipped_hashes")
           end)) /\
  UpdtResult.spec kvs UpdtResult.zero = UpdtResult.mk "inserted 1 of 2 records" ["a1"] [] [] [].
Proof.
  intros kvs h. split; [|reflexivity].
  apply (UpdtReq_Process_refines sample_url_ok sample_url sample_updt h (jencode (JObject kvs)) kvs);
    vm_compute; reflexivity.
Defined.

Lemma AdminReq_Process_roundtrip_witness :
  let req := AdminReq.mk "add_user" "" "" "" "" "developer" "hdb_user" "secret" (Some false) in
  exists rq, List.In (EvSend rq) (go_trace (AdminReq_Process sample_url_ok sample_url req (sample_ok_harper "{}"))) /\
    Unmarshal AdminReq.decode (req_body rq) AdminReq.zero = (req, None).
Proof.
  intros req. eexists. split; [cbv; left; reflexivity|].
  apply (AdminReq_Process_roundtrip sample_url_ok sample_url req (sample_ok_harper "{}")).
  cbv; left; reflexivity.
Defined.

Lemma CsvDataLoad_job_id_witness :
  let h := sample_ok_harper (jencode (JObject [("message", JString "Starting job with id 7f3a")])) in
  go_result (CsvDataLoad sample_url_ok sample_url h "dogs" "insert" [["1"; "rex"]]) =
  match bulkResponse.getJobId (bulkResponse.mk "Starting job with id 7f3a") with
  | Done id => Done (id, None)
  | Panic p => Panic p
  end.
Proof. intros h. apply CsvDataLoad_job_id. vm_compute. reflexivity. Defined.

Lemma Get_decodes_result_witness :
  let doc := JArray [JObject [("id", JString "a1"); ("name", JString "rex")]] in
  let c := sample_client (Some (sample_response 200 (jencode doc) None)) None in
  go_result (Get sample_url_ok sample_url (fun j (_ : json) => (j, None)) (sample_harper (Some c) "tok" false)
               "dogs" JNull ["a1"]) = Done (doc, None).
Proof.
  intros doc c.
  apply (Get_decodes_result sample_url_ok sample_url (fun j (_ : json) => (j, None)) _ "dogs" JNull ["a1"] c
           (sample_response 200 (jencode doc) None) doc); try intros; reflexivity.
Defined.

End EndToEnd.
